(** * Ames housing dashboard: a shallow embedding of [app.py] and
      [streamlit_app.py]

    The two scripts load [AmesHousing.csv] with pandas, derive a log-price
    column, fill the missing garage types, and render three analyses with
    Streamlit.  This development embeds the scripts as functions over an
    explicit page/figure store with Python exceptions, and states the
    properties of the dashboard over that embedding.

    Numbers are IEEE binary64 values ([PrimFloat.float]); a missing value is
    the NaN, as in pandas.  The numerical routines the scripts call and never
    define ([numpy.log1p], the statsmodels fit and ANOVA table, the scipy
    tests) are the fields of the class [Libs]. *)

From Stdlib Require Import ZArith List String Bool Lia Sorted Permutation.
From Stdlib Require Import Floats.
Import ListNotations.

(* Decimal literals such as 0.05 denote the nearest binary64 value, as in
   Python. *)
Set Warnings "-inexact-float".

Local Open Scope string_scope.
Local Open Scope list_scope.

(* ===================================================================== *)
(** ** Python exceptions and results *)

Inductive Exc :=
| FileNotFoundError
| KeyError (key : string)
| TypeError (what : string)
| ValueError (what : string)
| PatsyError
| StreamlitAPIException.

(** A computation that returns or raises. *)
Definition result (A : Type) : Type := Exc + A.

Definition ok {A} (a : A) : result A := inr a.
Definition raise_ {A} (e : Exc) : result A := inl e.

Definition rbind {A B} (r : result A) (k : A -> result B) : result B :=
  match r with
  | inl e => inl e
  | inr a => k a
  end.

Fixpoint rmap {A B} (f : A -> result B) (l : list A) : result (list B) :=
  match l with
  | [] => ok []
  | x :: l' =>
      rbind (f x) (fun y => rbind (rmap f l') (fun ys => ok (y :: ys)))
  end.

(* ===================================================================== *)
(** ** Cells, series and data frames *)

(** A cell of a pandas column.  [CFloat nan] is the missing value. *)
Inductive cell :=
| CFloat (f : float)
| CInt (z : Z)
| CStr (s : string).

Definition Series := list cell.

(** Columns in file order; a name occurs at most once. *)
Definition DataFrame := list (string * Series).

(** int64 to float64, as numpy casts an integer column: the nearest
    binary64 value. *)
Definition Z2float (z : Z) : float :=
  SF2Prim (binary_normalize prec emax z 0 false).

(** [pd.isna] *)
Definition isna (c : cell) : bool :=
  match c with
  | CFloat f => PrimFloat.is_nan f
  | _ => false
  end.

Definition notna (c : cell) : bool := negb (isna c).

(** The float64 value of a numeric cell; a string has none. *)
Definition to_float (c : cell) : result float :=
  match c with
  | CFloat f => ok f
  | CInt z => ok (Z2float z)
  | CStr _ => raise_ (TypeError "could not convert string to float")
  end.

Definition to_floats (s : Series) : result (list float) := rmap to_float s.

(** Element-wise [==] of pandas: numbers by value, strings by content, a
    NaN equal to nothing. *)
Definition cell_eqb (a b : cell) : bool :=
  match a, b with
  | CStr s, CStr t => String.eqb s t
  | CInt x, CInt y => Z.eqb x y
  | CFloat x, CFloat y => PrimFloat.eqb x y
  | CInt x, CFloat y => PrimFloat.eqb (Z2float x) y
  | CFloat x, CInt y => PrimFloat.eqb x (Z2float y)
  | _, _ => false
  end.

(** [df[key]] *)
Fixpoint getitem (df : DataFrame) (key : string) : result Series :=
  match df with
  | [] => raise_ (KeyError key)
  | (k, s) :: df' => if String.eqb k key then ok s else getitem df' key
  end.

(** [df[key] = s]: replaces the column in place, or appends a new one. *)
Fixpoint setitem (df : DataFrame) (key : string) (s : Series) : DataFrame :=
  match df with
  | [] => [(key, s)]
  | (k, s0) :: df' =>
      if String.eqb k key then (k, s) :: df' else (k, s0) :: setitem df' key s
  end.

(** [s.fillna(v)] *)
Definition fillna (v : cell) (s : Series) : Series :=
  map (fun c => if isna c then v else c) s.

(** [s.dropna()] *)
Definition dropna (s : Series) : Series := filter notna s.

(** [s == c], a boolean mask. *)
Definition series_eq (s : Series) (c : cell) : list bool :=
  map (fun x => cell_eqb x c) s.

(** [s <= x] for a float [x]; a NaN compares false, a string raises. *)
Definition series_le (s : Series) (x : float) : result (list bool) :=
  rmap (fun c => rbind (to_float c) (fun f => ok (PrimFloat.leb f x))) s.

(** [s[mask]]: the entries at the positions where the mask is true. *)
Fixpoint select {A} (mask : list bool) (s : list A) : list A :=
  match mask, s with
  | b :: mask', x :: s' => if b then x :: select mask' s' else select mask' s'
  | _, _ => []
  end.

(** [df[mask]]: the same row selection in every column. *)
Definition df_select (mask : list bool) (df : DataFrame) : DataFrame :=
  map (fun kc => (fst kc, select mask (snd kc))) df.

(** Number of rows: the length of the first column. *)
Definition nrows (df : DataFrame) : nat :=
  match df with
  | [] => 0
  | (_, s) :: _ => List.length s
  end.

(** Two cells are the same key for [unique] and [groupby]: equal, or both
    missing. *)
Definition same_key (a b : cell) : bool :=
  cell_eqb a b || (isna a && isna b).

(** [s.unique()]: distinct values in order of first appearance. *)
Fixpoint unique_acc (seen : list cell) (s : Series) : list cell :=
  match s with
  | [] => []
  | c :: s' =>
      if existsb (same_key c) seen then unique_acc seen s'
      else c :: unique_acc (c :: seen) s'
  end.

Definition unique (s : Series) : list cell := unique_acc [] s.

(* ===================================================================== *)
(** ** Orders and sorting *)

(** [a <= b] on floats with the NaN after every number, the order of
    [sort_values] and [np.sort]. *)
Definition na_last_leb (a b : float) : bool :=
  if PrimFloat.is_nan b then true
  else if PrimFloat.is_nan a then false
  else PrimFloat.leb a b.

Section Sorting.
Context {A : Type} (le : A -> A -> bool).

Fixpoint insert_sorted (x : A) (l : list A) : list A :=
  match l with
  | [] => [x]
  | y :: l' => if le x y then x :: l else y :: insert_sorted x l'
  end.

(** A stable insertion sort. *)
Definition sort_by (l : list A) : list A :=
  fold_right insert_sorted [] l.

End Sorting.

(** The order of [np.sort] and of the sorted group keys: numbers by value
    with the NaN last, strings by content.  pandas does not order a column
    that mixes numbers and strings; putting the numbers first only makes
    the comparison total. *)
Definition cell_leb (a b : cell) : bool :=
  match a, b with
  | CStr s, CStr t => String.leb s t
  | CStr _, _ => false
  | _, CStr _ => true
  | CInt x, CInt y => Z.leb x y
  | CInt x, CFloat y => na_last_leb (Z2float x) y
  | CFloat x, CInt y => na_last_leb x (Z2float y)
  | CFloat x, CFloat y => na_last_leb x y
  end.

(* ===================================================================== *)
(** ** Reductions: [min], [max], [median] *)

Definition skipna (l : list float) : list float :=
  filter (fun f => negb (PrimFloat.is_nan f)) l.

Definition fmin (a b : float) : float := if PrimFloat.ltb b a then b else a.
Definition fmax (a b : float) : float := if PrimFloat.ltb a b then b else a.

(** A reduction over the numbers of a column; NaN when there is none. *)
Definition reduce (op : float -> float -> float) (l : list float) : float :=
  match skipna l with
  | [] => PrimFloat.nan
  | x :: l' => fold_left op l' x
  end.

(** [s.min()] and [s.max()], which skip the missing values. *)
Definition series_min (s : Series) : result float :=
  rbind (to_floats s) (fun l => ok (reduce fmin l)).

Definition series_max (s : Series) : result float :=
  rbind (to_floats s) (fun l => ok (reduce fmax l)).

(** The median of the numbers of a group: the middle value, or the mean of
    the two middle values. *)
Definition median (l : list float) : float :=
  let v := sort_by PrimFloat.leb (skipna l) in
  let n := List.length v in
  match n with
  | O => PrimFloat.nan
  | _ =>
      if Nat.odd n then nth (n / 2) v PrimFloat.nan
      else (nth (n / 2 - 1) v PrimFloat.nan + nth (n / 2) v PrimFloat.nan) / 2
  end%float.

(** The median of [target] over the rows whose [key] is [k]. *)
Definition group_median (keys vals : Series) (k : cell) : result float :=
  rbind (to_floats (select (series_eq keys k) vals)) (fun g => ok (median g)).

(** [df.groupby(key)[target].median()]: one entry per distinct non-missing
    key, keys sorted. *)
Definition groupby_median (df : DataFrame) (key target : string)
  : result (list (cell * float)) :=
  rbind (getitem df key) (fun keys =>
  rbind (getitem df target) (fun vals =>
  rmap (fun k => rbind (group_median keys vals k) (fun m => ok (k, m)))
       (sort_by cell_leb (filter notna (unique keys))))).

(** [.sort_values()]: ascending, the NaN last.  pandas does not fix the
    order of equal values; this model keeps them in their previous order. *)
Definition sort_values (s : list (cell * float)) : list (cell * float) :=
  sort_by (fun a b => na_last_leb (snd a) (snd b)) s.

(** [.index] *)
Definition index (s : list (cell * float)) : list cell := map fst s.

(** [df.groupby(key)[target].median().sort_values().index] *)
Definition median_order (df : DataFrame) (key target : string)
  : result (list cell) :=
  rbind (groupby_median df key target) (fun m => ok (index (sort_values m))).

(** The list comprehension of the three routines,
    [[df[target][df[key] == k].dropna() for k in df[key].unique()]]. *)
Definition groups_of (df : DataFrame) (target key : string)
  : result (list Series) :=
  rbind (getitem df key) (fun keys =>
  rmap (fun k =>
          rbind (getitem df target) (fun vals =>
          rbind (getitem df key) (fun keys' =>
          ok (dropna (select (series_eq keys' k) vals)))))
       (unique keys)).

(** seaborn's default order of the categories of an axis: the distinct
    values, sorted when the column is numeric, the missing ones removed. *)
Definition is_numeric (c : cell) : bool :=
  match c with
  | CStr _ => false
  | _ => true
  end.

Definition categorical_order (s : Series) : list cell :=
  let u := unique s in
  filter notna (if forallb is_numeric s then sort_by cell_leb u else u).

(* ===================================================================== *)
(** ** The numerical libraries *)

(** The formula [response ~ Q("factor")] of a one-way model. *)
Record Formula := { response : string; factor : string }.

(** How patsy codes the term [Q("factor")] of a formula: a column of
    numbers (int64 or float64) enters the model as one numeric regressor,
    a covariate with a slope; any other column enters as a categorical
    factor with one level for each distinct value.  A column of numbers is
    treated as categorical only inside [C(...)], which the scripts do not
    write.  The dtype is read off the entries of the column, as for the
    order of the categories of a plot; a column without rows has no entry
    to tell and counts as numeric. *)
Inductive Coding := Numeric | Categorical.

Definition patsy_coding (s : Series) : Coding :=
  if forallb is_numeric s then Numeric else Categorical.

(** A fitted model: what it was fitted on, how its term is coded, and its
    residuals. *)
Record Model := {
  m_formula : Formula;
  m_coding : Coding;
  m_data : DataFrame;
  resid : list float
}.

(** A row of an ANOVA table; [PR_F] is the column [PR(>F)]. *)
Record AnovaRow := {
  term : string;
  sum_sq : float;
  dof : float;
  F_stat : float;
  PR_F : float
}.

Definition AnovaTable := list AnovaRow.

(** What the scripts import and call; each test returns its statistic and
    its p-value, or raises. *)
Class Libs := {
  np_log1p : float -> float;
  ols_resid : Formula -> DataFrame -> result (list float);
  anova_lm : Model -> Z -> result AnovaTable;
  stats_shapiro : list float -> result (float * float);
  stats_levene : list (list float) -> result (float * float);
  stats_kruskal : list (list float) -> result (float * float)
}.

(** A variable of a formula, looked up in the data: patsy raises when the
    table has no such column. *)
Definition patsy_eval (df : DataFrame) (name : string) : result Series :=
  match getitem df name with
  | inr s => ok s
  | inl _ => raise_ PatsyError
  end.

(** [ols(formula, data=df).fit()] *)
Definition ols_fit `{Libs} (f : Formula) (df : DataFrame) : result Model :=
  rbind (patsy_eval df (response f)) (fun _ =>
  rbind (patsy_eval df (factor f)) (fun x =>
  rbind (ols_resid f df) (fun r =>
  ok {| m_formula := f; m_coding := patsy_coding x; m_data := df;
        resid := r |}))).

(** [np.log1p(s)] on a column: integers are cast to float64. *)
Definition log1p_cell `{Libs} (c : cell) : result cell :=
  rbind (to_float c) (fun f => ok (CFloat (np_log1p f))).

Definition np_log1p_series `{Libs} (s : Series) : result Series :=
  rmap log1p_cell s.

(** [table['PR(>F)'][0]] *)
Definition PR_F_0 (t : AnovaTable) : result float :=
  match t with
  | [] => raise_ (KeyError "0")
  | r :: _ => ok (PR_F r)
  end.

(** The scipy tests take the groups as arrays of numbers. *)
Definition arrays (groups : list Series) : result (list (list float)) :=
  rmap to_floats groups.

(* ===================================================================== *)
(** ** Figures *)

(** A text with a font size, when one is given. *)
Definition Label : Type := string * option Z.

(** [sns.boxplot]: the two columns, the categories along the axis from
    left to right, and the palette. *)
Record Boxplot := {
  bp_x : string;
  bp_y : string;
  bp_categories : list cell;
  bp_palette : option string
}.

Record Figure := {
  figsize : Z * Z;
  boxplot : option Boxplot;
  ax_title : option Label;
  ax_xlabel : option Label;
  ax_ylabel : option Label;
  xticks_rotation : option Z
}.

Definition blank_figure (size : Z * Z) : Figure :=
  {| figsize := size; boxplot := None; ax_title := None; ax_xlabel := None;
     ax_ylabel := None; xticks_rotation := None |}.

Definition with_boxplot (b : Boxplot) (f : Figure) : Figure :=
  {| figsize := figsize f; boxplot := Some b; ax_title := ax_title f;
     ax_xlabel := ax_xlabel f; ax_ylabel := ax_ylabel f;
     xticks_rotation := xticks_rotation f |}.

Definition with_title (t : Label) (f : Figure) : Figure :=
  {| figsize := figsize f; boxplot := boxplot f; ax_title := Some t;
     ax_xlabel := ax_xlabel f; ax_ylabel := ax_ylabel f;
     xticks_rotation := xticks_rotation f |}.

Definition with_xlabel (t : Label) (f : Figure) : Figure :=
  {| figsize := figsize f; boxplot := boxplot f; ax_title := ax_title f;
     ax_xlabel := Some t; ax_ylabel := ax_ylabel f;
     xticks_rotation := xticks_rotation f |}.

Definition with_ylabel (t : Label) (f : Figure) : Figure :=
  {| figsize := figsize f; boxplot := boxplot f; ax_title := ax_title f;
     ax_xlabel := ax_xlabel f; ax_ylabel := Some t;
     xticks_rotation := xticks_rotation f |}.

Definition with_rotation (r : Z) (f : Figure) : Figure :=
  {| figsize := figsize f; boxplot := boxplot f; ax_title := ax_title f;
     ax_xlabel := ax_xlabel f; ax_ylabel := ax_ylabel f;
     xticks_rotation := Some r |}.

(* ===================================================================== *)
(** ** The page *)

(** A piece of an f-string: literal text, or a number under a format. *)
Inductive Frag :=
| Lit (s : string)
| Fix4 (x : float)    (* {x:.4f} *)
| Fix2 (x : float)    (* {x:.2f} *)
| Sci4 (x : float).   (* {x:.4e} *)

Definition Text := list Frag.

Inductive Container :=
| Sidebar
| Column (i : nat)
| Tab (i : nat)
| Expander (label : string).

Inductive Widget :=
| Title (s : string)
| Header (s : string)
| Subheader (s : string)
| Write (t : Text)
| Markdown (s : string)
| Divider
| Success (s : string)
| Warning (s : string)
| Info (s : string)
| Error (s : string)
| Metric (label : string) (value : Text) (delta : option string)
| Dataframe (t : AnovaTable)
| Pyplot (f : Figure)
| Selectbox (label : string) (options : list string) (chosen : string)
| Slider (label : string) (lo hi value : float)
| Tabs (labels : list string)
| ExceptionBox (e : Exc).

(** An element of the page: a widget and the containers it sits in,
    innermost first. *)
Record Element := { place : list Container; widget : Widget }.

(** The state a run works on: the page so far, the figures of pyplot (the
    last one is the current figure), and the open [with] blocks. *)
Record World := {
  page : list Element;
  figures : list Figure;
  blocks : list Container
}.

Definition empty_world : World :=
  {| page := []; figures := []; blocks := [] |}.

(** A script: it changes the world and returns or raises. *)
Definition M (A : Type) : Type := World -> World * result A.

Definition ret {A} (a : A) : M A := fun w => (w, ok a).

Definition bind {A B} (m : M A) (k : A -> M B) : M B :=
  fun w =>
    match m w with
    | (w', inl e) => (w', inl e)
    | (w', inr a) => k a w'
    end.

Definition raise {A} (e : Exc) : M A := fun w => (w, inl e).

(** The result of a pure call, raised here when it is an exception. *)
Definition lift {A} (r : result A) : M A := fun w => (w, r).

(** [try: body except <handled>: handler] *)
Definition try_except {A} (body : M A) (handler : Exc -> option (M A)) : M A :=
  fun w =>
    match body w with
    | (w', inl e) =>
        match handler e with
        | Some h => h w'
        | None => (w', inl e)
        end
    | r => r
    end.

Declare Scope script_scope.
Delimit Scope script_scope with script.
Notation "x <- m ;; k" := (bind m (fun x => k))
  (at level 61, m at next level, right associativity) : script_scope.
Notation "' p <- m ;; k" := (bind m (fun x => match x with p => k end))
  (at level 61, p pattern, m at next level, right associativity) : script_scope.
Notation "m ;; k" := (bind m (fun _ => k))
  (at level 61, right associativity) : script_scope.
Local Open Scope script_scope.

Definition emit (x : Widget) : M unit :=
  fun w =>
    ({| page := page w ++ [{| place := blocks w; widget := x |}];
        figures := figures w; blocks := blocks w |}, ok tt).

(** Entering and leaving a [with] block. *)
Definition enter (c : Container) (w : World) : World :=
  {| page := page w; figures := figures w; blocks := c :: blocks w |}.

Definition leave (outer w : World) : World :=
  {| page := page w; figures := figures w; blocks := blocks outer |}.

(** [with c: body]: the block is left on return and on an exception. *)
Definition within {A} (c : Container) (body : M A) : M A :=
  fun w => let (w', r) := body (enter c w) in (leave w w', r).

(** [plt.subplots(figsize=...)]: a new current figure; its number. *)
Definition plt_subplots (size : Z * Z) : M nat :=
  fun w =>
    ({| page := page w; figures := figures w ++ [blank_figure size];
        blocks := blocks w |}, ok (List.length (figures w))).

Fixpoint update_nth {A} (n : nat) (f : A -> A) (l : list A) : list A :=
  match n, l with
  | _, [] => []
  | O, x :: l' => f x :: l'
  | S n', x :: l' => x :: update_nth n' f l'
  end.

(** A method of the axes of figure [fig]. *)
Definition on_axes (fig : nat) (f : Figure -> Figure) : M unit :=
  fun w =>
    ({| page := page w; figures := update_nth fig f (figures w);
        blocks := blocks w |}, ok tt).

(** [plt.xticks(rotation=r)]: acts on the current figure. *)
Definition plt_xticks (r : Z) : M unit :=
  fun w => on_axes (List.length (figures w) - 1) (with_rotation r) w.

(** [sns.boxplot(x=x, y=y, data=df, order=order, ax=ax, palette=palette)] *)
Definition sns_boxplot (x y : string) (df : DataFrame)
    (order : option (list cell)) (fig : nat) (palette : option string)
  : M unit :=
  xs <- lift (getitem df x) ;;
  _ <- lift (getitem df y) ;;
  on_axes fig
    (with_boxplot
       {| bp_x := x; bp_y := y;
          bp_categories :=
            match order with
            | Some o => o
            | None => categorical_order xs
            end;
          bp_palette := palette |}).

(** [st.pyplot(fig)] *)
Definition st_pyplot (fig : nat) : M unit :=
  fun w => emit (Pyplot (nth fig (figures w) (blank_figure (0, 0)%Z))) w.

(* ===================================================================== *)
(** ** Streamlit calls *)

Definition st_title (s : string) : M unit := emit (Title s).
Definition st_header (s : string) : M unit := emit (Header s).
Definition st_subheader (s : string) : M unit := emit (Subheader s).
Definition st_write (t : Text) : M unit := emit (Write t).
Definition st_markdown (s : string) : M unit := emit (Markdown s).
Definition st_divider : M unit := emit Divider.
Definition st_success (s : string) : M unit := emit (Success s).
Definition st_warning (s : string) : M unit := emit (Warning s).
Definition st_info (s : string) : M unit := emit (Info s).
Definition st_error (s : string) : M unit := emit (Error s).
Definition st_metric (label : string) (value : Text) (delta : option string)
  : M unit := emit (Metric label value delta).
Definition st_dataframe (t : AnovaTable) : M unit := emit (Dataframe t).
Definition st_tabs (labels : list string) : M unit := emit (Tabs labels).

(** What a run reads from outside: the table pandas parses from
    [AmesHousing.csv] when the file is there, and the state of the two
    input widgets ([slider_value] is [None] until the slider is moved). *)
Record Env := {
  csv : option DataFrame;
  selected : nat;
  slider_value : option float
}.

(** [pd.read_csv('AmesHousing.csv')] *)
Definition read_csv (file : option DataFrame) : M DataFrame :=
  match file with
  | Some df => ret df
  | None => raise FileNotFoundError
  end.

(** [st.selectbox(label, options)]: the option at the chosen position, the
    first one when there is no such position. *)
Definition st_selectbox (label : string) (options : list string) (i : nat)
  : M string :=
  let chosen := nth i options (hd "" options) in
  emit (Selectbox label options chosen) ;; ret chosen.

(** The range [st.slider] accepts: both bounds are finite numbers, and the
    lower bound is below the upper one. *)
Definition slider_range (lo hi : float) : bool :=
  PrimFloat.is_finite lo && PrimFloat.is_finite hi && PrimFloat.ltb lo hi.

(** [st.slider(label, lo, hi, value)]: Streamlit checks the range first and
    raises when it is not one it accepts; otherwise the slider is drawn and
    returns the value of the session, [value] before the slider is moved. *)
Definition st_slider (label : string) (lo hi value : float)
    (session : option float) : M float :=
  if slider_range lo hi then
    let v := match session with Some x => x | None => value end in
    emit (Slider label lo hi v) ;; ret v
  else raise StreamlitAPIException.

(** [df[key]] where [df] may be [None]. *)
Definition subscript (df : option DataFrame) (key : string) : result Series :=
  match df with
  | Some d => getitem d key
  | None => raise_ (TypeError "'NoneType' object is not subscriptable")
  end.

(** [stats.levene] and [stats.kruskal] over the unpacked groups, and
    [stats.shapiro(x)] *)
Definition levene `{Libs} (groups : list Series) : result (float * float) :=
  rbind (arrays groups) stats_levene.

Definition kruskal `{Libs} (groups : list Series) : result (float * float) :=
  rbind (arrays groups) stats_kruskal.

Definition shapiro `{Libs} (x : list float) : result (float * float) :=
  stats_shapiro x.

(** What Streamlit shows for a run: the page, and the exception under it
    when the script did not catch one. *)
Definition rerun (script : M unit) : list Element :=
  match script empty_world with
  | (w, inr _) => page w
  | (w, inl e) => page w ++ [{| place := []; widget := ExceptionBox e |}]
  end.

Definition formula_for (group : string) : Formula :=
  {| response := "SalePrice_log"; factor := group |}.

(* ===================================================================== *)
(** ** app.py

    [@st.cache_data] keeps the value of the first call of [load_data] for
    the later runs of the process; in a run the decorated function is its
    body. *)

Module App.
Section Script.
Context `{Libs}.

Definition load_data (file : option DataFrame) : M (option DataFrame) :=
  try_except
    (df <- read_csv file ;;
     price <- lift (getitem df "SalePrice") ;;
     logp <- lift (np_log1p_series price) ;;
     let df := setitem df "SalePrice_log" logp in
     garage <- lift (getitem df "Garage Type") ;;
     let df := setitem df "Garage Type" (fillna (CStr "No Garage") garage) in
     ret (Some df))
    (fun e =>
       match e with
       | FileNotFoundError =>
           Some (st_error "Arquivo 'AmesHousing.csv' não encontrado. Por favor, faça o upload do arquivo junto com o app." ;;
                 ret None)
       | _ => None
       end).

Definition run_analysis_overall_qual (df : DataFrame) : M unit :=
  st_header "Análise 1: Qualidade Geral (Overall Qual)" ;;
  st_subheader "a) Validação dos Pressupostos da ANOVA" ;;
  model <- lift (ols_fit (formula_for "Overall Qual") df) ;;
  let residuals := resid model in
  '(shapiro_stat, shapiro_p) <- lift (shapiro residuals) ;;
  st_write [Lit "**Normalidade dos Resíduos (Shapiro-Wilk):** p-valor = "; Fix4 shapiro_p] ;;
  (if (0.05 <? shapiro_p)%float
   then st_success "✅ Pressuposto de normalidade atendido."
   else st_warning "❌ Pressuposto de normalidade violado.") ;;
  groups <- lift (groups_of df "SalePrice_log" "Overall Qual") ;;
  '(levene_stat, levene_p) <- lift (levene groups) ;;
  st_write [Lit "**Homogeneidade de Variâncias (Levene):** p-valor = "; Fix4 levene_p] ;;
  (if (0.05 <? levene_p)%float
   then st_success "✅ Pressuposto de homogeneidade atendido."
   else st_warning "❌ Pressuposto de homogeneidade violado.") ;;
  st_info "Conclusão: Como todos os pressupostos são atendidos, a ANOVA tradicional é adequada." ;;
  st_subheader "b) Comparação de Preços com ANOVA" ;;
  anova_table <- lift (anova_lm model 2) ;;
  st_write [Lit "**Tabela da ANOVA:**"] ;;
  st_dataframe anova_table ;;
  fig <- plt_subplots (12, 7)%Z ;;
  sns_boxplot "Overall Qual" "SalePrice_log" df None fig None ;;
  on_axes fig (with_title ("Distribuição de Log(SalePrice) por Qualidade Geral", None)) ;;
  on_axes fig (with_xlabel ("Qualidade Geral", None)) ;;
  on_axes fig (with_ylabel ("Log(Preço de Venda)", None)) ;;
  st_pyplot fig ;;
  st_write [Lit "O p-valor (PR(>F)) próximo de zero indica que a qualidade geral tem um impacto estatisticamente significativo no preço."].

Definition run_analysis_neighborhood (df : DataFrame) : M unit :=
  st_header "Análise 2: Bairro (Neighborhood)" ;;
  st_subheader "a) Validação dos Pressupostos e Escolha do Método" ;;
  model <- lift (ols_fit (formula_for "Neighborhood") df) ;;
  '(shapiro_stat, shapiro_p) <- lift (shapiro (resid model)) ;;
  groups <- lift (groups_of df "SalePrice_log" "Neighborhood") ;;
  '(levene_stat, levene_p) <- lift (levene groups) ;;
  st_write [Lit "**Normalidade dos Resíduos (Shapiro-Wilk):** p-valor = "; Fix4 shapiro_p] ;;
  st_warning "❌ Pressuposto de normalidade violado." ;;
  st_write [Lit "**Homogeneidade de Variâncias (Levene):** p-valor = "; Fix4 levene_p] ;;
  st_warning "❌ Pressuposto de homogeneidade violado." ;;
  st_error "Conclusão: Com a violação dos pressupostos, a ANOVA tradicional não é confiável. O método alternativo não paramétrico **Kruskal-Wallis** é o mais adequado." ;;
  st_subheader "b) Comparação de Preços com Kruskal-Wallis" ;;
  '(kruskal_stat, kruskal_p) <- lift (kruskal groups) ;;
  st_write [Lit "**Teste de Kruskal-Wallis:** Estatística H = "; Fix2 kruskal_stat;
            Lit ", p-valor = "; Sci4 kruskal_p] ;;
  st_write [Lit "O p-valor extremamente baixo indica que há uma diferença estatisticamente significativa na mediana dos preços entre os bairros."] ;;
  fig <- plt_subplots (14, 8)%Z ;;
  neighborhood_order <- lift (median_order df "Neighborhood" "SalePrice_log") ;;
  sns_boxplot "Neighborhood" "SalePrice_log" df (Some neighborhood_order) fig None ;;
  on_axes fig (with_title ("Distribuição de Log(SalePrice) por Bairro", None)) ;;
  on_axes fig (with_xlabel ("Bairro", None)) ;;
  on_axes fig (with_ylabel ("Log(Preço de Venda)", None)) ;;
  plt_xticks 90 ;;
  st_pyplot fig.

Definition run_analysis_garage_type (df : DataFrame) : M unit :=
  st_header "Análise 3: Tipo de Garagem (Garage Type)" ;;
  st_subheader "a) Validação dos Pressupostos da ANOVA" ;;
  model <- lift (ols_fit (formula_for "Garage Type") df) ;;
  let residuals := resid model in
  '(shapiro_stat, shapiro_p) <- lift (shapiro residuals) ;;
  st_write [Lit "**Normalidade dos Resíduos (Shapiro-Wilk):** p-valor = "; Fix4 shapiro_p] ;;
  (if (0.05 <? shapiro_p)%float
   then st_success "✅ Pressuposto de normalidade atendido."
   else st_warning "❌ Pressuposto de normalidade violado.") ;;
  groups <- lift (groups_of df "SalePrice_log" "Garage Type") ;;
  '(levene_stat, levene_p) <- lift (levene groups) ;;
  st_write [Lit "**Homogeneidade de Variâncias (Levene):** p-valor = "; Fix4 levene_p] ;;
  (if (0.05 <? levene_p)%float
   then st_success "✅ Pressuposto de homogeneidade atendido."
   else st_warning "❌ Pressuposto de homogeneidade violado.") ;;
  st_info "Conclusão: Apesar da leve violação da normalidade, a ANOVA é robusta a isso com amostras grandes, e como a homogeneidade foi atendida, podemos prosseguir com a ANOVA tradicional." ;;
  st_subheader "b) Comparação de Preços com ANOVA" ;;
  anova_table <- lift (anova_lm model 2) ;;
  st_write [Lit "**Tabela da ANOVA:**"] ;;
  st_dataframe anova_table ;;
  fig <- plt_subplots (12, 7)%Z ;;
  garage_order <- lift (median_order df "Garage Type" "SalePrice_log") ;;
  sns_boxplot "Garage Type" "SalePrice_log" df (Some garage_order) fig None ;;
  on_axes fig (with_title ("Distribuição de Log(SalePrice) por Tipo de Garagem", None)) ;;
  on_axes fig (with_xlabel ("Tipo de Garagem", None)) ;;
  on_axes fig (with_ylabel ("Log(Preço de Venda)", None)) ;;
  st_pyplot fig.

Definition options : list string :=
  ["Qualidade Geral (Overall Qual)"; "Bairro (Neighborhood)";
   "Tipo de Garagem (Garage Type)"].

(** The body of [if df is not None:] (lines 123-133). *)
Definition ready (env : Env) (df : DataFrame) : M unit :=
  within Sidebar (st_header "Selecione a Análise") ;;
  analysis_option <-
    within Sidebar
      (st_selectbox "Escolha a característica para analisar:" options
         (selected env)) ;;
  if String.eqb analysis_option "Qualidade Geral (Overall Qual)" then
    run_analysis_overall_qual df
  else if String.eqb analysis_option "Bairro (Neighborhood)" then
    run_analysis_neighborhood df
  else if String.eqb analysis_option "Tipo de Garagem (Garage Type)" then
    run_analysis_garage_type df
  else ret tt.

(** The module top level (lines 119-133). *)
Definition script (env : Env) : M unit :=
  st_title "Tarefa 3 de AEDI: Análise Interativa do Mercado Imobiliário de Ames" ;;
  st_write [Lit "Análise de Variância (ANOVA) aplicada ao dataset Ames Housing."] ;;
  df <- load_data (csv env) ;;
  match df with
  | Some df => ready env df
  | None => ret tt
  end.

End Script.
End App.

(* ===================================================================== *)
(** ** streamlit_app.py

    [st.set_page_config] and [st.columns] lay the page out and add no
    widget; a [with] block of a column, a tab or an expander is [within]. *)

Module StreamlitApp.
Section Script.
Context `{Libs}.

Definition load_data (file : option DataFrame) : M (option DataFrame) :=
  try_except
    (df <- read_csv file ;;
     price <- lift (getitem df "SalePrice") ;;
     logp <- lift (np_log1p_series price) ;;
     let df := setitem df "SalePrice_log" logp in
     garage <- lift (getitem df "Garage Type") ;;
     let df := setitem df "Garage Type" (fillna (CStr "No Garage") garage) in
     ret (Some df))
    (fun e =>
       match e with
       | FileNotFoundError =>
           Some (st_error "Arquivo 'AmesHousing.csv' não encontrado. Por favor, faça o upload do arquivo para o seu repositório GitHub." ;;
                 ret None)
       | _ => None
       end).

Definition run_analysis_overall_qual (df : DataFrame) : M unit :=
  st_subheader "Análise da Qualidade Geral (Overall Qual)" ;;
  within (Expander "Verificar Validação dos Pressupostos da ANOVA")
    (model <- lift (ols_fit (formula_for "Overall Qual") df) ;;
     '(shapiro_stat, shapiro_p) <- lift (shapiro (resid model)) ;;
     groups <- lift (groups_of df "SalePrice_log" "Overall Qual") ;;
     '(levene_stat, levene_p) <- lift (levene groups) ;;
     within (Column 0)
       (st_metric "P-valor de Shapiro-Wilk (Normalidade)" [Fix4 shapiro_p] None ;;
        if (0.05 <? shapiro_p)%float then st_success "Pressuposto Atendido."
        else st_warning "Pressuposto Violado.") ;;
     within (Column 1)
       (st_metric "P-valor de Levene (Homogeneidade)" [Fix4 levene_p] None ;;
        if (0.05 <? levene_p)%float then st_success "Pressuposto Atendido."
        else st_warning "Pressuposto Violado.") ;;
     st_info "Conclusão: Como todos os pressupostos são atendidos, a ANOVA tradicional é adequada.") ;;
  model_fit <- lift (ols_fit (formula_for "Overall Qual") df) ;;
  anova_table <- lift (anova_lm model_fit 2) ;;
  p_value <- lift (PR_F_0 anova_table) ;;
  st_metric "P-valor do Teste ANOVA" [Sci4 p_value]
    (Some "Rejeitamos H0: Diferença Significativa") ;;
  st_write [Lit "A tabela abaixo mostra os resultados detalhados do teste."] ;;
  st_dataframe anova_table ;;
  fig <- plt_subplots (12, 7)%Z ;;
  sns_boxplot "Overall Qual" "SalePrice_log" df None fig (Some "viridis") ;;
  on_axes fig (with_title ("Distribuição de Log(SalePrice) por Qualidade Geral", Some 16%Z)) ;;
  on_axes fig (with_xlabel ("Qualidade Geral", Some 12%Z)) ;;
  on_axes fig (with_ylabel ("Log(Preço de Venda)", Some 12%Z)) ;;
  st_pyplot fig.

Definition run_analysis_neighborhood (df : DataFrame) : M unit :=
  st_subheader "Análise por Bairro (Neighborhood)" ;;
  model <- lift (ols_fit (formula_for "Neighborhood") df) ;;
  '(shapiro_stat, shapiro_p) <- lift (shapiro (resid model)) ;;
  groups <- lift (groups_of df "SalePrice_log" "Neighborhood") ;;
  '(levene_stat, levene_p) <- lift (levene groups) ;;
  st_warning "Pressupostos de normalidade e homogeneidade violados. Usando Kruskal-Wallis." ;;
  '(kruskal_stat, kruskal_p) <- lift (kruskal groups) ;;
  st_metric "P-valor de Kruskal-Wallis" [Sci4 kruskal_p]
    (Some "Rejeitamos H0: Diferença Significativa") ;;
  fig <- plt_subplots (14, 8)%Z ;;
  neighborhood_order <- lift (median_order df "Neighborhood" "SalePrice_log") ;;
  sns_boxplot "Neighborhood" "SalePrice_log" df (Some neighborhood_order) fig
    (Some "plasma") ;;
  on_axes fig (with_title ("Distribuição de Log(SalePrice) por Bairro", Some 16%Z)) ;;
  on_axes fig (with_xlabel ("Bairro", Some 12%Z)) ;;
  on_axes fig (with_ylabel ("Log(Preço de Venda)", Some 12%Z)) ;;
  plt_xticks 90 ;;
  st_pyplot fig.

Definition run_analysis_garage_type (df : DataFrame) : M unit :=
  st_subheader "Análise por Tipo de Garagem (Garage Type)" ;;
  model <- lift (ols_fit (formula_for "Garage Type") df) ;;
  anova_table <- lift (anova_lm model 2) ;;
  p_value <- lift (PR_F_0 anova_table) ;;
  st_metric "P-valor do Teste ANOVA" [Sci4 p_value]
    (Some "Rejeitamos H0: Diferença Significativa") ;;
  st_dataframe anova_table ;;
  fig <- plt_subplots (12, 7)%Z ;;
  garage_order <- lift (median_order df "Garage Type" "SalePrice_log") ;;
  sns_boxplot "Garage Type" "SalePrice_log" df (Some garage_order) fig
    (Some "magma") ;;
  on_axes fig (with_title ("Distribuição de Log(SalePrice) por Tipo de Garagem", Some 16%Z)) ;;
  on_axes fig (with_xlabel ("Tipo de Garagem", Some 12%Z)) ;;
  on_axes fig (with_ylabel ("Log(Preço de Venda)", Some 12%Z)) ;;
  st_pyplot fig.

(** [df[df['SalePrice_log'] <= preco_max]] (line 125). *)
Definition df_filtrado (df : option DataFrame) (preco_max : float)
  : result DataFrame :=
  rbind (subscript df "SalePrice_log") (fun logp =>
  rbind (series_le logp preco_max) (fun mask =>
  match df with
  | Some d => ok (df_select mask d)
  | None => raise_ (TypeError "'NoneType' object is not subscriptable")
  end)).

(** The body of [if df is not None:] (lines 130-139): the three tabs. *)
Definition ready (view : DataFrame) : M unit :=
  st_tabs ["Análise por Qualidade"; "Análise por Bairro"; "Análise por Garagem"] ;;
  within (Tab 0) (run_analysis_overall_qual view) ;;
  within (Tab 1) (run_analysis_neighborhood view) ;;
  within (Tab 2) (run_analysis_garage_type view).

(** The module top level (lines 111-139). *)
Definition script (env : Env) : M unit :=
  df <- load_data (csv env) ;;
  within (Column 1)
    (st_title "Análise Interativa de Imóveis" ;;
     st_markdown "<h3 style='text-align: center;'>Mercado de Ames, Iowa</h3>") ;;
  st_divider ;;
  within Sidebar (st_title "Parâmetros") ;;
  within Sidebar
    (st_write [Lit "Use os controles abaixo para filtrar os dados (funcionalidade a ser implementada)."]) ;;
  lo <- lift (rbind (subscript df "SalePrice_log") series_min) ;;
  hi <- lift (rbind (subscript df "SalePrice_log") series_max) ;;
  value <- lift (rbind (subscript df "SalePrice_log") series_max) ;;
  preco_max <-
    within Sidebar
      (st_slider "Filtro de Preço Máximo (log)" lo hi value (slider_value env)) ;;
  view <- lift (df_filtrado df preco_max) ;;
  match df with
  | Some _ => ready view
  | None => ret tt
  end.

End Script.
End StreamlitApp.

(* ===================================================================== *)
(** ** Reading a page *)

(** The figures shown on a page, in order. *)
Fixpoint figures_shown (p : list Element) : list Figure :=
  match p with
  | [] => []
  | e :: p' =>
      match widget e with
      | Pyplot f => f :: figures_shown p'
      | _ => figures_shown p'
      end
  end.

(** An error display: a message of [st.error], or the box Streamlit
    shows for an exception the script did not catch. *)
Definition is_error_display (e : Element) : bool :=
  match widget e with
  | ExceptionBox _ => true
  | Error _ => true
  | _ => false
  end.

Definition error_displays (p : list Element) : nat :=
  List.length (filter is_error_display p).

(** The categories of the box-plot of a figure, left to right. *)
Definition categories (f : Figure) : list cell :=
  match boxplot f with
  | Some b => bp_categories b
  | None => []
  end.

(** The medians of a list of groups are ascending, the NaN ones last. *)
Definition ascending (ms : list float) : Prop :=
  Sorted (fun a b => na_last_leb a b = true) ms.

(** The categories [cats] of a plot of [target] by [key] stand in ascending
    order of the median of [target]. *)
Definition ordered_by_median (df : DataFrame) (key target : string)
    (cats : list cell) : Prop :=
  exists keys vals ms,
    getitem df key = ok keys /\ getitem df target = ok vals /\
    rmap (group_median keys vals) cats = ok ms /\ ascending ms.

(* ===================================================================== *)
(** ** The invariants of the loaded dataset *)

(** All columns have the same number of rows. *)
Definition rectangular (df : DataFrame) : Prop :=
  forall k s, In (k, s) df -> List.length s = nrows df.


(** What a successful load has done to the parsed file. *)
Definition loaded `{Libs} (df0 df : DataFrame) : Prop :=
  exists price logp garage,
    getitem df0 "SalePrice" = ok price /\
    np_log1p_series price = ok logp /\
    getitem df0 "Garage Type" = ok garage /\
    df = setitem (setitem df0 "SalePrice_log" logp) "Garage Type"
           (fillna (CStr "No Garage") garage).

(* ===================================================================== *)
(** ** The three grouping attributes *)

Inductive Attribute := OverallQual | Neighborhood | GarageType.

(** The column of an attribute. *)
Definition column (a : Attribute) : string :=
  match a with
  | OverallQual => "Overall Qual"
  | Neighborhood => "Neighborhood"
  | GarageType => "Garage Type"
  end.

(** The analysis routine of an attribute, in each script. *)
Definition app_routine `{Libs} (a : Attribute) : DataFrame -> M unit :=
  match a with
  | OverallQual => App.run_analysis_overall_qual
  | Neighborhood => App.run_analysis_neighborhood
  | GarageType => App.run_analysis_garage_type
  end.

Definition streamlit_routine `{Libs} (a : Attribute) : DataFrame -> M unit :=
  match a with
  | OverallQual => StreamlitApp.run_analysis_overall_qual
  | Neighborhood => StreamlitApp.run_analysis_neighborhood
  | GarageType => StreamlitApp.run_analysis_garage_type
  end.

(** The attribute at a position of the select box of app.py; a position
    the box does not have stands for the first option. *)
Definition attribute_at (i : nat) : Attribute :=
  match i with
  | 1 => Neighborhood
  | 2 => GarageType
  | _ => OverallQual
  end.

(** The partitions of the log price by the values of a column, the missing
    log prices dropped. *)
Definition partitions (keys vals : Series) : list Series :=
  map (fun k => dropna (select (series_eq keys k) vals)) (unique keys).

(** Every library call a routine for column [key] can make returns. *)
Definition calls_return `{Libs} (df : DataFrame) (key : string) : Prop :=
  exists keys vals model groups,
    getitem df key = ok keys /\
    getitem df "SalePrice_log" = ok vals /\
    ols_fit (formula_for key) df = ok model /\
    groups_of df "SalePrice_log" key = ok groups /\
    (exists r, shapiro (resid model) = ok r) /\
    (exists r, levene groups = ok r) /\
    (exists r, kruskal groups = ok r) /\
    (exists t p, anova_lm model 2 = ok t /\ PR_F_0 t = ok p) /\
    (exists o, median_order df key "SalePrice_log" = ok o).

(** The widgets a run from [w] to [w'] has added to the page. *)
Definition added (w w' : World) (x : Widget) : Prop :=
  exists new, page w' = page w ++ new /\ In x (map widget new).

(** The headings of a page. *)
Fixpoint headings (p : list Element) : list string :=
  match p with
  | [] => []
  | e :: p' =>
      match widget e with
      | Header s | Subheader s => s :: headings p'
      | _ => headings p'
      end
  end.

(** The verdicts on a page: the [st.success] and [st.warning] boxes. *)
Definition is_verdict (x : Widget) : bool :=
  match x with
  | Success _ | Warning _ => true
  | _ => false
  end.

Definition verdicts (p : list Element) : list Widget :=
  filter is_verdict (map widget p).

(* ===================================================================== *)
(** ** Sample data *)

Module Sample.

(** Four rows in the shape of the Ames table after parsing: one house
    without a garage, two quality grades, two neighbourhoods. *)
Definition houses : DataFrame :=
  [("Overall Qual", [CInt 5; CInt 7; CInt 5; CInt 7]);
   ("Neighborhood", [CStr "NAmes"; CStr "Gilbert"; CStr "NAmes"; CStr "Gilbert"]);
   ("Garage Type", [CStr "Attchd"; CFloat nan; CStr "Detchd"; CStr "Attchd"]);
   ("SalePrice", [CInt 215000; CInt 105000; CInt 172000; CInt 244000])].

(** A table as the routines receive it, in which the lower grade has the
    higher median price (the log prices are rounded to a quarter). *)
Definition upside_down : DataFrame :=
  [("Overall Qual", [CInt 1; CInt 2; CInt 1; CInt 2]);
   ("Neighborhood", [CStr "NAmes"; CStr "Gilbert"; CStr "NAmes"; CStr "Gilbert"]);
   ("Garage Type", [CStr "Attchd"; CStr "No Garage"; CStr "Detchd"; CStr "Attchd"]);
   ("SalePrice", [CInt 215000; CInt 105000; CInt 172000; CInt 144000]);
   ("SalePrice_log", [CFloat 12.25; CFloat 11.5; CFloat 12; CFloat 11.75])].

(** Libraries whose tests report fixed p-values and whose fit and table
    are placeholders; [np_log1p] is a placeholder as well (the identity),
    and no statement below depends on its values. *)
Definition libs (p_shapiro p_levene : float) : Libs := {|
  np_log1p := fun x => x;
  ols_resid := fun _ _ => ok [];
  anova_lm := fun _ _ =>
    ok [{| term := "C(group)"; sum_sq := 1; dof := 1; F_stat := 1;
           PR_F := 0 |}];
  stats_shapiro := fun _ => ok (1%float, p_shapiro);
  stats_levene := fun _ => ok (1%float, p_levene);
  stats_kruskal := fun _ => ok (1%float, 0%float)
|}.

(** The table [load_data] returns for [houses] under these libraries. *)
Definition houses_loaded : DataFrame :=
  Eval vm_compute in
    match @App.load_data (libs 0.5 0.5) (Some houses) empty_world with
    | (_, inr (Some df)) => df
    | _ => []
    end.

(** A first run with the file in place: nothing selected or moved yet. *)
Definition first_run : Env :=
  {| csv := Some houses; selected := 0; slider_value := None |}.

End Sample.

(* ===================================================================== *)
(** ** Further notions *)

(** A parsed file [load_data] can work on: it has a numeric [SalePrice]
    column and a [Garage Type] column. *)
Definition loadable (df0 : DataFrame) : Prop :=
  exists price garage,
    getitem df0 "SalePrice" = ok price /\
    Forall (fun c => is_numeric c = true) price /\
    getitem df0 "Garage Type" = ok garage.

(** The outcome of [load_data] on a file that is there: the first step
    that raises decides it. *)
Definition load_outcome `{Libs} (df0 : DataFrame) : result (option DataFrame) :=
  rbind (getitem df0 "SalePrice") (fun price =>
  rbind (np_log1p_series price) (fun logp =>
  rbind (getitem df0 "Garage Type") (fun garage =>
  ok (Some (setitem (setitem df0 "SalePrice_log" logp) "Garage Type"
              (fillna (CStr "No Garage") garage)))))).

(** The names of the columns, in order. *)
Definition columns (df : DataFrame) : list string := map fst df.

(** [c <= x] as the threshold filter decides it. *)
Definition cell_le (x : float) (c : cell) : bool :=
  match to_float c with
  | inr f => PrimFloat.leb f x
  | inl _ => false
  end.

(** An integer, and a floating-point number that is present. *)
Definition is_int (c : cell) : bool :=
  match c with
  | CInt _ => true
  | _ => false
  end.

Definition is_real (c : cell) : bool :=
  match c with
  | CFloat f => negb (PrimFloat.is_nan f)
  | _ => false
  end.

(** A column has one dtype when it does not hold integers next to
    floating-point numbers: an int64 column holds integers only, a float64
    column floats (the NaN for a missing entry), and a column of strings
    has no number but the NaN of its missing entries. *)
Definition one_dtype (s : Series) : bool :=
  forallb (fun c => negb (is_int c)) s || forallb (fun c => negb (is_real c)) s.

(** The rows of two columns side by side. *)
Definition rows (keys vals : Series) : list (cell * cell) :=
  combine keys vals.

(** A row counts in an analysis: its key and its log price are present. *)
Definition complete_row (r : cell * cell) : bool :=
  notna (fst r) && notna (snd r).

(** The sizes of the groups, added up. *)
Definition total_size (groups : list Series) : nat :=
  list_sum (map (@List.length cell) groups).

(** The group of the key [k], read off the rows: the log prices of the
    rows whose key equals [k], the missing ones left out, in the order of
    the rows. *)
Definition group_of_rows (keys vals : Series) (k : cell) : Series :=
  map snd
    (filter (fun r => cell_eqb (fst r) k && negb (isna (snd r)))
       (rows keys vals)).

(** [ks] lists the distinct values of the column [s], each once: every
    entry of [s] is the same key as one of [ks], every one of [ks] occurs
    in [s], and no two of [ks] are the same key. *)
Definition distinct_values (s : Series) (ks : list cell) : Prop :=
  (forall c, In c s -> exists k, In k ks /\ same_key c k = true) /\
  (forall k, In k ks -> In k s) /\
  ForallOrdPairs (fun a b => same_key a b = false /\ same_key b a = false) ks.

(** The numbers a test receives for a group of cells. *)
Definition sample_of (g : Series) (a : list float) : Prop :=
  Forall2 (fun c x => to_float c = ok x) g a.

Definition is_success (x : Widget) : bool :=
  match x with
  | Success _ => true
  | _ => false
  end.

(** A figure is the box-plot of the log price by column [key], with a
    title and both axis labels. *)
Definition plots_log_price_by (key : string) (fig : Figure) : Prop :=
  exists b,
    boxplot fig = Some b /\
    bp_x b = key /\ bp_y b = "SalePrice_log" /\
    ax_title fig <> None /\ ax_xlabel fig <> None /\
    option_map fst (ax_ylabel fig) = Some "Log(Preço de Venda)".

(** The page of streamlit_app.py before the tabs, with the slider at
    [value] between [lo] and [hi]. *)
Definition streamlit_preamble (w : World) (lo hi value : float)
  : list Element :=
  [ {| place := Column 1 :: blocks w;
       widget := Title "Análise Interativa de Imóveis" |};
    {| place := Column 1 :: blocks w;
       widget := Markdown "<h3 style='text-align: center;'>Mercado de Ames, Iowa</h3>" |};
    {| place := blocks w; widget := Divider |};
    {| place := Sidebar :: blocks w; widget := Title "Parâmetros" |};
    {| place := Sidebar :: blocks w;
       widget := Write [Lit "Use os controles abaixo para filtrar os dados (funcionalidade a ser implementada)."] |};
    {| place := Sidebar :: blocks w;
       widget := Slider "Filtro de Preço Máximo (log)" lo hi value |} ].

(** The page of streamlit_app.py above the slider. *)
Definition streamlit_head (w : World) : list Element :=
  [ {| place := Column 1 :: blocks w;
       widget := Title "Análise Interativa de Imóveis" |};
    {| place := Column 1 :: blocks w;
       widget := Markdown "<h3 style='text-align: center;'>Mercado de Ames, Iowa</h3>" |};
    {| place := blocks w; widget := Divider |};
    {| place := Sidebar :: blocks w; widget := Title "Parâmetros" |};
    {| place := Sidebar :: blocks w;
       widget := Write [Lit "Use os controles abaixo para filtrar os dados (funcionalidade a ser implementada)."] |} ].

Module Cases.

(** A parsed file without the [SalePrice] column. *)
Definition no_price : DataFrame :=
  [("Overall Qual", [CInt 5; CInt 7]);
   ("Garage Type", [CStr "Attchd"; CFloat nan])].

(** A parsed file whose prices were read as text. *)
Definition text_price : DataFrame :=
  [("SalePrice", [CStr "215,000"; CStr "105,000"]);
   ("Garage Type", [CStr "Attchd"; CFloat nan])].

(** A parsed file without the [Garage Type] column. *)
Definition no_garage : DataFrame :=
  [("SalePrice", [CInt 215000; CInt 105000])].

(** A parsed file with one house. *)
Definition one_house : DataFrame :=
  [("Overall Qual", [CInt 5]);
   ("Neighborhood", [CStr "NAmes"]);
   ("Garage Type", [CStr "Attchd"]);
   ("SalePrice", [CInt 215000])].

(** The table [load_data] returns for [one_house] under the libraries of
    [Sample]. *)
Definition one_house_loaded : DataFrame :=
  Eval vm_compute in
    match @StreamlitApp.load_data (Sample.libs 0.5 0.5) (Some one_house)
            empty_world with
    | (_, inr (Some df)) => df
    | _ => []
    end.

(** A table in which one grade is missing, so that pandas holds the
    grades as floats, and one log price is missing. *)
Definition grade_missing : DataFrame :=
  [("Overall Qual", [CFloat 5; CFloat nan; CFloat 5; CFloat 7]);
   ("SalePrice_log", [CFloat 12; CFloat 11.5; CFloat nan; CFloat 12.25])].

(** Libraries as [Sample.libs], with a Levene test that rejects its input. *)
Definition levene_fails : Libs := {|
  np_log1p := fun x => x;
  ols_resid := fun _ _ => ok [];
  anova_lm := fun _ _ =>
    ok [{| term := "C(group)"; sum_sq := 1; dof := 1; F_stat := 1;
           PR_F := 0 |}];
  stats_shapiro := fun _ => ok (1%float, 0.5%float);
  stats_levene := fun _ => raise_ (ValueError "Must enter at least two input sample vectors.");
  stats_kruskal := fun _ => ok (1%float, 0%float)
|}.

(** Libraries as [Sample.libs], with an ANOVA table without rows. *)
Definition empty_table : Libs := {|
  np_log1p := fun x => x;
  ols_resid := fun _ _ => ok [];
  anova_lm := fun _ _ => ok [];
  stats_shapiro := fun _ => ok (1%float, 0.5%float);
  stats_levene := fun _ => ok (1%float, 0.5%float);
  stats_kruskal := fun _ => ok (1%float, 0%float)
|}.

End Cases.

(* ===================================================================== *)
(** * Properties *)

(** ** Results, scripts and lists *)

Lemma pair_inv {A B} (a c : A) (b d : B) : (a, b) = (c, d) -> a = c /\ b = d.
Proof. intros [= -> ->]. auto. Qed.

Lemma bind_inv {A B} (m : M A) (k : A -> M B) w w' b :
  bind m k w = (w', inr b) ->
  exists w1 a, m w = (w1, inr a) /\ k a w1 = (w', inr b).
Proof.
  unfold bind. destruct (m w) as [w1 [e|a]]; [discriminate|]. eauto.
Qed.

Lemma bind_ok {A B} (m : M A) (k : A -> M B) w w1 a :
  m w = (w1, inr a) -> bind m k w = k a w1.
Proof. unfold bind. intros ->. reflexivity. Qed.

Lemma within_inv {A} c (body : M A) w w' a :
  within c body w = (w', inr a) ->
  exists w2, body (enter c w) = (w2, inr a) /\ w' = leave w w2.
Proof.
  unfold within. destruct (body _) as [w2 r]. intros [= <- ->]. eauto.
Qed.

Lemma update_nth_last {A} (f : A -> A) (l : list A) (x : A) :
  update_nth (List.length l) f (l ++ [x]) = l ++ [f x].
Proof. induction l; simpl; congruence. Qed.

Lemma nth_last {A} (l : list A) (x d : A) :
  nth (List.length l) (l ++ [x]) d = x.
Proof. induction l; simpl; auto. Qed.

Lemma length_last_pred {A} (l : list A) (x : A) :
  List.length (l ++ [x]) - 1 = List.length l.
Proof. rewrite length_app. simpl. lia. Qed.

Lemma figures_shown_app p q :
  figures_shown (p ++ q) = figures_shown p ++ figures_shown q.
Proof.
  induction p as [|e p IH]; simpl; [reflexivity|].
  destruct (widget e); simpl; rewrite ?IH; reflexivity.
Qed.

Lemma rmap_Forall2 {A B} (f : A -> result B) l l' :
  rmap f l = ok l' <-> Forall2 (fun x y => f x = ok y) l l'.
Proof.
  revert l'. induction l as [|x l IH]; intros l'; simpl.
  - split.
    + intros [= <-]. constructor.
    + intros Hf. inversion Hf. reflexivity.
  - split.
    + destruct (f x) as [e|y] eqn:Ex; simpl; [discriminate|].
      destruct (rmap f l) as [e|ys] eqn:El; simpl; [discriminate|].
      intros [= <-]. constructor; [assumption|]. apply IH. reflexivity.
    + intros Hf. inversion Hf as [|? y ? ys Hy Hys]; subst.
      rewrite Hy. simpl. apply IH in Hys. rewrite Hys. reflexivity.
Qed.

Lemma rmap_length {A B} (f : A -> result B) l l' :
  rmap f l = ok l' -> List.length l' = List.length l.
Proof.
  intros Hf. apply rmap_Forall2 in Hf. symmetry.
  eapply Forall2_length; eassumption.
Qed.

Lemma if_verdict (b : bool) s t w :
  (if b then st_success s else st_warning t) w
  = emit (if b then Success s else Warning t) w.
Proof. destruct b; reflexivity. Qed.

(** Inversion of a run that returned: one hypothesis for each call along
    the way, and the world it ends in. *)

Ltac head_of t :=
  lazymatch t with
  | ?f _ => head_of f
  | _ => t
  end.

Ltac inv_pair H :=
  let Hw := fresh "Hw" in
  let Hr := fresh "Hr" in
  apply pair_inv in H; destruct H as [Hw Hr];
  try (injection Hr as Hr); subst.

Ltac inv_run H :=
  unfold ok in H; cbv beta in H;
  lazymatch type of H with
  | bind _ _ _ = (_, inr _) =>
      let w1 := fresh "w" in
      let a := fresh "a" in
      let H1 := fresh "Hm" in
      apply bind_inv in H; destruct H as (w1 & a & H1 & H);
      inv_run H1; inv_run H
  | within _ _ _ = (_, inr _) =>
      let w2 := fresh "w" in
      let H1 := fresh "Hm" in
      apply within_inv in H; destruct H as (w2 & H & H1);
      unfold enter in H; inv_run H; subst; unfold leave in *;
      cbn [page figures blocks] in *
  | (let (_, _) := ?x in _) _ = _ => destruct x; inv_run H
  | (if ?b then st_success ?s else st_warning ?t) ?w = _ =>
      rewrite (if_verdict b s t w) in H; inv_run H
  | (if ?b then _ else _) _ = _ =>
      let E := fresh "E" in destruct b eqn:E; inv_run H
  | (match ?x with Some _ => _ | None => _ end) _ = _ =>
      destruct x; inv_run H
  | raise _ _ = _ => unfold raise in H; discriminate H
  | lift _ _ = _ => unfold lift in H; inv_pair H
  | ret _ _ = _ => unfold ret, ok in H; inv_pair H
  | emit _ _ = _ =>
      unfold emit, ok in H; inv_pair H; cbn [page figures blocks] in *
  | plt_subplots _ _ = _ =>
      unfold plt_subplots, ok in H; inv_pair H; cbn [page figures blocks] in *
  | on_axes _ _ _ = _ =>
      unfold on_axes, ok in H; inv_pair H; cbn [page figures blocks] in *;
      rewrite ?length_last_pred, ?update_nth_last, ?nth_last in *
  | plt_xticks _ _ = _ =>
      unfold plt_xticks in H; cbn [page figures blocks] in H;
      rewrite ?length_last_pred in H; inv_run H
  | st_pyplot _ _ = _ =>
      unfold st_pyplot in H; cbn [page figures blocks] in H;
      rewrite ?nth_last in H; inv_run H
  | ?m _ = _ => let h := head_of m in unfold h in H; inv_run H
  end.

Lemma within_ok {A} c (body : M A) w w2 a :
  body (enter c w) = (w2, inr a) -> within c body w = (leave w w2, inr a).
Proof. unfold within. intros ->. reflexivity. Qed.

(** Evaluation of a run whose calls are known to return, by the
    hypotheses at hand. *)
Ltac eval_run :=
  unfold ok;
  lazymatch goal with
  | |- bind _ _ _ = _ =>
      erewrite bind_ok by eval_run;
      cbv beta iota; unfold enter, leave; cbn [page figures blocks];
      eval_run
  | |- within _ _ _ = _ =>
      apply within_ok; unfold enter; cbn [page figures blocks]; eval_run
  | |- lift ?r _ = _ =>
      unfold lift;
      match goal with
      | H : r = _ |- _ => rewrite H; reflexivity
      end
  | |- (if _ then st_success _ else st_warning _) _ = _ =>
      rewrite if_verdict; reflexivity
  | |- sns_boxplot _ _ _ _ _ _ _ = _ => unfold sns_boxplot; eval_run
  | |- _ => reflexivity
  end.

(** Two calls with the same arguments returned the same value. *)
Ltac dedup :=
  repeat match goal with
  | H1 : ?x = inr ?a, H2 : ?x = inr ?b |- _ =>
      rewrite H1 in H2; injection H2 as H2; subst
  end.

(** One step of a run whose first call returns. *)
Ltac step tac :=
  erewrite bind_ok by tac; cbv beta; unfold enter, leave;
  cbn [page figures blocks].

(* ===================================================================== *)
(** ** The order of binary64 numbers *)

Ltac cmp_cases :=
  repeat match goal with
  | H : context [Z.compare ?a ?b] |- _ => destruct (Z.compare_spec a b)
  | |- context [Z.compare ?a ?b] => destruct (Z.compare_spec a b)
  | H : context [Pos.compare_cont Eq ?a ?b] |- _ =>
      change (Pos.compare_cont Eq a b) with (Pos.compare a b) in H;
      destruct (Pos.compare_spec a b)
  | |- context [Pos.compare_cont Eq ?a ?b] =>
      change (Pos.compare_cont Eq a b) with (Pos.compare a b);
      destruct (Pos.compare_spec a b)
  end.

Ltac sf_cases x y :=
  destruct x as [[|]| [|] | | [|] ? ?], y as [[|]| [|] | | [|] ? ?];
  simpl; intros; try congruence; auto;
  cmp_cases; subst; simpl in *; auto; try lia; try discriminate.

Lemma SFleb_trans x y z :
  SFleb x y = true -> SFleb y z = true -> SFleb x z = true.
Proof.
  unfold SFleb.
  destruct x as [[|]| [|] | | [|] mx ex], y as [[|]| [|] | | [|] my ey],
    z as [[|]| [|] | | [|] mz ez]; simpl; try discriminate; try reflexivity;
  intros; cmp_cases; subst; simpl in *;
  try discriminate; try reflexivity; try lia.
Qed.

Lemma SFleb_antisym x y :
  SFleb x y = true -> SFleb y x = true -> SFeqb x y = true.
Proof. unfold SFleb, SFeqb. sf_cases x y. Qed.

Lemma SFeqb_leb x y : SFeqb x y = true -> SFleb x y = true.
Proof.
  unfold SFleb, SFeqb. destruct (SFcompare x y) as [[| |]|]; auto.
Qed.

Lemma SFltb_leb x y : SFltb x y = true -> SFleb x y = true.
Proof.
  unfold SFleb, SFltb. destruct (SFcompare x y) as [[| |]|]; auto.
Qed.

Lemma SFltb_false_leb x y :
  x <> S754_nan -> y <> S754_nan -> SFltb x y = false -> SFleb y x = true.
Proof. unfold SFleb, SFltb. sf_cases x y. Qed.

Lemma SFeqb_refl x : x <> S754_nan -> SFeqb x x = true.
Proof.
  unfold SFeqb.
  destruct x as [[|]| [|] | | [|] mx ex]; simpl; intros; try congruence;
  rewrite Z.compare_refl;
  change (Pos.compare_cont Eq mx mx) with (Pos.compare mx mx);
  rewrite Pos.compare_refl; reflexivity.
Qed.

Lemma SFleb_not_nan x y :
  SFleb x y = true -> x <> S754_nan /\ y <> S754_nan.
Proof.
  unfold SFleb. destruct x, y; simpl; try discriminate; split; discriminate.
Qed.

Lemma is_nan_SF f : PrimFloat.is_nan f = false <-> Prim2SF f <> S754_nan.
Proof.
  unfold PrimFloat.is_nan. rewrite FloatAxioms.eqb_spec. split.
  - intros Hn E. rewrite E in Hn. discriminate.
  - intros Hn. rewrite SFeqb_refl by assumption. reflexivity.
Qed.

Lemma fleb_trans a b c :
  (a <=? b)%float = true -> (b <=? c)%float = true -> (a <=? c)%float = true.
Proof. rewrite !FloatAxioms.leb_spec. apply SFleb_trans. Qed.

Lemma fleb_antisym a b :
  (a <=? b)%float = true -> (b <=? a)%float = true -> (a =? b)%float = true.
Proof. rewrite !FloatAxioms.leb_spec, FloatAxioms.eqb_spec. apply SFleb_antisym. Qed.

Lemma feqb_leb a b : (a =? b)%float = true -> (a <=? b)%float = true.
Proof. rewrite FloatAxioms.leb_spec, FloatAxioms.eqb_spec. apply SFeqb_leb. Qed.

Lemma fltb_leb a b : (a <? b)%float = true -> (a <=? b)%float = true.
Proof. rewrite FloatAxioms.leb_spec, FloatAxioms.ltb_spec. apply SFltb_leb. Qed.

Lemma fltb_false_leb a b :
  PrimFloat.is_nan a = false -> PrimFloat.is_nan b = false ->
  (a <? b)%float = false -> (b <=? a)%float = true.
Proof.
  rewrite !is_nan_SF, FloatAxioms.leb_spec, FloatAxioms.ltb_spec. apply SFltb_false_leb.
Qed.

Lemma fleb_refl a : PrimFloat.is_nan a = false -> (a <=? a)%float = true.
Proof.
  intros Ha. apply feqb_leb. unfold PrimFloat.is_nan in Ha.
  destruct (a =? a)%float; [reflexivity | discriminate].
Qed.

Lemma fleb_not_nan a b :
  (a <=? b)%float = true ->
  PrimFloat.is_nan a = false /\ PrimFloat.is_nan b = false.
Proof. rewrite !is_nan_SF, FloatAxioms.leb_spec. apply SFleb_not_nan. Qed.

Lemma fleb_total a b :
  PrimFloat.is_nan a = false -> PrimFloat.is_nan b = false ->
  (a <=? b)%float = true \/ (b <=? a)%float = true.
Proof.
  intros Ha Hb. destruct (a <? b)%float eqn:E.
  - left. apply fltb_leb. assumption.
  - right. apply fltb_false_leb; assumption.
Qed.

Lemma na_last_leb_total a b :
  na_last_leb a b = true \/ na_last_leb b a = true.
Proof.
  unfold na_last_leb.
  destruct (PrimFloat.is_nan a) eqn:Ha, (PrimFloat.is_nan b) eqn:Hb; auto.
  apply fleb_total; assumption.
Qed.

Lemma na_last_leb_trans a b c :
  na_last_leb a b = true -> na_last_leb b c = true -> na_last_leb a c = true.
Proof.
  unfold na_last_leb.
  destruct (PrimFloat.is_nan c); [reflexivity|].
  destruct (PrimFloat.is_nan b); [discriminate|].
  destruct (PrimFloat.is_nan a); [discriminate|].
  apply fleb_trans.
Qed.

(* ===================================================================== *)
(** ** Sorting *)

Section SortingFacts.
Context {A : Type} (le : A -> A -> bool).
Hypothesis le_total : forall a b, le a b = true \/ le b a = true.

Lemma insert_sorted_perm x l : Permutation (insert_sorted le x l) (x :: l).
Proof.
  induction l as [|y l IH]; simpl; [reflexivity|].
  destruct (le x y); [reflexivity|].
  rewrite IH. apply perm_swap.
Qed.

Lemma sort_by_perm l : Permutation (sort_by le l) l.
Proof.
  induction l as [|x l IH]; simpl; [reflexivity|].
  unfold sort_by in *. simpl. rewrite insert_sorted_perm.
  apply perm_skip. assumption.
Qed.

Lemma insert_sorted_HdRel a x l :
  le a x = true ->
  HdRel (fun a b => le a b = true) a l ->
  HdRel (fun a b => le a b = true) a (insert_sorted le x l).
Proof.
  intros Hax Hl. destruct l as [|y l]; simpl.
  - constructor. assumption.
  - destruct (le x y); constructor; [assumption|].
    inversion Hl. assumption.
Qed.

Lemma insert_sorted_Sorted x l :
  Sorted (fun a b => le a b = true) l ->
  Sorted (fun a b => le a b = true) (insert_sorted le x l).
Proof.
  induction l as [|y l IH]; simpl; intros Hs.
  - repeat constructor.
  - destruct (le x y) eqn:Exy.
    + constructor; [assumption|]. constructor. assumption.
    + inversion Hs as [|? ? Hs' Hhd]; subst. constructor.
      * apply IH. assumption.
      * apply insert_sorted_HdRel; [|assumption].
        destruct (le_total x y) as [Hxy|Hyx]; [congruence | assumption].
Qed.

Lemma sort_by_Sorted l : Sorted (fun a b => le a b = true) (sort_by le l).
Proof.
  induction l as [|x l IH]; unfold sort_by in *; simpl.
  - constructor.
  - apply insert_sorted_Sorted. assumption.
Qed.

End SortingFacts.

Lemma Sorted_map {A B} (f : A -> B) (R : B -> B -> Prop) l :
  Sorted (fun a b => R (f a) (f b)) l -> Sorted R (map f l).
Proof.
  induction 1 as [|a l Hs IH Hhd]; simpl; constructor; [assumption|].
  destruct Hhd; simpl; constructor. assumption.
Qed.

(* ===================================================================== *)
(** ** Columns *)

Lemma getitem_setitem_same df k s : getitem (setitem df k s) k = ok s.
Proof.
  induction df as [|[k0 s0] df IH]; simpl.
  - rewrite String.eqb_refl. reflexivity.
  - destruct (String.eqb k0 k) eqn:E; simpl; rewrite E; auto.
Qed.

Lemma getitem_setitem_other df k k' s :
  k <> k' -> getitem (setitem df k s) k' = getitem df k'.
Proof.
  intros Hk. induction df as [|[k0 s0] df IH]; simpl.
  - apply String.eqb_neq in Hk. rewrite Hk. reflexivity.
  - destruct (String.eqb k0 k) eqn:E; simpl.
    + apply String.eqb_eq in E. subst k0.
      apply String.eqb_neq in Hk. rewrite Hk. reflexivity.
    + rewrite IH. reflexivity.
Qed.

Lemma getitem_df_select mask df k s :
  getitem df k = ok s -> getitem (df_select mask df) k = ok (select mask s).
Proof.
  induction df as [|[k0 s0] df IH]; simpl; [discriminate|].
  destruct (String.eqb k0 k); [intros [= ->]; reflexivity | assumption].
Qed.

Lemma getitem_In df k s : getitem df k = ok s -> In (k, s) df.
Proof.
  induction df as [|[k0 s0] df IH]; simpl; [discriminate|].
  destruct (String.eqb k0 k) eqn:E.
  - apply String.eqb_eq in E. intros [= ->]. left. congruence.
  - intros Hg. right. auto.
Qed.


Lemma select_Forall {A} (P : A -> Prop) mask l :
  Forall P l -> Forall P (select mask l).
Proof.
  intros Hf. revert mask.
  induction Hf as [|x l Hx Hf IH]; intros [|[|] mask]; simpl;
    try constructor; auto.
Qed.

Lemma select_all {A} (mask : list bool) (l : list A) :
  List.length mask = List.length l -> forallb (fun b => b) mask = true ->
  select mask l = l.
Proof.
  revert l. induction mask as [|b mask IH]; intros [|x l]; simpl;
    try discriminate; auto.
  intros [= Hlen] Hall. apply andb_true_iff in Hall as [-> Hall].
  rewrite IH; auto.
Qed.

Lemma fillna_notna v s :
  isna v = false -> Forall (fun g => isna g = false) (fillna v s).
Proof.
  intros Hv. unfold fillna. apply Forall_forall. intros g Hg.
  apply in_map_iff in Hg as (c & <- & _).
  destruct (isna c) eqn:E; assumption.
Qed.

Lemma fillna_Forall2 v s :
  Forall2 (fun old new => new = if isna old then v else old) s (fillna v s).
Proof. induction s; simpl; constructor; auto. Qed.

(* ===================================================================== *)
(** ** The data loader *)

Section Loader.
Context `{Libs}.

Ltac load_inv Hb :=
  let w1 := fresh "w" in
  let e := fresh "e" in
  let a := fresh "a" in
  unfold try_except;
  match goal with
  | |- context [match ?b ?w with _ => _ end] =>
      destruct (b w) as [w1 [e|a]] eqn:Hb
  end;
  [ destruct e; unfold bind, st_error, emit, ret, ok; discriminate
  | unfold ok; let E := fresh in intros E; inv_pair E; inv_run Hb ].

Lemma app_load_data_inv file w w' df :
  App.load_data file w = (w', ok (Some df)) ->
  exists df0, file = Some df0 /\ w' = w /\ loaded df0 df.
Proof.
  unfold App.load_data. load_inv Hb.
  match goal with
  | Hg : getitem (setitem _ _ _) _ = _ |- _ =>
      rewrite getitem_setitem_other in Hg by discriminate
  end.
  eexists. repeat split. unfold loaded. eauto 10.
Qed.

Lemma streamlit_load_data_inv file w w' df :
  StreamlitApp.load_data file w = (w', ok (Some df)) ->
  exists df0, file = Some df0 /\ w' = w /\ loaded df0 df.
Proof.
  unfold StreamlitApp.load_data. load_inv Hb.
  match goal with
  | Hg : getitem (setitem _ _ _) _ = _ |- _ =>
      rewrite getitem_setitem_other in Hg by discriminate
  end.
  eexists. repeat split. unfold loaded. eauto 10.
Qed.

End Loader.

Section LoadedData.
Context `{Libs}.

Lemma loaded_columns df0 df :
  loaded df0 df ->
  exists price logp garage,
    getitem df0 "SalePrice" = ok price /\
    getitem df0 "Garage Type" = ok garage /\
    np_log1p_series price = ok logp /\
    getitem df "SalePrice" = ok price /\
    getitem df "SalePrice_log" = ok logp /\
    getitem df "Garage Type" = ok (fillna (CStr "No Garage") garage).
Proof.
  intros (price & logp & garage & Hp & Hl & Hg & ->).
  exists price, logp, garage. repeat split; auto.
  - rewrite !getitem_setitem_other by discriminate. assumption.
  - rewrite getitem_setitem_other by discriminate.
    apply getitem_setitem_same.
  - apply getitem_setitem_same.
Qed.


Lemma streamlit_load_data_loaded df0 df w :
  loaded df0 df -> StreamlitApp.load_data (Some df0) w = (w, ok (Some df)).
Proof.
  intros (price & logp & garage & Hp & Hl & Hg & ->).
  unfold StreamlitApp.load_data, try_except, bind, read_csv, ret, lift, ok in *.
  cbv beta iota. rewrite Hp, Hl, getitem_setitem_other, Hg by discriminate.
  reflexivity.
Qed.

(** Either script's loader returned the table [df]. *)
Lemma load_data_inv file w w' df :
  App.load_data file w = (w', ok (Some df)) \/
  StreamlitApp.load_data file w = (w', ok (Some df)) ->
  exists df0, file = Some df0 /\ w' = w /\ loaded df0 df.
Proof.
  intros [Hl|Hl];
    [apply app_load_data_inv | apply streamlit_load_data_inv]; assumption.
Qed.

Lemma log1p_series_rows price logp :
  np_log1p_series price = ok logp ->
  Forall2 (fun p l => exists x, to_float p = ok x /\ l = CFloat (np_log1p x))
    price logp.
Proof.
  intros Hl. apply rmap_Forall2 in Hl.
  induction Hl as [|p l price logp Hpl _ IH]; constructor; [|assumption].
  unfold log1p_cell in Hpl. destruct (to_float p) as [e|x]; [discriminate|].
  simpl in Hpl. injection Hpl as <-. eauto.
Qed.


End LoadedData.

(** ** C5 *)

(** C5. After a successful load ([load_data] of either script returns a
    table), the column [SalePrice_log] holds, row by row, [log1p] of the
    sale price of that row (an integer price cast to float64), and the
    column [SalePrice] is the one of the file. *)
Theorem C5_log_column_is_log1p `{Libs} file w w' df :
  App.load_data file w = (w', ok (Some df)) \/
  StreamlitApp.load_data file w = (w', ok (Some df)) ->
  exists df0 price logp,
    file = Some df0 /\
    getitem df0 "SalePrice" = ok price /\
    getitem df "SalePrice" = ok price /\
    getitem df "SalePrice_log" = ok logp /\
    Forall2 (fun p l => exists x, to_float p = ok x /\ l = CFloat (np_log1p x))
      price logp.
Proof.
  intros Hl. apply load_data_inv in Hl as (df0 & -> & _ & Hl).
  apply loaded_columns in Hl
    as (price & logp & garage & Hp0 & _ & Hlog & Hp & Hl & _).
  exists df0, price, logp. repeat split; auto.
  apply log1p_series_rows. assumption.
Qed.

(** ** C6 *)

(** C6. After a successful load the column [Garage Type] has no missing
    entry: an entry that was missing in the file is ['No Garage'], every
    other entry is the one of the file. *)
Theorem C6_garage_type_filled `{Libs} file w w' df :
  App.load_data file w = (w', ok (Some df)) \/
  StreamlitApp.load_data file w = (w', ok (Some df)) ->
  exists df0 garage0 garage,
    file = Some df0 /\
    getitem df0 "Garage Type" = ok garage0 /\
    getitem df "Garage Type" = ok garage /\
    Forall (fun g => isna g = false) garage /\
    Forall2 (fun old new =>
               new = if isna old then CStr "No Garage" else old)
      garage0 garage.
Proof.
  intros Hl. apply load_data_inv in Hl as (df0 & -> & _ & Hl).
  apply loaded_columns in Hl
    as (price & logp & garage & _ & Hg0 & _ & _ & _ & Hg).
  exists df0, garage, (fillna (CStr "No Garage") garage).
  repeat split; auto.
  - apply fillna_notna. reflexivity.
  - apply fillna_Forall2.
Qed.

Lemma C5_log_column_is_log1p_witness :
  (@App.load_data (Sample.libs 0.5 0.5) (Some Sample.houses) empty_world
     = (empty_world, ok (Some Sample.houses_loaded)) \/
   @StreamlitApp.load_data (Sample.libs 0.5 0.5) (Some Sample.houses)
     empty_world = (empty_world, ok (Some Sample.houses_loaded))) /\
  exists df0 price logp,
    Some Sample.houses = Some df0 /\
    getitem df0 "SalePrice" = ok price /\
    getitem Sample.houses_loaded "SalePrice" = ok price /\
    getitem Sample.houses_loaded "SalePrice_log" = ok logp /\
    Forall2 (fun p l =>
               exists x, to_float p = ok x /\
                         l = CFloat (@np_log1p (Sample.libs 0.5 0.5) x))
      price logp.
Proof.
  split; [left; reflexivity|].
  apply (@C5_log_column_is_log1p (Sample.libs 0.5 0.5) (Some Sample.houses)
           empty_world empty_world Sample.houses_loaded).
  left. reflexivity.
Defined.

Lemma C6_garage_type_filled_witness :
  (@App.load_data (Sample.libs 0.5 0.5) (Some Sample.houses) empty_world
     = (empty_world, ok (Some Sample.houses_loaded)) \/
   @StreamlitApp.load_data (Sample.libs 0.5 0.5) (Some Sample.houses)
     empty_world = (empty_world, ok (Some Sample.houses_loaded))) /\
  exists df0 garage0 garage,
    Some Sample.houses = Some df0 /\
    getitem df0 "Garage Type" = ok garage0 /\
    getitem Sample.houses_loaded "Garage Type" = ok garage /\
    Forall (fun g => isna g = false) garage /\
    Forall2 (fun old new =>
               new = if isna old then CStr "No Garage" else old)
      garage0 garage.
Proof.
  split; [left; reflexivity|].
  apply (@C6_garage_type_filled (Sample.libs 0.5 0.5) (Some Sample.houses)
           empty_world empty_world Sample.houses_loaded).
  left. reflexivity.
Defined.

(* ===================================================================== *)
(** ** The threshold filter *)

Lemma series_le_floats s xs x :
  to_floats s = ok xs ->
  series_le s x = ok (map (fun f => PrimFloat.leb f x) xs).
Proof.
  unfold to_floats, series_le. revert xs.
  induction s as [|c s IH]; simpl; intros xs.
  - intros [= <-]. reflexivity.
  - destruct (to_float c) as [e|f]; simpl; [discriminate|].
    destruct (rmap to_float s) as [e|fs]; simpl; [discriminate|].
    intros [= <-]. rewrite (IH fs eq_refl). reflexivity.
Qed.

Lemma fold_fmin_lb l a :
  PrimFloat.is_nan a = false ->
  Forall (fun x => PrimFloat.is_nan x = false) l ->
  PrimFloat.is_nan (fold_left fmin l a) = false /\
  (fold_left fmin l a <=? a)%float = true /\
  forall x, In x l -> (fold_left fmin l a <=? x)%float = true.
Proof.
  intros Ha Hl. revert a Ha.
  induction Hl as [|y l Hy Hl IH]; intros a Ha; simpl.
  - repeat split; [assumption | apply fleb_refl; assumption | tauto].
  - unfold fmin at 2 4 6. destruct (y <? a)%float eqn:E.
    + destruct (IH y Hy) as (Hn & Hm & Hall).
      repeat split; [assumption | | ].
      * eapply fleb_trans; [exact Hm | apply fltb_leb; assumption].
      * intros x [<-|Hx]; auto.
    + destruct (IH a Ha) as (Hn & Hm & Hall).
      repeat split; [assumption | assumption | ].
      intros x [<-|Hx]; auto.
      eapply fleb_trans; [exact Hm | apply fltb_false_leb; assumption].
Qed.

Lemma fold_fmax_ub l a :
  PrimFloat.is_nan a = false ->
  Forall (fun x => PrimFloat.is_nan x = false) l ->
  PrimFloat.is_nan (fold_left fmax l a) = false /\
  (a <=? fold_left fmax l a)%float = true /\
  forall x, In x l -> (x <=? fold_left fmax l a)%float = true.
Proof.
  intros Ha Hl. revert a Ha.
  induction Hl as [|y l Hy Hl IH]; intros a Ha; simpl.
  - repeat split; [assumption | apply fleb_refl; assumption | tauto].
  - unfold fmax at 2 4 6. destruct (a <? y)%float eqn:E.
    + destruct (IH y Hy) as (Hn & Hm & Hall).
      repeat split; [assumption | | ].
      * eapply fleb_trans; [apply fltb_leb; eassumption | exact Hm].
      * intros x [<-|Hx]; auto.
    + destruct (IH a Ha) as (Hn & Hm & Hall).
      repeat split; [assumption | assumption | ].
      intros x [<-|Hx]; auto.
      eapply fleb_trans; [|exact Hm]. apply fltb_false_leb; assumption.
Qed.

Lemma skipna_notna l :
  Forall (fun x => PrimFloat.is_nan x = false) (skipna l).
Proof.
  apply Forall_forall. intros x Hx. apply filter_In in Hx as [_ Hx].
  apply negb_true_iff. assumption.
Qed.

Lemma reduce_fmin_lb l x :
  In x l -> PrimFloat.is_nan x = false -> (reduce fmin l <=? x)%float = true.
Proof.
  intros Hx Hn. unfold reduce.
  assert (Hin : In x (skipna l)).
  { apply filter_In. split; [assumption|]. rewrite Hn. reflexivity. }
  pose proof (skipna_notna l) as Hs.
  destruct (skipna l) as [|a l']; [contradiction|].
  inversion Hs as [|? ? Ha Hl']; subst.
  destruct (fold_fmin_lb l' a Ha Hl') as (_ & Hm & Hall).
  destruct Hin as [<-|Hin]; auto.
Qed.

Lemma reduce_fmax_ub l x :
  In x l -> PrimFloat.is_nan x = false -> (x <=? reduce fmax l)%float = true.
Proof.
  intros Hx Hn. unfold reduce.
  assert (Hin : In x (skipna l)).
  { apply filter_In. split; [assumption|]. rewrite Hn. reflexivity. }
  pose proof (skipna_notna l) as Hs.
  destruct (skipna l) as [|a l']; [contradiction|].
  inversion Hs as [|? ? Ha Hl']; subst.
  destruct (fold_fmax_ub l' a Ha Hl') as (_ & Hm & Hall).
  destruct Hin as [<-|Hin]; auto.
Qed.

(** At the maximum the comparison keeps the numbers and drops the NaN. *)
Lemma leb_max_mask xs :
  map (fun f => PrimFloat.leb f (reduce fmax xs)) xs
  = map (fun f => negb (PrimFloat.is_nan f)) xs.
Proof.
  apply map_ext_in. intros f Hf.
  destruct (PrimFloat.is_nan f) eqn:Hn; simpl.
  - destruct (f <=? reduce fmax xs)%float eqn:E; [|reflexivity].
    apply fleb_not_nan in E as [E _]. congruence.
  - apply reduce_fmax_ub; assumption.
Qed.


Lemma df_filtrado_mask df logp xs x :
  getitem df "SalePrice_log" = ok logp -> to_floats logp = ok xs ->
  StreamlitApp.df_filtrado (Some df) x
  = ok (df_select (map (fun f => PrimFloat.leb f x) xs) df).
Proof.
  intros Hg Hx. unfold StreamlitApp.df_filtrado, subscript.
  rewrite Hg. simpl. rewrite (series_le_floats _ _ _ Hx). reflexivity.
Qed.

Lemma df_select_all mask df :
  rectangular df -> List.length mask = nrows df ->
  forallb (fun b => b) mask = true -> df_select mask df = df.
Proof.
  intros Hrect Hlen Hall. unfold df_select.
  rewrite <- (map_id df) at 2. apply map_ext_in. intros [k s] Hin. simpl.
  rewrite select_all; auto. rewrite Hlen. symmetry. eapply Hrect; eassumption.
Qed.

(** ** C8 *)




(* ===================================================================== *)
(** ** The views handed to the analysis routines *)

Section Views.
Context `{Libs}.






(** streamlit_app.py up to the tabs, on a loaded table whose log prices
    make a range the slider accepts: the page it has built and the view it
    goes on with. *)
Lemma streamlit_script_view env df0 df logp xs w :
  csv env = Some df0 -> loaded df0 df ->
  getitem df "SalePrice_log" = ok logp -> to_floats logp = ok xs ->
  slider_range (reduce fmin xs) (reduce fmax xs) = true ->
  exists view,
    StreamlitApp.df_filtrado (Some df)
      match slider_value env with
      | Some x => x
      | None => reduce fmax xs
      end = ok view /\
    StreamlitApp.script env w
    = StreamlitApp.ready view
        {| page := page w ++
             streamlit_preamble w (reduce fmin xs) (reduce fmax xs)
               match slider_value env with
               | Some x => x
               | None => reduce fmax xs
               end;
           figures := figures w; blocks := blocks w |}.
Proof.
  intros Hcsv Hl Hlog Hxs Hrange.
  assert (Hmin : rbind (subscript (Some df) "SalePrice_log") series_min
                 = ok (reduce fmin xs)).
  { simpl. rewrite Hlog. simpl. unfold series_min. rewrite Hxs. reflexivity. }
  assert (Hmax : rbind (subscript (Some df) "SalePrice_log") series_max
                 = ok (reduce fmax xs)).
  { simpl. rewrite Hlog. simpl. unfold series_max. rewrite Hxs. reflexivity. }
  pose proof (df_filtrado_mask df logp xs
                match slider_value env with
                | Some x => x
                | None => reduce fmax xs
                end Hlog Hxs) as Hview.
  eexists. split; [exact Hview|].
  unfold StreamlitApp.script. rewrite Hcsv.
  step ltac:(apply streamlit_load_data_loaded; eassumption).
  step reflexivity. unfold st_divider. step reflexivity.
  step reflexivity. step reflexivity.
  step ltac:(unfold lift; rewrite Hmin; reflexivity).
  step ltac:(unfold lift; rewrite Hmax; reflexivity).
  step ltac:(unfold lift; rewrite Hmax; reflexivity).
  unfold st_slider. rewrite Hrange.
  step reflexivity.
  step ltac:(unfold lift; rewrite Hview; reflexivity).
  rewrite <- !app_assoc. reflexivity.
Qed.

(** On any other loaded table the slider raises: the run ends under the
    texts of the sidebar, before the filter and the tabs. *)
Lemma streamlit_script_stops env df0 df logp xs w :
  csv env = Some df0 -> loaded df0 df ->
  getitem df "SalePrice_log" = ok logp -> to_floats logp = ok xs ->
  slider_range (reduce fmin xs) (reduce fmax xs) = false ->
  StreamlitApp.script env w
  = ({| page := page w ++ streamlit_head w;
        figures := figures w; blocks := blocks w |},
     raise_ StreamlitAPIException).
Proof.
  intros Hcsv Hl Hlog Hxs Hrange.
  assert (Hmin : rbind (subscript (Some df) "SalePrice_log") series_min
                 = ok (reduce fmin xs)).
  { simpl. rewrite Hlog. simpl. unfold series_min. rewrite Hxs. reflexivity. }
  assert (Hmax : rbind (subscript (Some df) "SalePrice_log") series_max
                 = ok (reduce fmax xs)).
  { simpl. rewrite Hlog. simpl. unfold series_max. rewrite Hxs. reflexivity. }
  unfold StreamlitApp.script. rewrite Hcsv.
  step ltac:(apply streamlit_load_data_loaded; eassumption).
  step reflexivity. unfold st_divider. step reflexivity.
  step reflexivity. step reflexivity.
  step ltac:(unfold lift; rewrite Hmin; reflexivity).
  step ltac:(unfold lift; rewrite Hmax; reflexivity).
  step ltac:(unfold lift; rewrite Hmax; reflexivity).
  unfold st_slider. rewrite Hrange.
  unfold bind, within, raise, enter, leave, raise_. cbn.
  rewrite <- !app_assoc. reflexivity.
Qed.

End Views.

(** ** C10 *)



(* ===================================================================== *)
(** ** The missing file *)

(** app.py without the file: the title, the caption and the one message
    of [load_data]; the branch [if df is not None] is not taken. *)
Lemma app_missing_file `{Libs} sel sl :
  rerun (App.script {| csv := None; selected := sel; slider_value := sl |})
  = [ {| place := [];
         widget := Title "Tarefa 3 de AEDI: Análise Interativa do Mercado Imobiliário de Ames" |};
      {| place := [];
         widget := Write [Lit "Análise de Variância (ANOVA) aplicada ao dataset Ames Housing."] |};
      {| place := [];
         widget := Error "Arquivo 'AmesHousing.csv' não encontrado. Por favor, faça o upload do arquivo junto com o app." |} ]
  /\ error_displays
       (rerun (App.script {| csv := None; selected := sel; slider_value := sl |}))
     = 1.
Proof. split; reflexivity. Qed.

(** ** C1 *)

(** C1 fails in streamlit_app.py.  Without the file [load_data] shows its
    message and returns [None]; the script then subscripts [df] for the
    slider bounds (line 124) before it reaches [if df is not None] (line
    128), so a [TypeError] escapes and Streamlit shows a second error
    under the message.  No analysis output is produced. *)
Theorem C1_streamlit_missing_file_two_errors `{Libs} sel sl :
  rerun (StreamlitApp.script
           {| csv := None; selected := sel; slider_value := sl |})
  = [ {| place := [];
         widget := Error "Arquivo 'AmesHousing.csv' não encontrado. Por favor, faça o upload do arquivo para o seu repositório GitHub." |};
      {| place := [Column 1]; widget := Title "Análise Interativa de Imóveis" |};
      {| place := [Column 1];
         widget := Markdown "<h3 style='text-align: center;'>Mercado de Ames, Iowa</h3>" |};
      {| place := []; widget := Divider |};
      {| place := [Sidebar]; widget := Title "Parâmetros" |};
      {| place := [Sidebar];
         widget := Write [Lit "Use os controles abaixo para filtrar os dados (funcionalidade a ser implementada)."] |};
      {| place := [];
         widget := ExceptionBox (TypeError "'NoneType' object is not subscriptable") |} ]
  /\ error_displays
       (rerun (StreamlitApp.script
                 {| csv := None; selected := sel; slider_value := sl |}))
     = 2.
Proof. split; reflexivity. Qed.

(* ===================================================================== *)
(** ** Dispatch *)

Section Dispatch.
Context `{Libs}.

(** app.py: the select box, then the routine of the chosen attribute. *)
Lemma app_ready_selected env df w :
  App.ready env df w
  = app_routine (attribute_at (selected env)) df
      {| page := page w ++
           [ {| place := Sidebar :: blocks w;
                widget := Header "Selecione a Análise" |};
             {| place := Sidebar :: blocks w;
                widget :=
                  Selectbox "Escolha a característica para analisar:"
                    App.options
                    (nth (selected env) App.options
                       "Qualidade Geral (Overall Qual)") |} ];
         figures := figures w;
         blocks := blocks w |}.
Proof.
  unfold App.ready.
  step reflexivity. step reflexivity.
  rewrite <- app_assoc. simpl.
  destruct (selected env) as [|[|[|n]]]; simpl; try reflexivity.
  destruct n; reflexivity.
Qed.

(** streamlit_app.py: a run of the three tabs that returns has run the
    three routines, one after the other, each inside its tab. *)
Lemma streamlit_ready_inv view w w' :
  StreamlitApp.ready view w = (w', ok tt) ->
  exists w0 w1 w2 w3,
    page w0 = page w ++
      [ {| place := blocks w;
           widget := Tabs ["Análise por Qualidade"; "Análise por Bairro";
                           "Análise por Garagem"] |} ] /\
    figures w0 = figures w /\ blocks w0 = blocks w /\
    streamlit_routine OverallQual view (enter (Tab 0) w0) = (w1, ok tt) /\
    streamlit_routine Neighborhood view (enter (Tab 1) (leave w0 w1))
      = (w2, ok tt) /\
    streamlit_routine GarageType view (enter (Tab 2) (leave w0 w2))
      = (w3, ok tt) /\
    w' = leave w0 w3.
Proof.
  intros Hr. unfold StreamlitApp.ready in Hr.
  apply bind_inv in Hr as (w0 & [] & H0 & Hr).
  apply bind_inv in Hr as (w1' & [] & H1 & Hr).
  apply bind_inv in Hr as (w2' & [] & H2 & Hr).
  apply within_inv in H1 as (w1 & H1 & ->).
  apply within_inv in H2 as (w2 & H2 & ->).
  apply within_inv in Hr as (w3 & H3 & ->).
  unfold st_tabs, emit in H0. injection H0 as <-.
  exists {| page := page w ++
              [ {| place := blocks w;
                   widget := Tabs ["Análise por Qualidade";
                                   "Análise por Bairro";
                                   "Análise por Garagem"] |} ];
            figures := figures w; blocks := blocks w |}, w1, w2, w3.
  repeat split; assumption.
Qed.

End Dispatch.

(** ** C4 *)

(** C4 as stated fails in streamlit_app.py, which has no select box: one
    run on the sample table produces the output of the three routines, a
    heading and a figure each. *)
Lemma C4_streamlit_runs_all_three :
  headings
    (rerun (@StreamlitApp.script (Sample.libs 0.5 0.5) Sample.first_run))
  = ["Análise da Qualidade Geral (Overall Qual)";
     "Análise por Bairro (Neighborhood)";
     "Análise por Tipo de Garagem (Garage Type)"] /\
  List.length
    (figures_shown
       (rerun (@StreamlitApp.script (Sample.libs 0.5 0.5) Sample.first_run)))
  = 3.
Proof. split; vm_compute; reflexivity. Qed.

(** C4, amended.  In app.py a run in the Ready state shows the select box
    and then executes exactly one routine, the one of the attribute
    selected in the box.  In streamlit_app.py there is no selection: a run
    that completes has executed the three routines in turn, each on the
    filtered view and inside its own tab. *)
Theorem C4_one_routine_in_app_three_in_streamlit `{Libs}
    env df view w w' :
  StreamlitApp.ready view w = (w', ok tt) ->
  (exists w1,
     App.ready env df w
       = app_routine (attribute_at (selected env)) df w1 /\
     page w1 = page w ++
       [ {| place := Sidebar :: blocks w;
            widget := Header "Selecione a Análise" |};
         {| place := Sidebar :: blocks w;
            widget :=
              Selectbox "Escolha a característica para analisar:"
                App.options
                (nth (selected env) App.options
                   "Qualidade Geral (Overall Qual)") |} ] /\
     figures w1 = figures w /\ blocks w1 = blocks w) /\
  (exists w0 w1 w2 w3,
     streamlit_routine OverallQual view (enter (Tab 0) w0) = (w1, ok tt) /\
     streamlit_routine Neighborhood view (enter (Tab 1) (leave w0 w1))
       = (w2, ok tt) /\
     streamlit_routine GarageType view (enter (Tab 2) (leave w0 w2))
       = (w3, ok tt) /\
     w' = leave w0 w3).
Proof.
  intros Hr. split.
  - eexists. split; [apply app_ready_selected|]. simpl. auto.
  - apply streamlit_ready_inv in Hr
      as (w0 & w1 & w2 & w3 & _ & _ & _ & H1 & H2 & H3 & ->).
    exists w0, w1, w2, w3. auto.
Qed.

Lemma C4_one_routine_in_app_three_in_streamlit_witness :
  @StreamlitApp.ready (Sample.libs 0.5 0.5) Sample.houses_loaded empty_world
  = (fst (@StreamlitApp.ready (Sample.libs 0.5 0.5) Sample.houses_loaded
            empty_world), ok tt) /\
  exists w1,
    @App.ready (Sample.libs 0.5 0.5) Sample.first_run Sample.houses_loaded
      empty_world
    = @app_routine (Sample.libs 0.5 0.5) OverallQual Sample.houses_loaded w1.
Proof.
  split; [vm_compute; reflexivity|].
  destruct (@C4_one_routine_in_app_three_in_streamlit (Sample.libs 0.5 0.5)
              Sample.first_run Sample.houses_loaded Sample.houses_loaded
              empty_world
              (fst (@StreamlitApp.ready (Sample.libs 0.5 0.5)
                      Sample.houses_loaded empty_world)))
    as [(w1 & Happ & _) _].
  - vm_compute. reflexivity.
  - exists w1. exact Happ.
Defined.

(* ===================================================================== *)
(** ** The verdicts *)

Lemma verdicts_app p q : verdicts (p ++ q) = verdicts p ++ verdicts q.
Proof. unfold verdicts. rewrite map_app, filter_app. reflexivity. Qed.

Section Verdicts.
Context `{Libs}.

(** Where the verdict follows the test: "met" exactly when the p-value
    is above 0.05. *)
Lemma app_overall_qual_verdicts df w w' :
  App.run_analysis_overall_qual df w = (w', ok tt) ->
  exists model groups s_sh p_sh s_lv p_lv,
    ols_fit (formula_for "Overall Qual") df = ok model /\
    shapiro (resid model) = ok (s_sh, p_sh) /\
    groups_of df "SalePrice_log" "Overall Qual" = ok groups /\
    levene groups = ok (s_lv, p_lv) /\
    verdicts (page w') = verdicts (page w) ++
      [ if (0.05 <? p_sh)%float
        then Success "✅ Pressuposto de normalidade atendido."
        else Warning "❌ Pressuposto de normalidade violado.";
        if (0.05 <? p_lv)%float
        then Success "✅ Pressuposto de homogeneidade atendido."
        else Warning "❌ Pressuposto de homogeneidade violado." ].
Proof.
  intros Hr. unfold App.run_analysis_overall_qual in Hr. inv_run Hr;
  do 6 eexists; repeat (split; [eassumption|]);
  rewrite !verdicts_app; cbn; rewrite ?app_nil_r, <- ?app_assoc;
  repeat match goal with
  | |- context [(?a <? ?b)%float] => destruct (a <? b)%float
  end; reflexivity.
Qed.

Lemma app_garage_type_verdicts df w w' :
  App.run_analysis_garage_type df w = (w', ok tt) ->
  exists model groups s_sh p_sh s_lv p_lv,
    ols_fit (formula_for "Garage Type") df = ok model /\
    shapiro (resid model) = ok (s_sh, p_sh) /\
    groups_of df "SalePrice_log" "Garage Type" = ok groups /\
    levene groups = ok (s_lv, p_lv) /\
    verdicts (page w') = verdicts (page w) ++
      [ if (0.05 <? p_sh)%float
        then Success "✅ Pressuposto de normalidade atendido."
        else Warning "❌ Pressuposto de normalidade violado.";
        if (0.05 <? p_lv)%float
        then Success "✅ Pressuposto de homogeneidade atendido."
        else Warning "❌ Pressuposto de homogeneidade violado." ].
Proof.
  intros Hr. unfold App.run_analysis_garage_type in Hr. inv_run Hr;
  do 6 eexists; repeat (split; [eassumption|]);
  rewrite !verdicts_app; cbn; rewrite ?app_nil_r, <- ?app_assoc;
  repeat match goal with
  | |- context [(?a <? ?b)%float] => destruct (a <? b)%float
  end; reflexivity.
Qed.

Lemma streamlit_overall_qual_verdicts df w w' :
  StreamlitApp.run_analysis_overall_qual df w = (w', ok tt) ->
  exists model groups s_sh p_sh s_lv p_lv,
    ols_fit (formula_for "Overall Qual") df = ok model /\
    shapiro (resid model) = ok (s_sh, p_sh) /\
    groups_of df "SalePrice_log" "Overall Qual" = ok groups /\
    levene groups = ok (s_lv, p_lv) /\
    verdicts (page w') = verdicts (page w) ++
      [ if (0.05 <? p_sh)%float then Success "Pressuposto Atendido."
        else Warning "Pressuposto Violado.";
        if (0.05 <? p_lv)%float then Success "Pressuposto Atendido."
        else Warning "Pressuposto Violado." ].
Proof.
  intros Hr. unfold StreamlitApp.run_analysis_overall_qual in Hr. inv_run Hr;
  dedup; do 6 eexists; repeat (split; [eassumption|]);
  rewrite !verdicts_app; cbn; rewrite ?app_nil_r, <- ?app_assoc;
  repeat match goal with
  | |- context [(?a <? ?b)%float] => destruct (a <? b)%float
  end; reflexivity.
Qed.

(** Where it does not: the neighbourhood routines compute the two
    p-values and show "violated" whatever they are. *)
Lemma app_neighborhood_verdicts df w w' :
  App.run_analysis_neighborhood df w = (w', ok tt) ->
  verdicts (page w') = verdicts (page w) ++
    [ Warning "❌ Pressuposto de normalidade violado.";
      Warning "❌ Pressuposto de homogeneidade violado." ].
Proof.
  intros Hr. unfold App.run_analysis_neighborhood in Hr. inv_run Hr.
  rewrite !verdicts_app. cbn. rewrite ?app_nil_r, <- ?app_assoc. reflexivity.
Qed.

Lemma streamlit_neighborhood_verdicts df w w' :
  StreamlitApp.run_analysis_neighborhood df w = (w', ok tt) ->
  verdicts (page w') = verdicts (page w) ++
    [ Warning "Pressupostos de normalidade e homogeneidade violados. Usando Kruskal-Wallis." ].
Proof.
  intros Hr. unfold StreamlitApp.run_analysis_neighborhood in Hr. inv_run Hr.
  rewrite !verdicts_app. cbn. rewrite ?app_nil_r, <- ?app_assoc. reflexivity.
Qed.

End Verdicts.

(** ** C2 *)

(** C2 fails for the neighbourhood attribute.  On the sample table, with
    tests that report p = 0.5 for normality and for homogeneity (above
    0.05), both scripts still show the verdict "violated". *)
Theorem C2_neighborhood_verdict_ignores_p_value :
  @shapiro (Sample.libs 0.5 0.5) [] = ok (1, 0.5)%float /\
  (0.05 <? 0.5)%float = true /\
  verdicts
    (page (fst (@App.run_analysis_neighborhood (Sample.libs 0.5 0.5)
                  Sample.houses_loaded empty_world)))
  = [ Warning "❌ Pressuposto de normalidade violado.";
      Warning "❌ Pressuposto de homogeneidade violado." ] /\
  verdicts
    (page (fst (@StreamlitApp.run_analysis_neighborhood (Sample.libs 0.5 0.5)
                  Sample.houses_loaded empty_world)))
  = [ Warning "Pressupostos de normalidade e homogeneidade violados. Usando Kruskal-Wallis." ].
Proof. repeat split; vm_compute; reflexivity. Qed.

(* ===================================================================== *)
(** ** The order of the boxes *)

Lemma rmap_tagged {A B} (g : A -> result B) ks m :
  rmap (fun k => rbind (g k) (fun v => ok (k, v))) ks = ok m ->
  map fst m = ks /\ Forall (fun p => g (fst p) = ok (snd p)) m.
Proof.
  revert m. induction ks as [|k ks IH]; simpl; intros m.
  - intros [= <-]. split; constructor.
  - destruct (g k) as [e|v] eqn:Ek; simpl; [discriminate|].
    destruct (rmap _ ks) as [e|m'] eqn:Em; simpl; [discriminate|].
    intros [= <-]. destruct (IH m' eq_refl) as [Hk Hf]. simpl. split.
    + f_equal. assumption.
    + constructor; assumption.
Qed.

Lemma Forall_rmap {A B} (g : A -> result B) (m : list (A * B)) :
  Forall (fun p => g (fst p) = ok (snd p)) m ->
  rmap g (map fst m) = ok (map snd m).
Proof.
  induction 1 as [|p m Hp _ IH]; simpl; [reflexivity|].
  rewrite Hp. simpl. rewrite IH. reflexivity.
Qed.

(** [sort_values] lists every group once, in ascending order of its
    median, the groups without a median last. *)
Lemma median_order_spec df key target cats :
  median_order df key target = ok cats ->
  exists keys,
    getitem df key = ok keys /\
    Permutation cats (filter notna (unique keys)) /\
    ordered_by_median df key target cats.
Proof.
  unfold median_order, groupby_median.
  destruct (getitem df key) as [e|keys] eqn:Hk; simpl; [discriminate|].
  destruct (getitem df target) as [e|vals] eqn:Hv; simpl; [discriminate|].
  destruct (rmap _ _) as [e|m] eqn:Hm; simpl; [discriminate|].
  intros [= <-]. apply rmap_tagged in Hm as [Hfst Hmed].
  pose proof (sort_by_perm (fun a b => na_last_leb (snd a) (snd b)) m) as Hp.
  exists keys. split; [reflexivity|]. split.
  - unfold index, sort_values. rewrite Hp, Hfst. apply sort_by_perm.
  - exists keys, vals, (map snd (sort_values m)). repeat split; auto.
    + unfold index. apply Forall_rmap.
      eapply Permutation_Forall; [symmetry; exact Hp | exact Hmed].
    + unfold ascending, sort_values.
      apply Sorted_map with (R := fun a b => na_last_leb a b = true).
      apply sort_by_Sorted. intros a b. apply na_last_leb_total.
Qed.

Section Figures.
Context `{Libs}.

Ltac shown :=
  rewrite !figures_shown_app;
  repeat match goal with
  | |- context [(?a <? ?b)%float] => destruct (a <? b)%float
  end;
  (cbn; rewrite ?app_nil_r; eexists; split; [reflexivity|]).

(** The figure of each routine: its rotation, and where its categories
    come from. *)
Lemma app_overall_qual_figure df w w' :
  App.run_analysis_overall_qual df w = (w', ok tt) ->
  exists fig,
    figures_shown (page w') = figures_shown (page w) ++ [fig] /\
    xticks_rotation fig = None /\
    exists keys,
      getitem df "Overall Qual" = ok keys /\
      categories fig = categorical_order keys.
Proof.
  intros Hr. unfold App.run_analysis_overall_qual in Hr. inv_run Hr;
  shown; (split; [reflexivity|]); eexists; (split; [eassumption|reflexivity]).
Qed.

Lemma streamlit_overall_qual_figure df w w' :
  StreamlitApp.run_analysis_overall_qual df w = (w', ok tt) ->
  exists fig,
    figures_shown (page w') = figures_shown (page w) ++ [fig] /\
    xticks_rotation fig = None /\
    exists keys,
      getitem df "Overall Qual" = ok keys /\
      categories fig = categorical_order keys.
Proof.
  intros Hr. unfold StreamlitApp.run_analysis_overall_qual in Hr. inv_run Hr;
  shown; (split; [reflexivity|]); eexists; (split; [eassumption|reflexivity]).
Qed.

Lemma app_neighborhood_figure df w w' :
  App.run_analysis_neighborhood df w = (w', ok tt) ->
  exists fig,
    figures_shown (page w') = figures_shown (page w) ++ [fig] /\
    xticks_rotation fig = Some 90%Z /\
    median_order df "Neighborhood" "SalePrice_log" = ok (categories fig).
Proof.
  intros Hr. unfold App.run_analysis_neighborhood in Hr. inv_run Hr.
  shown; (split; [reflexivity | assumption]).
Qed.

Lemma streamlit_neighborhood_figure df w w' :
  StreamlitApp.run_analysis_neighborhood df w = (w', ok tt) ->
  exists fig,
    figures_shown (page w') = figures_shown (page w) ++ [fig] /\
    xticks_rotation fig = Some 90%Z /\
    median_order df "Neighborhood" "SalePrice_log" = ok (categories fig).
Proof.
  intros Hr. unfold StreamlitApp.run_analysis_neighborhood in Hr. inv_run Hr.
  shown; (split; [reflexivity | assumption]).
Qed.

Lemma app_garage_type_figure df w w' :
  App.run_analysis_garage_type df w = (w', ok tt) ->
  exists fig,
    figures_shown (page w') = figures_shown (page w) ++ [fig] /\
    xticks_rotation fig = None /\
    median_order df "Garage Type" "SalePrice_log" = ok (categories fig).
Proof.
  intros Hr. unfold App.run_analysis_garage_type in Hr. inv_run Hr;
  shown; (split; [reflexivity | assumption]).
Qed.

Lemma streamlit_garage_type_figure df w w' :
  StreamlitApp.run_analysis_garage_type df w = (w', ok tt) ->
  exists fig,
    figures_shown (page w') = figures_shown (page w) ++ [fig] /\
    xticks_rotation fig = None /\
    median_order df "Garage Type" "SalePrice_log" = ok (categories fig).
Proof.
  intros Hr. unfold StreamlitApp.run_analysis_garage_type in Hr. inv_run Hr.
  shown; (split; [reflexivity | assumption]).
Qed.

End Figures.

(** ** C9 *)

(** C9 as stated fails for the garage type: on the sample table the
    figure of its routine has no rotation of the category labels, in
    either script. *)
Lemma C9_garage_type_not_rotated :
  map xticks_rotation
    (figures_shown
       (page (fst (@App.run_analysis_garage_type (Sample.libs 0.5 0.5)
                     Sample.houses_loaded empty_world))))
  = [None] /\
  map xticks_rotation
    (figures_shown
       (page (fst (@StreamlitApp.run_analysis_garage_type
                     (Sample.libs 0.5 0.5) Sample.houses_loaded
                     empty_world))))
  = [None].
Proof. split; vm_compute; reflexivity. Qed.

(** C9, amended.  A routine that completes shows one figure; its category
    labels are rotated (by 90 degrees) for the neighbourhood attribute and
    for no other, in both scripts. *)
Theorem C9_rotation_only_for_neighborhood `{Libs} a df w w' :
  app_routine a df w = (w', ok tt) \/
  streamlit_routine a df w = (w', ok tt) ->
  exists fig,
    figures_shown (page w') = figures_shown (page w) ++ [fig] /\
    xticks_rotation fig
    = match a with
      | Neighborhood => Some 90%Z
      | _ => None
      end.
Proof.
  intros [Hr|Hr]; destruct a; simpl in Hr.
  - apply app_overall_qual_figure in Hr as (fig & Hs & Hrot & _); eauto.
  - apply app_neighborhood_figure in Hr as (fig & Hs & Hrot & _); eauto.
  - apply app_garage_type_figure in Hr as (fig & Hs & Hrot & _); eauto.
  - apply streamlit_overall_qual_figure in Hr as (fig & Hs & Hrot & _); eauto.
  - apply streamlit_neighborhood_figure in Hr as (fig & Hs & Hrot & _); eauto.
  - apply streamlit_garage_type_figure in Hr as (fig & Hs & Hrot & _); eauto.
Qed.

Lemma C9_rotation_only_for_neighborhood_witness :
  (@app_routine (Sample.libs 0.5 0.5) Neighborhood Sample.houses_loaded
     empty_world
   = (fst (@app_routine (Sample.libs 0.5 0.5) Neighborhood
             Sample.houses_loaded empty_world), ok tt) \/
   @streamlit_routine (Sample.libs 0.5 0.5) Neighborhood Sample.houses_loaded
     empty_world
   = (fst (@app_routine (Sample.libs 0.5 0.5) Neighborhood
             Sample.houses_loaded empty_world), ok tt)) /\
  exists fig,
    figures_shown
      (page (fst (@app_routine (Sample.libs 0.5 0.5) Neighborhood
                    Sample.houses_loaded empty_world)))
    = figures_shown (page empty_world) ++ [fig] /\
    xticks_rotation fig = Some 90%Z.
Proof.
  split; [left; vm_compute; reflexivity|].
  apply (@C9_rotation_only_for_neighborhood (Sample.libs 0.5 0.5)
           Neighborhood Sample.houses_loaded empty_world).
  left. vm_compute. reflexivity.
Defined.

(** ** C3 *)

(** C3 as stated fails for the quality grade: its box-plot is drawn
    without an order, so the grades stand in ascending order of the grade.
    On a table where grade 1 has the median 12.125 and grade 2 the median
    11.625 the boxes are 1, 2, which is not ascending in the median. *)
Lemma C3_overall_qual_not_by_median :
  map categories
    (figures_shown
       (page (fst (@App.run_analysis_overall_qual (Sample.libs 0.5 0.5)
                     Sample.upside_down empty_world))))
  = [[CInt 1; CInt 2]] /\
  map categories
    (figures_shown
       (page (fst (@StreamlitApp.run_analysis_overall_qual
                     (Sample.libs 0.5 0.5) Sample.upside_down empty_world))))
  = [[CInt 1; CInt 2]] /\
  rmap (group_median [CInt 1; CInt 2; CInt 1; CInt 2]
          [CFloat 12.25; CFloat 11.5; CFloat 12; CFloat 11.75])
    [CInt 1; CInt 2]
  = ok [12.125; 11.625]%float /\
  ~ ordered_by_median Sample.upside_down "Overall Qual" "SalePrice_log"
      [CInt 1; CInt 2].
Proof.
  repeat split; try (vm_compute; reflexivity).
  intros (keys & vals & ms & Hk & Hv & Hm & Hasc).
  injection Hk as <-. injection Hv as <-.
  vm_compute in Hm. injection Hm as <-.
  inversion Hasc as [|? ? _ Hhd]; subst.
  inversion Hhd as [|? ? Hle]; subst.
  vm_compute in Hle. discriminate.
Qed.

(** C3, amended.  A routine that completes shows one figure.  For the
    neighbourhood and for the garage type its boxes are the distinct
    non-missing values of the column, each once, in ascending order of
    the median log price of the group (groups without a median last).
    For the quality grade no order is passed: the boxes stand in the
    default order of the plotting library. *)
Theorem C3_boxes_ordered `{Libs} a df w w' :
  app_routine a df w = (w', ok tt) \/
  streamlit_routine a df w = (w', ok tt) ->
  exists fig keys,
    figures_shown (page w') = figures_shown (page w) ++ [fig] /\
    getitem df (column a) = ok keys /\
    match a with
    | OverallQual => categories fig = categorical_order keys
    | _ =>
        Permutation (categories fig) (filter notna (unique keys)) /\
        ordered_by_median df (column a) "SalePrice_log" (categories fig)
    end.
Proof.
  intros [Hr|Hr]; destruct a; simpl in Hr;
  [ apply app_overall_qual_figure in Hr as (fig & Hs & _ & keys & Hk & Hc)
  | apply app_neighborhood_figure in Hr as (fig & Hs & _ & Hm)
  | apply app_garage_type_figure in Hr as (fig & Hs & _ & Hm)
  | apply streamlit_overall_qual_figure in Hr
      as (fig & Hs & _ & keys & Hk & Hc)
  | apply streamlit_neighborhood_figure in Hr as (fig & Hs & _ & Hm)
  | apply streamlit_garage_type_figure in Hr as (fig & Hs & _ & Hm) ];
  try (apply median_order_spec in Hm as (keys & Hk & Hp & Ho));
  exists fig, keys; simpl; auto.
Qed.

Lemma C3_boxes_ordered_witness :
  (@app_routine (Sample.libs 0.5 0.5) GarageType Sample.upside_down
     empty_world
   = (fst (@app_routine (Sample.libs 0.5 0.5) GarageType
             Sample.upside_down empty_world), ok tt) \/
   @streamlit_routine (Sample.libs 0.5 0.5) GarageType Sample.upside_down
     empty_world
   = (fst (@app_routine (Sample.libs 0.5 0.5) GarageType
             Sample.upside_down empty_world), ok tt)) /\
  exists fig keys,
    figures_shown
      (page (fst (@app_routine (Sample.libs 0.5 0.5) GarageType
                    Sample.upside_down empty_world)))
    = figures_shown (page empty_world) ++ [fig] /\
    getitem Sample.upside_down "Garage Type" = ok keys /\
    Permutation (categories fig) (filter notna (unique keys)) /\
    ordered_by_median Sample.upside_down "Garage Type" "SalePrice_log"
      (categories fig).
Proof.
  split; [left; vm_compute; reflexivity|].
  apply (@C3_boxes_ordered (Sample.libs 0.5 0.5) GarageType
           Sample.upside_down empty_world).
  left. vm_compute. reflexivity.
Defined.

(* ===================================================================== *)
(** ** The omnibus tests *)

Lemma rmap_total {A B} (f : A -> result B) (g : A -> B) l :
  (forall x, f x = ok (g x)) -> rmap f l = ok (map g l).
Proof.
  intros Hf. induction l as [|x l IH]; simpl; [reflexivity|].
  rewrite Hf, IH. reflexivity.
Qed.

(** The groups of a routine are the partitions of the log price by the
    distinct values of its column. *)
Lemma groups_of_spec df key keys vals :
  getitem df key = ok keys -> getitem df "SalePrice_log" = ok vals ->
  groups_of df "SalePrice_log" key = ok (partitions keys vals).
Proof.
  intros Hk Hv. unfold groups_of, partitions. rewrite Hk. simpl.
  apply rmap_total. intros k. rewrite Hv. reflexivity.
Qed.

(** A fit that returned has found both columns of its formula, and codes
    its term by the dtype of the column. *)
Lemma ols_fit_inv `{Libs} f df model :
  ols_fit f df = ok model ->
  exists y x r,
    getitem df (response f) = ok y /\ getitem df (factor f) = ok x /\
    ols_resid f df = ok r /\
    model = {| m_formula := f; m_coding := patsy_coding x; m_data := df;
               resid := r |}.
Proof.
  unfold ols_fit, patsy_eval.
  destruct (getitem df (response f)) as [e|y]; simpl; [discriminate|].
  destruct (getitem df (factor f)) as [e|x]; simpl; [discriminate|].
  destruct (ols_resid f df) as [e|r]; simpl; [discriminate|].
  intros [= <-]. exists y, x, r. auto.
Qed.

(** The two tests of a routine receive the same arrays, the numbers of
    the groups. *)
Lemma tests_on_samples `{Libs} groups r hp :
  levene groups = ok r -> kruskal groups = ok hp ->
  exists samples,
    Forall2 sample_of groups samples /\
    stats_levene samples = ok r /\ stats_kruskal samples = ok hp.
Proof.
  unfold levene, kruskal, arrays.
  destruct (rmap to_floats groups) as [e|samples] eqn:E; simpl;
    [discriminate|].
  intros Hl Hk. exists samples. split; [|auto].
  apply rmap_Forall2 in E. eapply Forall2_impl; [|exact E].
  intros g a Hga. apply rmap_Forall2. exact Hga.
Qed.

(** A partition is the group of its key, read off the rows. *)
Lemma partition_rows keys vals k :
  dropna (select (series_eq keys k) vals) = group_of_rows keys vals k.
Proof.
  unfold dropna, series_eq, group_of_rows, rows, notna. revert vals.
  induction keys as [|c keys IH]; intros [|v vals]; simpl; try reflexivity.
  destruct (cell_eqb c k); simpl; [|apply IH].
  destruct (isna v); simpl; rewrite IH; reflexivity.
Qed.

Lemma Forall2_map_l {A B C} (f : A -> B) (R : B -> C -> Prop) l l' :
  Forall2 R (map f l) l' <-> Forall2 (fun a c => R (f a) c) l l'.
Proof.
  revert l'. induction l as [|a l IH]; intros l'; simpl.
  - split; intros Hf; inversion Hf; constructor.
  - split; intros Hf; inversion Hf; subst; constructor; auto; apply IH; auto.
Qed.

(** *** Equality of cells *)

Lemma SFeqb_sym x y : SFeqb x y = true -> SFeqb y x = true.
Proof. unfold SFeqb. sf_cases x y. Qed.

Lemma feqb_sym a b : (a =? b)%float = (b =? a)%float.
Proof.
  rewrite !FloatAxioms.eqb_spec.
  destruct (SFeqb (Prim2SF a) (Prim2SF b)) eqn:E1,
           (SFeqb (Prim2SF b) (Prim2SF a)) eqn:E2; try reflexivity.
  - apply SFeqb_sym in E1. congruence.
  - apply SFeqb_sym in E2. congruence.
Qed.

Lemma feqb_geb a b : (a =? b)%float = true -> (b <=? a)%float = true.
Proof. rewrite feqb_sym. apply feqb_leb. Qed.

Lemma feqb_trans a b c :
  (a =? b)%float = true -> (b =? c)%float = true -> (a =? c)%float = true.
Proof.
  intros Hab Hbc. apply fleb_antisym.
  - eapply fleb_trans; apply feqb_leb; eassumption.
  - eapply fleb_trans; apply feqb_geb; eassumption.
Qed.

Lemma feqb_refl a : PrimFloat.is_nan a = false -> (a =? a)%float = true.
Proof.
  unfold PrimFloat.is_nan. destruct (a =? a)%float; [reflexivity|discriminate].
Qed.

Lemma feqb_nan_l a b : PrimFloat.is_nan a = true -> (a =? b)%float = false.
Proof.
  intros Ha. destruct (a =? b)%float eqn:E; [|reflexivity].
  apply feqb_leb, fleb_not_nan in E as [E _]. congruence.
Qed.

Lemma feqb_nan_r a b : PrimFloat.is_nan b = true -> (a =? b)%float = false.
Proof. rewrite feqb_sym. apply feqb_nan_l. Qed.

Lemma cell_eqb_sym a b : cell_eqb a b = cell_eqb b a.
Proof.
  destruct a, b; simpl; auto using feqb_sym, Z.eqb_sym, String.eqb_sym.
Qed.

Lemma cell_eqb_nan_l c k : isna c = true -> cell_eqb c k = false.
Proof.
  destruct c as [f| |]; simpl; try discriminate. intros Hf.
  destruct k; simpl; auto using feqb_nan_l.
Qed.

Lemma cell_eqb_refl c : isna c = false -> cell_eqb c c = true.
Proof.
  destruct c; simpl; intros Hc.
  - apply feqb_refl. assumption.
  - apply Z.eqb_refl.
  - apply String.eqb_refl.
Qed.

Lemma same_key_sym a b : same_key a b = same_key b a.
Proof.
  unfold same_key. rewrite cell_eqb_sym, (andb_comm (isna a)). reflexivity.
Qed.

Lemma same_key_refl a : same_key a a = true.
Proof.
  unfold same_key. destruct (isna a) eqn:E.
  - apply orb_true_r.
  - rewrite cell_eqb_refl by assumption. reflexivity.
Qed.

(** [==] passes along a chain whose ends are not two integers around a
    float. *)
Lemma cell_eqb_trans a b c :
  is_int a = false \/ is_real b = false ->
  cell_eqb a b = true -> cell_eqb b c = true -> cell_eqb a c = true.
Proof.
  intros Hmix Hab Hbc.
  destruct a as [x|x|s], b as [y|y|t]; simpl in Hab; try discriminate.
  - destruct c as [z|z|u]; simpl in *; try discriminate;
      eapply feqb_trans; eassumption.
  - destruct c as [z|z|u]; simpl in *; try discriminate.
    + eapply feqb_trans; eassumption.
    + apply Z.eqb_eq in Hbc. subst. assumption.
  - destruct Hmix as [Hmix|Hmix]; simpl in Hmix; [discriminate|].
    apply negb_false_iff in Hmix. rewrite feqb_nan_r in Hab by assumption.
    discriminate.
  - apply Z.eqb_eq in Hab. subst. assumption.
  - destruct c as [z|z|u]; simpl in *; try discriminate.
    apply String.eqb_eq in Hab. subst. assumption.
Qed.

(** *** The distinct values of a column *)

Lemma unique_acc_spec seen s :
  (forall c, In c s ->
     existsb (same_key c) seen = true \/
     exists k, In k (unique_acc seen s) /\ same_key c k = true) /\
  (forall k, In k (unique_acc seen s) ->
     In k s /\ existsb (same_key k) seen = false) /\
  ForallOrdPairs (fun a b => same_key a b = false /\ same_key b a = false)
    (unique_acc seen s).
Proof.
  revert seen. induction s as [|c s IH]; intros seen; simpl.
  - repeat split; try contradiction. constructor.
  - destruct (IH seen) as (Hcov & Hin & Hpairs).
    destruct (IH (c :: seen)) as (Hcov' & Hin' & Hpairs').
    destruct (existsb (same_key c) seen) eqn:E.
    + repeat split.
      * intros c' [<-|Hc']; [left; assumption | apply Hcov; assumption].
      * right. apply Hin. assumption.
      * apply Hin. assumption.
      * assumption.
    + repeat split.
      * intros c' [<-|Hc'].
        -- right. exists c. split; [left; reflexivity | apply same_key_refl].
        -- destruct (Hcov' c' Hc') as [Hs|(k & Hk & Hs)].
           ++ simpl in Hs. apply orb_true_iff in Hs as [Hs|Hs].
              ** right. exists c. split; [left; reflexivity | assumption].
              ** left. assumption.
           ++ right. exists k. split; [right; assumption | assumption].
      * destruct H as [<-|Hk]; [left; reflexivity|].
        right. apply Hin'. assumption.
      * destruct H as [<-|Hk]; [assumption|].
        apply Hin' in Hk as [_ Hk]. simpl in Hk.
        apply orb_false_iff in Hk as [_ Hk]. assumption.
      * constructor; [|assumption].
        apply Forall_forall. intros k Hk.
        apply Hin' in Hk as [_ Hk]. simpl in Hk.
        apply orb_false_iff in Hk as [Hk _].
        split; [rewrite same_key_sym|]; assumption.
Qed.

Lemma unique_distinct s : distinct_values s (unique s).
Proof.
  destruct (unique_acc_spec [] s) as (Hcov & Hin & Hpairs).
  split; [|split].
  - intros c Hc. destruct (Hcov c Hc) as [Hs|Hs]; [discriminate|assumption].
  - intros k Hk. apply Hin. assumption.
  - assumption.
Qed.

Section Tests.
Context `{Libs}.

Ltac was_added :=
  unfold added; cbn [page]; rewrite <- ?app_assoc;
  eexists; (split; [reflexivity|]); cbn;
  repeat first [left; reflexivity | right].

Ltac anova_shown :=
  dedup; do 2 eexists; (split; [eassumption|]); (split; [eassumption|]);
  was_added.

Ltac kruskal_shown :=
  do 5 eexists; (split; [eassumption|]); (split; [eassumption|]);
  (split; [eassumption|]); (split; [eassumption|]); was_added.

Ltac calls Hc :=
  destruct Hc as (keys & vals & model & groups & Hk & Hv & Hm & Hg
                  & [[s1 p1] Hs] & [[s2 p2] Hl] & [[h p] Hkr]
                  & (t & pv & Ht & Hp) & [o Ho]).


Lemma app_garage_type_table df w w' :
  App.run_analysis_garage_type df w = (w', ok tt) ->
  exists model table,
    ols_fit (formula_for "Garage Type") df = ok model /\
    anova_lm model 2 = ok table /\
    added w w' (Dataframe table).
Proof.
  intros Hr. unfold App.run_analysis_garage_type in Hr. inv_run Hr.
  anova_shown.
Qed.


Lemma streamlit_garage_type_table df w w' :
  StreamlitApp.run_analysis_garage_type df w = (w', ok tt) ->
  exists model table,
    ols_fit (formula_for "Garage Type") df = ok model /\
    anova_lm model 2 = ok table /\
    added w w' (Dataframe table).
Proof.
  intros Hr. unfold StreamlitApp.run_analysis_garage_type in Hr. inv_run Hr.
  anova_shown.
Qed.

(** The non-parametric routines: the Kruskal-Wallis test runs on the
    groups the Levene test ran on, and its result is shown. *)
Lemma app_neighborhood_kruskal df w w' :
  App.run_analysis_neighborhood df w = (w', ok tt) ->
  exists vals groups r h p,
    getitem df "SalePrice_log" = ok vals /\
    groups_of df "SalePrice_log" "Neighborhood" = ok groups /\
    levene groups = ok r /\
    kruskal groups = ok (h, p) /\
    added w w'
      (Write [Lit "**Teste de Kruskal-Wallis:** Estatística H = "; Fix2 h;
              Lit ", p-valor = "; Sci4 p]).
Proof.
  intros Hr. unfold App.run_analysis_neighborhood in Hr. inv_run Hr.
  kruskal_shown.
Qed.

Lemma streamlit_neighborhood_kruskal df w w' :
  StreamlitApp.run_analysis_neighborhood df w = (w', ok tt) ->
  exists vals groups r h p,
    getitem df "SalePrice_log" = ok vals /\
    groups_of df "SalePrice_log" "Neighborhood" = ok groups /\
    levene groups = ok r /\
    kruskal groups = ok (h, p) /\
    added w w'
      (Metric "P-valor de Kruskal-Wallis" [Sci4 p]
         (Some "Rejeitamos H0: Diferença Significativa")).
Proof.
  intros Hr. unfold StreamlitApp.run_analysis_neighborhood in Hr. inv_run Hr.
  kruskal_shown.
Qed.

(** The groups and the arrays of a neighbourhood routine that has run its
    two tests. *)
Lemma neighborhood_samples df vals groups r hp :
  getitem df "SalePrice_log" = ok vals ->
  groups_of df "SalePrice_log" "Neighborhood" = ok groups ->
  levene groups = ok r -> kruskal groups = ok hp ->
  exists keys ks samples,
    getitem df "Neighborhood" = ok keys /\
    distinct_values keys ks /\
    Forall2 (fun k a => sample_of (group_of_rows keys vals k) a) ks samples /\
    stats_levene samples = ok r /\
    stats_kruskal samples = ok hp.
Proof.
  intros Hv Hg Hl Hk.
  destruct (getitem df "Neighborhood") as [e|keys] eqn:Hkeys.
  { unfold groups_of in Hg. rewrite Hkeys in Hg. discriminate. }
  rewrite (groups_of_spec df "Neighborhood" keys vals Hkeys Hv) in Hg.
  injection Hg as <-.
  destruct (tests_on_samples _ _ _ Hl Hk) as (samples & Hs & Hl' & Hk').
  exists keys, (unique keys), samples.
  split; [reflexivity|]. split; [apply unique_distinct|].
  split; [|auto].
  unfold partitions in Hs.
  rewrite (map_ext _ _ (partition_rows keys vals)) in Hs.
  apply (proj1 (Forall2_map_l (group_of_rows keys vals) sample_of _ _)).
  exact Hs.
Qed.

(** Each routine returns when the library calls it makes return. *)
Lemma app_routine_returns a df w :
  calls_return df (column a) -> exists w', app_routine a df w = (w', ok tt).
Proof.
  intros Hc. calls Hc.
  destruct a; simpl in *; eexists;
    [ unfold App.run_analysis_overall_qual
    | unfold App.run_analysis_neighborhood
    | unfold App.run_analysis_garage_type ]; eval_run.
Qed.

Lemma streamlit_routine_returns a df w :
  calls_return df (column a) ->
  exists w', streamlit_routine a df w = (w', ok tt).
Proof.
  intros Hc. calls Hc.
  destruct a; simpl in *; eexists;
    [ unfold StreamlitApp.run_analysis_overall_qual
    | unfold StreamlitApp.run_analysis_neighborhood
    | unfold StreamlitApp.run_analysis_garage_type ]; eval_run.
Qed.

End Tests.

(** ** C7 *)



(** The garage types of a loaded file are strings: the column is fitted
    as a factor. *)
Lemma garage_type_is_fitted_as_a_factor `{Libs} df garage model :
  getitem df "Garage Type" = ok garage ->
  existsb (fun c => negb (is_numeric c)) garage = true ->
  ols_fit (formula_for "Garage Type") df = ok model ->
  m_coding model = Categorical.
Proof.
  intros Hg Hstr Hfit.
  apply ols_fit_inv in Hfit as (y & x & r & _ & Hx & _ & ->).
  simpl in *. rewrite Hg in Hx. injection Hx as <-.
  unfold patsy_coding.
  destruct (forallb is_numeric garage) eqn:E; [|reflexivity].
  apply existsb_exists in Hstr as (c & Hc & Hn).
  rewrite forallb_forall in E. rewrite (E c Hc) in Hn. discriminate.
Qed.

(* ===================================================================== *)
(** * Further properties *)

(** ** The loader on a file that is present *)

Lemma getitem_error df k e : getitem df k = inl e -> e = KeyError k.
Proof.
  induction df as [|[k0 s0] df IH]; simpl.
  - intros [= <-]. reflexivity.
  - destruct (String.eqb k0 k); [discriminate | assumption].
Qed.

Lemma rmap_error {A B} (f : A -> result B) l e :
  rmap f l = inl e -> exists x, In x l /\ f x = inl e.
Proof.
  induction l as [|x l IH]; simpl; [discriminate|].
  destruct (f x) as [e'|y] eqn:Ex; simpl.
  - intros [= <-]. eauto.
  - destruct (rmap f l) as [e'|ys]; simpl; [|discriminate].
    intros [= <-]. destruct (IH eq_refl) as (x' & Hin & Hx). eauto.
Qed.

Lemma to_float_numeric c : is_numeric c = true <-> exists f, to_float c = ok f.
Proof.
  destruct c; simpl; split; eauto; try discriminate.
  intros [f Hf]. discriminate.
Qed.

Lemma to_float_error c e :
  to_float c = inl e -> e = TypeError "could not convert string to float".
Proof. destruct c; simpl; try discriminate. intros [= <-]. reflexivity. Qed.

Section LoaderCases.
Context `{Libs}.

Lemma log1p_series_error price e :
  np_log1p_series price = inl e ->
  e = TypeError "could not convert string to float".
Proof.
  intros Hl. apply rmap_error in Hl as (c & _ & Hc).
  unfold log1p_cell in Hc. destruct (to_float c) as [e'|f] eqn:Ec.
  - simpl in Hc. injection Hc as <-. eapply to_float_error. eassumption.
  - discriminate.
Qed.

Lemma log1p_series_numeric price :
  Forall (fun c => is_numeric c = true) price <->
  exists logp, np_log1p_series price = ok logp.
Proof.
  unfold np_log1p_series. split.
  - induction 1 as [|c price Hc _ [logp IH]]; simpl; [eauto|].
    apply to_float_numeric in Hc as [f Hf]. unfold log1p_cell at 1.
    rewrite Hf. simpl. rewrite IH. simpl. eauto.
  - intros [logp Hl]. apply rmap_Forall2 in Hl.
    induction Hl as [|c l price logp Hc _ IH]; constructor; [|assumption].
    apply to_float_numeric. unfold log1p_cell in Hc.
    destruct (to_float c) as [e|f]; [discriminate | eauto].
Qed.

Ltac load_present :=
  unfold try_except, load_outcome, bind, read_csv, ret, lift, ok;
  cbv beta iota;
  match goal with
  | |- context [getitem ?df0 "SalePrice"] =>
      let Hp := fresh "Hp" in
      destruct (getitem df0 "SalePrice") as [?|price] eqn:Hp; simpl;
      [ apply getitem_error in Hp; subst; reflexivity |]
  end;
  match goal with
  | |- context [np_log1p_series ?p] =>
      let Hl := fresh "Hl" in
      destruct (np_log1p_series p) as [?|logp] eqn:Hl; simpl;
      [ apply log1p_series_error in Hl; subst; reflexivity |]
  end;
  rewrite getitem_setitem_other by discriminate;
  match goal with
  | |- context [getitem ?df0 "Garage Type"] =>
      let Hg := fresh "Hg" in
      destruct (getitem df0 "Garage Type") as [?|garage] eqn:Hg; simpl;
      [ apply getitem_error in Hg; subst; reflexivity | reflexivity ]
  end.

Lemma app_load_data_present df0 w :
  App.load_data (Some df0) w = (w, load_outcome df0).
Proof. unfold App.load_data. load_present. Qed.

Lemma streamlit_load_data_present df0 w :
  StreamlitApp.load_data (Some df0) w = (w, load_outcome df0).
Proof. unfold StreamlitApp.load_data. load_present. Qed.

End LoaderCases.

Lemma bind_err {A B} (m : M A) (k : A -> M B) w w1 e :
  m w = (w1, inl e) -> bind m k w = (w1, inl e).
Proof. unfold bind. intros ->. reflexivity. Qed.

Lemma has_column df k s :
  getitem df k = ok s ->
  existsb (fun k0 => String.eqb k0 k) (columns df) = true.
Proof.
  induction df as [|[k0 s0] df IH]; simpl; [discriminate|].
  destruct (String.eqb k0 k); [reflexivity | assumption].
Qed.

Lemma columns_setitem df k s :
  columns (setitem df k s)
  = columns df ++
    (if existsb (fun k0 => String.eqb k0 k) (columns df) then [] else [k]).
Proof.
  unfold columns.
  induction df as [|[k0 s0] df IH]; simpl; [reflexivity|].
  destruct (String.eqb k0 k); simpl.
  - rewrite app_nil_r. reflexivity.
  - rewrite IH. reflexivity.
Qed.

Lemma setitem_rectangular df k s :
  df <> [] -> rectangular df -> List.length s = nrows df ->
  rectangular (setitem df k s) /\ nrows (setitem df k s) = nrows df.
Proof.
  intros Hne Hrect Hlen.
  assert (Hn : nrows (setitem df k s) = nrows df).
  { destruct df as [|[k0 s0] df]; [congruence|]. simpl.
    destruct (String.eqb k0 k); simpl; [assumption | reflexivity]. }
  split; [|assumption].
  intros k' s' Hin. rewrite Hn.
  assert (Hcases : In (k', s') df \/ s' = s).
  { clear - Hin. induction df as [|[k0 s0] df IH]; simpl in Hin.
    - destruct Hin as [[= _ <-]|[]]. auto.
    - destruct (String.eqb k0 k); simpl in Hin.
      + destruct Hin as [[= _ <-]|Hin]; [auto|]. left. right. assumption.
      + destruct Hin as [Heq|Hin]; [left; left; assumption|].
        destruct (IH Hin) as [Hin'|Hs]; [left; right; assumption | auto]. }
  destruct Hcases as [Hin'| ->]; [eapply Hrect; eassumption | assumption].
Qed.

Section LoaderProperties.
Context `{Libs}.

Lemma load_outcome_table df0 :
  loadable df0 <-> exists df, load_outcome df0 = ok (Some df).
Proof.
  unfold load_outcome. split.
  - intros (price & garage & Hp & Hnum & Hg).
    apply log1p_series_numeric in Hnum as [logp Hl].
    rewrite Hp. simpl. rewrite Hl. simpl. rewrite Hg. simpl. eauto.
  - intros [df Hd].
    destruct (getitem df0 "SalePrice") as [e|price] eqn:Hp; [discriminate|].
    simpl in Hd.
    destruct (np_log1p_series price) as [e|logp] eqn:Hl; [discriminate|].
    simpl in Hd.
    destruct (getitem df0 "Garage Type") as [e|garage] eqn:Hg; [discriminate|].
    exists price, garage. repeat split; auto.
    apply log1p_series_numeric. eauto.
Qed.

Lemma load_outcome_raises df0 :
  ~ loadable df0 ->
  exists e,
    load_outcome df0 = inl e /\
    (e = KeyError "SalePrice" \/
     e = TypeError "could not convert string to float" \/
     e = KeyError "Garage Type").
Proof.
  intros Hnot. unfold load_outcome.
  destruct (getitem df0 "SalePrice") as [e|price] eqn:Hp; simpl.
  { apply getitem_error in Hp. subst. eauto. }
  destruct (np_log1p_series price) as [e|logp] eqn:Hl; simpl.
  { apply log1p_series_error in Hl. subst. eauto. }
  destruct (getitem df0 "Garage Type") as [e|garage] eqn:Hg; simpl.
  { apply getitem_error in Hg. subst. eauto 6. }
  exfalso. apply Hnot. exists price, garage. repeat split; auto.
  apply log1p_series_numeric. eauto.
Qed.

End LoaderProperties.

(** X1. On a file that is there, [load_data] of either script returns a
    table exactly when the file has a numeric [SalePrice] column and a
    [Garage Type] column; it then leaves the page as it was. *)
Theorem X1_load_data_returns_table_iff_loadable `{Libs} df0 w :
  (loadable df0 <->
   exists df, App.load_data (Some df0) w = (w, ok (Some df))) /\
  (loadable df0 <->
   exists df, StreamlitApp.load_data (Some df0) w = (w, ok (Some df))).
Proof.
  rewrite app_load_data_present, streamlit_load_data_present.
  rewrite load_outcome_table. split; split; intros [df Hd]; exists df.
  - rewrite Hd. reflexivity.
  - injection Hd as Hd. assumption.
  - rewrite Hd. reflexivity.
  - injection Hd as Hd. assumption.
Qed.

(** X2. [load_data] returns [None] exactly when the file is missing, and
    it has then added its one [st.error] message to the page and nothing
    else. *)
Theorem X2_load_data_none_iff_missing `{Libs} file w w' :
  (App.load_data file w = (w', ok None) <->
   file = None /\
   w' = {| page := page w ++
             [ {| place := blocks w;
                  widget := Error "Arquivo 'AmesHousing.csv' não encontrado. Por favor, faça o upload do arquivo junto com o app." |} ];
           figures := figures w; blocks := blocks w |}) /\
  (StreamlitApp.load_data file w = (w', ok None) <->
   file = None /\
   w' = {| page := page w ++
             [ {| place := blocks w;
                  widget := Error "Arquivo 'AmesHousing.csv' não encontrado. Por favor, faça o upload do arquivo para o seu repositório GitHub." |} ];
           figures := figures w; blocks := blocks w |}).
Proof.
  destruct file as [df0|].
  - rewrite app_load_data_present, streamlit_load_data_present.
    split; (split; [|intros [[=] _]]); intros [= _ Hd]; exfalso;
    unfold load_outcome in Hd;
    destruct (getitem df0 "SalePrice"); simpl in Hd; try discriminate;
    destruct (np_log1p_series s); simpl in Hd; try discriminate;
    destruct (getitem df0 "Garage Type"); discriminate.
  - split; (split; [intros [= <-]; auto | intros [_ ->]; reflexivity]).
Qed.

(** X3. A file that is there but lacks a numeric [SalePrice] or a
    [Garage Type] column is not reported with the message of the loader:
    [load_data] raises a [KeyError] or a [TypeError] and adds nothing to
    the page, and app.py shows its title, its caption and that exception. *)
Theorem X3_unusable_file_raises `{Libs} df0 w sel sl :
  ~ loadable df0 ->
  exists e,
    (e = KeyError "SalePrice" \/
     e = TypeError "could not convert string to float" \/
     e = KeyError "Garage Type") /\
    App.load_data (Some df0) w = (w, inl e) /\
    StreamlitApp.load_data (Some df0) w = (w, inl e) /\
    rerun (App.script
             {| csv := Some df0; selected := sel; slider_value := sl |})
    = [ {| place := [];
           widget := Title "Tarefa 3 de AEDI: Análise Interativa do Mercado Imobiliário de Ames" |};
        {| place := [];
           widget := Write [Lit "Análise de Variância (ANOVA) aplicada ao dataset Ames Housing."] |};
        {| place := []; widget := ExceptionBox e |} ].
Proof.
  intros Hnot. destruct (load_outcome_raises df0 Hnot) as (e & He & Hcases).
  exists e. split; [assumption|].
  rewrite app_load_data_present, streamlit_load_data_present, He.
  repeat split.
  unfold rerun, App.script, st_title, st_write. simpl csv.
  step reflexivity. step reflexivity.
  erewrite bind_err by (rewrite app_load_data_present, He; reflexivity).
  reflexivity.
Qed.

Lemma X3_unusable_file_raises_witness :
  ~ loadable Cases.no_price /\
  exists e,
    (e = KeyError "SalePrice" \/
     e = TypeError "could not convert string to float" \/
     e = KeyError "Garage Type") /\
    @App.load_data (Sample.libs 0.5 0.5) (Some Cases.no_price) empty_world
      = (empty_world, inl e) /\
    @StreamlitApp.load_data (Sample.libs 0.5 0.5) (Some Cases.no_price)
      empty_world = (empty_world, inl e) /\
    rerun (@App.script (Sample.libs 0.5 0.5)
             {| csv := Some Cases.no_price; selected := 0;
                slider_value := None |})
    = [ {| place := [];
           widget := Title "Tarefa 3 de AEDI: Análise Interativa do Mercado Imobiliário de Ames" |};
        {| place := [];
           widget := Write [Lit "Análise de Variância (ANOVA) aplicada ao dataset Ames Housing."] |};
        {| place := []; widget := ExceptionBox e |} ].
Proof.
  assert (Hnot : ~ loadable Cases.no_price).
  { intros (price & garage & Hp & _). discriminate. }
  split; [exact Hnot|].
  apply (@X3_unusable_file_raises (Sample.libs 0.5 0.5) Cases.no_price
           empty_world 0 None Hnot).
Defined.

Section LoadedShape.
Context `{Libs}.

Lemma loaded_rectangular df0 df :
  loaded df0 df -> rectangular df0 ->
  rectangular df /\ nrows df = nrows df0.
Proof.
  intros (price & logp & garage & Hp & Hlog & Hg & ->) Hrect.
  assert (Hne : df0 <> []) by (intros ->; discriminate).
  destruct (setitem_rectangular df0 "SalePrice_log" logp Hne Hrect)
    as [Hr1 Hn1].
  { rewrite (rmap_length _ _ _ Hlog).
    eapply Hrect. apply getitem_In. eassumption. }
  assert (Hne1 : setitem df0 "SalePrice_log" logp <> []).
  { destruct df0 as [|[k0 s0] df0]; [congruence|]. simpl.
    destruct (String.eqb k0 "SalePrice_log"); discriminate. }
  destruct (setitem_rectangular _ "Garage Type"
              (fillna (CStr "No Garage") garage) Hne1 Hr1) as [Hr2 Hn2].
  { unfold fillna. rewrite length_map, Hn1.
    eapply Hrect. apply getitem_In. eassumption. }
  split; [assumption | congruence].
Qed.

Lemma loaded_columns_order df0 df :
  loaded df0 df ->
  columns df
  = columns df0 ++
    (if existsb (fun k0 => String.eqb k0 "SalePrice_log") (columns df0)
     then [] else ["SalePrice_log"]).
Proof.
  intros (price & logp & garage & Hp & Hlog & Hg & ->).
  rewrite !columns_setitem.
  assert (Hin : existsb (fun k0 => String.eqb k0 "Garage Type")
                  (columns df0 ++
                   (if existsb (fun k0 => String.eqb k0 "SalePrice_log")
                         (columns df0)
                    then [] else ["SalePrice_log"])) = true).
  { rewrite existsb_app, (has_column _ _ _ Hg). reflexivity. }
  rewrite Hin, app_nil_r. reflexivity.
Qed.

End LoadedShape.

(** X4. A successful load changes nothing but the two columns it writes:
    every other column is the one of the file, the columns keep their
    order with [SalePrice_log] added last unless the file had it, and a
    rectangular file gives a rectangular table with the same number of
    rows. *)
Theorem X4_load_data_keeps_the_rest `{Libs} file w w' df :
  App.load_data file w = (w', ok (Some df)) \/
  StreamlitApp.load_data file w = (w', ok (Some df)) ->
  exists df0,
    file = Some df0 /\
    (forall k,
       k <> "SalePrice_log" -> k <> "Garage Type" ->
       getitem df k = getitem df0 k) /\
    columns df
    = columns df0 ++
      (if existsb (fun k0 => String.eqb k0 "SalePrice_log") (columns df0)
       then [] else ["SalePrice_log"]) /\
    (rectangular df0 -> rectangular df /\ nrows df = nrows df0).
Proof.
  intros Hl. apply load_data_inv in Hl as (df0 & -> & _ & Hl).
  exists df0. split; [reflexivity|]. split; [|split].
  - destruct Hl as (price & logp & garage & Hp & Hlog & Hg & ->).
    intros k Hk1 Hk2.
    rewrite !getitem_setitem_other by congruence. reflexivity.
  - apply loaded_columns_order. assumption.
  - apply loaded_rectangular. assumption.
Qed.

Lemma X4_load_data_keeps_the_rest_witness :
  (@App.load_data (Sample.libs 0.5 0.5) (Some Sample.houses) empty_world
     = (empty_world, ok (Some Sample.houses_loaded)) \/
   @StreamlitApp.load_data (Sample.libs 0.5 0.5) (Some Sample.houses)
     empty_world = (empty_world, ok (Some Sample.houses_loaded))) /\
  exists df0,
    Some Sample.houses = Some df0 /\
    (forall k,
       k <> "SalePrice_log" -> k <> "Garage Type" ->
       getitem Sample.houses_loaded k = getitem df0 k) /\
    columns Sample.houses_loaded
    = columns df0 ++
      (if existsb (fun k0 => String.eqb k0 "SalePrice_log") (columns df0)
       then [] else ["SalePrice_log"]) /\
    (rectangular df0 ->
     rectangular Sample.houses_loaded /\
     nrows Sample.houses_loaded = nrows df0).
Proof.
  split; [left; reflexivity|].
  apply (@X4_load_data_keeps_the_rest (Sample.libs 0.5 0.5)
           (Some Sample.houses) empty_world empty_world
           Sample.houses_loaded).
  left. reflexivity.
Defined.

(* ===================================================================== *)
(** ** The threshold filter as a row selection *)

Lemma series_le_ok s x mask :
  series_le s x = ok mask -> mask = map (cell_le x) s.
Proof.
  unfold series_le, cell_le. revert mask.
  induction s as [|c s IH]; simpl; intros mask.
  - intros [= <-]. reflexivity.
  - destruct (to_float c) as [e|f]; simpl; [discriminate|].
    destruct (rmap _ s) as [e|m]; simpl; [discriminate|].
    intros [= <-]. rewrite (IH m eq_refl). reflexivity.
Qed.

Lemma series_le_numeric s x :
  Forall (fun c => is_numeric c = true) s ->
  series_le s x = ok (map (cell_le x) s).
Proof.
  unfold series_le, cell_le.
  induction 1 as [|c s Hc _ IH]; simpl; [reflexivity|].
  apply to_float_numeric in Hc as [f Hf]. rewrite Hf. simpl.
  rewrite IH. reflexivity.
Qed.

Lemma series_le_ok_numeric s x mask :
  series_le s x = ok mask -> Forall (fun c => is_numeric c = true) s.
Proof.
  unfold series_le. intros Hs. apply rmap_Forall2 in Hs.
  induction Hs as [|c b s mask Hc _ IH]; constructor; [|assumption].
  apply to_float_numeric. destruct (to_float c) as [e|f]; [discriminate|eauto].
Qed.

Lemma select_map_filter {A B} (p : A -> bool) (l : list A) (s : list B) :
  select (map p l) s = map snd (filter (fun r => p (fst r)) (combine l s)).
Proof.
  revert s. induction l as [|a l IH]; intros [|b s]; simpl; try reflexivity.
  all: destruct (p a); simpl; rewrite ?IH; reflexivity.
Qed.

Lemma select_map_self {A} (p : A -> bool) (l : list A) :
  select (map p l) l = filter p l.
Proof.
  induction l as [|a l IH]; simpl; [reflexivity|].
  destruct (p a); rewrite IH; reflexivity.
Qed.

Lemma select_length {A} (mask : list bool) (s : list A) :
  List.length mask = List.length s ->
  List.length (select mask s) = List.length (filter (fun b => b) mask).
Proof.
  revert s. induction mask as [|b mask IH]; intros [|x s]; simpl;
    try discriminate; auto.
  intros [= Hlen]. destruct b; simpl; rewrite IH; auto.
Qed.

Lemma filter_length_le {A} (p : A -> bool) (l : list A) :
  List.length (filter p l) <= List.length l.
Proof.
  induction l as [|a l IH]; simpl; [lia|]. destruct (p a); simpl; lia.
Qed.

Lemma columns_df_select mask df : columns (df_select mask df) = columns df.
Proof.
  unfold columns, df_select. rewrite map_map. reflexivity.
Qed.

Lemma df_select_rectangular mask df :
  rectangular df -> List.length mask = nrows df ->
  rectangular (df_select mask df) /\
  (df <> [] ->
   nrows (df_select mask df) = List.length (filter (fun b => b) mask)).
Proof.
  intros Hrect Hlen.
  assert (Hn : df <> [] ->
               nrows (df_select mask df)
               = List.length (filter (fun b => b) mask)).
  { destruct df as [|[k0 s0] df]; [congruence|]. intros _. simpl.
    apply select_length. rewrite Hlen. reflexivity. }
  split; [|assumption].
  intros k s Hin. unfold df_select in Hin.
  apply in_map_iff in Hin as ([k0 s0] & [= <- <-] & Hin).
  rewrite Hn by (intros ->; contradiction).
  apply select_length. rewrite Hlen. symmetry. eapply Hrect. eassumption.
Qed.

Lemma df_filtrado_inv df x view :
  StreamlitApp.df_filtrado (Some df) x = ok view ->
  exists logp,
    getitem df "SalePrice_log" = ok logp /\
    Forall (fun c => is_numeric c = true) logp /\
    view = df_select (map (cell_le x) logp) df.
Proof.
  unfold StreamlitApp.df_filtrado, subscript.
  destruct (getitem df "SalePrice_log") as [e|logp] eqn:Hg; [discriminate|].
  simpl. destruct (series_le logp x) as [e|mask] eqn:Hm; [discriminate|].
  simpl. intros [= <-]. exists logp. repeat split.
  - eapply series_le_ok_numeric. eassumption.
  - apply series_le_ok in Hm. subst. reflexivity.
Qed.

Lemma cell_le_trans x y c :
  (y <=? x)%float = true -> cell_le y c = true -> cell_le x c = true.
Proof.
  unfold cell_le. destruct (to_float c) as [e|f]; [discriminate|].
  intros Hyx Hfy. eapply fleb_trans; eassumption.
Qed.

Lemma select_nil_r {A} (mask : list bool) : select mask (@nil A) = [].
Proof. destruct mask; reflexivity. Qed.

Lemma select_narrow {A} (p q : cell -> bool) (l : list cell) (s : list A) :
  (forall c, q c = true -> p c = true) ->
  select (map q (select (map p l) l)) (select (map p l) s)
  = select (map q l) s.
Proof.
  intros Hqp. revert s.
  induction l as [|c l IH]; intros [|a s]; simpl; try reflexivity.
  - rewrite !select_nil_r. destruct (q c); reflexivity.
  - destruct (p c) eqn:Ep; simpl.
    + destruct (q c); rewrite IH; reflexivity.
    + destruct (q c) eqn:Eq; [|apply IH].
      apply Hqp in Eq. congruence.
Qed.

(** X5. The filtered view is a row selection: it has the columns of the
    table, each column holds the entries of the rows whose log price is at
    most the threshold (a NaN never is), in their order, and a
    rectangular table gives a rectangular view with that many rows. *)
Theorem X5_filter_selects_rows df x view :
  StreamlitApp.df_filtrado (Some df) x = ok view ->
  exists logp,
    getitem df "SalePrice_log" = ok logp /\
    getitem view "SalePrice_log" = ok (filter (cell_le x) logp) /\
    columns view = columns df /\
    (forall k s,
       getitem df k = ok s ->
       getitem view k
       = ok (map snd (filter (fun r => cell_le x (fst r)) (combine logp s)))) /\
    (rectangular df ->
     rectangular view /\
     nrows view = List.length (filter (cell_le x) logp) /\
     nrows view <= nrows df).
Proof.
  intros Hv. apply df_filtrado_inv in Hv as (logp & Hg & Hnum & ->).
  exists logp. split; [assumption|]. split; [|split; [|split]].
  - rewrite (getitem_df_select _ _ _ _ Hg), select_map_self. reflexivity.
  - apply columns_df_select.
  - intros k s Hk.
    rewrite (getitem_df_select _ _ _ _ Hk), select_map_filter. reflexivity.
  - intros Hrect.
    assert (Hlen : List.length (map (cell_le x) logp) = nrows df).
    { rewrite length_map. eapply Hrect. apply getitem_In. eassumption. }
    assert (Hne : df <> []) by (intros ->; discriminate).
    destruct (df_select_rectangular _ _ Hrect Hlen) as [Hr Hn].
    assert (Hcount : List.length (filter (fun b => b) (map (cell_le x) logp))
                     = List.length (filter (cell_le x) logp)).
    { clear. induction logp as [|c l IH]; simpl; [reflexivity|].
      destruct (cell_le x c); simpl; rewrite IH; reflexivity. }
    split; [assumption|]. rewrite (Hn Hne), Hcount. split; [reflexivity|].
    rewrite <- Hlen, length_map. apply filter_length_le.
Qed.

Lemma X5_filter_selects_rows_witness :
  StreamlitApp.df_filtrado (Some Sample.upside_down) 12
  = ok (df_select [false; true; true; true] Sample.upside_down) /\
  exists logp,
    getitem Sample.upside_down "SalePrice_log" = ok logp /\
    getitem (df_select [false; true; true; true] Sample.upside_down)
      "SalePrice_log" = ok (filter (cell_le 12) logp).
Proof.
  split; [reflexivity|].
  destruct (X5_filter_selects_rows Sample.upside_down 12
              (df_select [false; true; true; true] Sample.upside_down)
              eq_refl) as (logp & Hg & Hv & _).
  exists logp. split; assumption.
Defined.

(** X6. Narrowing composes: filtering a view again with a threshold that
    is not above the first gives the view of the table at that threshold;
    in particular filtering a view with its own threshold, when that is a
    number, returns it. *)
Theorem X6_filter_composes df x y view :
  StreamlitApp.df_filtrado (Some df) x = ok view ->
  (y <=? x)%float = true ->
  StreamlitApp.df_filtrado (Some view) y
  = StreamlitApp.df_filtrado (Some df) y.
Proof.
  intros Hv Hyx. apply df_filtrado_inv in Hv as (logp & Hg & Hnum & ->).
  unfold StreamlitApp.df_filtrado, subscript.
  rewrite (getitem_df_select _ _ _ _ Hg), Hg. simpl.
  rewrite !series_le_numeric;
    [| assumption | apply select_Forall; assumption].
  simpl. f_equal. unfold df_select. rewrite map_map.
  apply map_ext. intros [k s]. simpl. f_equal.
  apply select_narrow. intros c. apply cell_le_trans. assumption.
Qed.

Lemma X6_filter_composes_witness :
  (StreamlitApp.df_filtrado (Some Sample.upside_down) 12
   = ok (df_select [false; true; true; true] Sample.upside_down) /\
   (11.75 <=? 12)%float = true) /\
  StreamlitApp.df_filtrado
    (Some (df_select [false; true; true; true] Sample.upside_down)) 11.75
  = StreamlitApp.df_filtrado (Some Sample.upside_down) 11.75.
Proof.
  split; [split; reflexivity|].
  apply (X6_filter_composes Sample.upside_down 12 11.75
           (df_select [false; true; true; true] Sample.upside_down));
    reflexivity.
Defined.

(* ===================================================================== *)
(** ** The slider and the view of a run *)

(** X7. On the first run of streamlit_app.py (the slider not yet moved)
    over a rectangular file whose log prices are all present and make a
    range the slider accepts (finite and not all equal), the slider stands
    at the maximum and the three routines receive the loaded table
    itself. *)
Theorem X7_first_run_analyses_the_whole_table `{Libs}
    env df0 df logp xs w :
  csv env = Some df0 -> loaded df0 df -> rectangular df0 ->
  slider_value env = None ->
  getitem df "SalePrice_log" = ok logp -> to_floats logp = ok xs ->
  Forall (fun f => PrimFloat.is_nan f = false) xs ->
  slider_range (reduce fmin xs) (reduce fmax xs) = true ->
  StreamlitApp.script env w
  = StreamlitApp.ready df
      {| page := page w ++
           streamlit_preamble w (reduce fmin xs) (reduce fmax xs)
             (reduce fmax xs);
         figures := figures w; blocks := blocks w |}.
Proof.
  intros Hcsv Hl Hrect Hnone Hlog Hxs Hna Hrange.
  destruct (streamlit_script_view env df0 df logp xs w Hcsv Hl Hlog Hxs
              Hrange) as (view & Hview & Hrun).
  rewrite Hnone in Hview, Hrun. rewrite Hrun. f_equal.
  rewrite (df_filtrado_mask _ _ _ _ Hlog Hxs), leb_max_mask in Hview.
  injection Hview as <-. apply df_select_all.
  - apply (loaded_rectangular df0 df Hl Hrect).
  - rewrite length_map, (rmap_length _ _ _ Hxs).
    eapply (loaded_rectangular df0 df Hl Hrect).
    apply getitem_In. eassumption.
  - apply forallb_forall. intros b Hb.
    apply in_map_iff in Hb as (f & <- & Hf).
    rewrite Forall_forall in Hna. rewrite (Hna f Hf). reflexivity.
Qed.

Lemma sample_houses_loaded :
  @loaded (Sample.libs 0.5 0.5) Sample.houses Sample.houses_loaded.
Proof.
  exists [CInt 215000; CInt 105000; CInt 172000; CInt 244000],
         [CFloat 215000; CFloat 105000; CFloat 172000; CFloat 244000],
         [CStr "Attchd"; CFloat nan; CStr "Detchd"; CStr "Attchd"].
  split; [reflexivity|]. split; [vm_compute; reflexivity|].
  split; [reflexivity|]. vm_compute. reflexivity.
Qed.

Lemma rectangular_houses : rectangular Sample.houses.
Proof.
  intros k s Hin. simpl in Hin.
  repeat destruct Hin as [[= <- <-]|Hin]; try reflexivity. contradiction.
Qed.

Lemma X7_first_run_analyses_the_whole_table_witness :
  (csv Sample.first_run = Some Sample.houses /\
   @loaded (Sample.libs 0.5 0.5) Sample.houses Sample.houses_loaded /\
   rectangular Sample.houses /\
   slider_value Sample.first_run = None /\
   getitem Sample.houses_loaded "SalePrice_log"
   = ok [CFloat 215000; CFloat 105000; CFloat 172000; CFloat 244000] /\
   to_floats [CFloat 215000; CFloat 105000; CFloat 172000; CFloat 244000]
   = ok [215000; 105000; 172000; 244000]%float /\
   Forall (fun f => PrimFloat.is_nan f = false)
     [215000; 105000; 172000; 244000]%float /\
   slider_range (reduce fmin [215000; 105000; 172000; 244000]%float)
     (reduce fmax [215000; 105000; 172000; 244000]%float) = true) /\
  @StreamlitApp.script (Sample.libs 0.5 0.5) Sample.first_run empty_world
  = @StreamlitApp.ready (Sample.libs 0.5 0.5) Sample.houses_loaded
      {| page := page empty_world ++
           streamlit_preamble empty_world
             (reduce fmin [215000; 105000; 172000; 244000]%float)
             (reduce fmax [215000; 105000; 172000; 244000]%float)
             (reduce fmax [215000; 105000; 172000; 244000]%float);
         figures := figures empty_world; blocks := blocks empty_world |}.
Proof.
  assert (Hnn : Forall (fun f => PrimFloat.is_nan f = false)
                  [215000; 105000; 172000; 244000]%float)
    by (repeat constructor).
  split.
  - split; [reflexivity|]. split; [apply sample_houses_loaded|].
    split; [apply rectangular_houses|]. split; [reflexivity|].
    split; [reflexivity|]. split; [reflexivity|].
    split; [exact Hnn | reflexivity].
  - apply (@X7_first_run_analyses_the_whole_table (Sample.libs 0.5 0.5)
             Sample.first_run Sample.houses Sample.houses_loaded
             [CFloat 215000; CFloat 105000; CFloat 172000; CFloat 244000]
             [215000; 105000; 172000; 244000]%float empty_world);
      try reflexivity;
      [apply sample_houses_loaded | apply rectangular_houses | exact Hnn].
Defined.

(** X8. On a loaded table whose least and greatest log price make a range
    the slider accepts (finite and not equal), streamlit_app.py shows,
    before the tabs, its title block and a slider whose bounds are the
    least and the greatest log price: every log price that is present lies
    between them.  The slider stands at the value of the session, at the
    upper bound before it is moved, and the routines receive the view
    filtered at that value. *)
Theorem X8_slider_spans_the_log_prices `{Libs} env df0 df logp xs w :
  csv env = Some df0 -> loaded df0 df ->
  getitem df "SalePrice_log" = ok logp -> to_floats logp = ok xs ->
  slider_range (reduce fmin xs) (reduce fmax xs) = true ->
  (exists view,
     StreamlitApp.df_filtrado (Some df)
       match slider_value env with
       | Some x => x
       | None => reduce fmax xs
       end = ok view /\
     StreamlitApp.script env w
     = StreamlitApp.ready view
         {| page := page w ++
              streamlit_preamble w (reduce fmin xs) (reduce fmax xs)
                match slider_value env with
                | Some x => x
                | None => reduce fmax xs
                end;
            figures := figures w; blocks := blocks w |}) /\
  Forall (fun f =>
            PrimFloat.is_nan f = false ->
            (reduce fmin xs <=? f)%float = true /\
            (f <=? reduce fmax xs)%float = true) xs.
Proof.
  intros Hcsv Hl Hlog Hxs Hrange. split.
  - eapply streamlit_script_view; eassumption.
  - apply Forall_forall. intros f Hf Hn. split.
    + apply reduce_fmin_lb; assumption.
    + apply reduce_fmax_ub; assumption.
Qed.

Lemma X8_slider_spans_the_log_prices_witness :
  (csv Sample.first_run = Some Sample.houses /\
   @loaded (Sample.libs 0.5 0.5) Sample.houses Sample.houses_loaded /\
   getitem Sample.houses_loaded "SalePrice_log"
   = ok [CFloat 215000; CFloat 105000; CFloat 172000; CFloat 244000] /\
   to_floats [CFloat 215000; CFloat 105000; CFloat 172000; CFloat 244000]
   = ok [215000; 105000; 172000; 244000]%float /\
   slider_range (reduce fmin [215000; 105000; 172000; 244000]%float)
     (reduce fmax [215000; 105000; 172000; 244000]%float) = true) /\
  Forall (fun f =>
            PrimFloat.is_nan f = false ->
            (reduce fmin [215000; 105000; 172000; 244000] <=? f)%float = true /\
            (f <=? reduce fmax [215000; 105000; 172000; 244000])%float = true)
    [215000; 105000; 172000; 244000]%float.
Proof.
  split.
  - split; [reflexivity|]. split; [apply sample_houses_loaded|].
    split; [reflexivity|]. split; reflexivity.
  - destruct (@X8_slider_spans_the_log_prices (Sample.libs 0.5 0.5)
                Sample.first_run Sample.houses Sample.houses_loaded
                [CFloat 215000; CFloat 105000; CFloat 172000; CFloat 244000]
                [215000; 105000; 172000; 244000]%float empty_world
                eq_refl sample_houses_loaded eq_refl eq_refl eq_refl)
      as [_ Hspan].
    exact Hspan.
Defined.

(* ===================================================================== *)
(** ** Verdicts that follow the test *)

Lemma fltb_nan_r a b :
  PrimFloat.is_nan b = true -> (a <? b)%float = false.
Proof.
  intros Hb. destruct (a <? b)%float eqn:E; [|reflexivity].
  apply fltb_leb, fleb_not_nan in E as [_ E]. congruence.
Qed.

(** X9. In the routines of the quality grade (both scripts) and of the
    garage type (app.py) each of the two verdicts follows its test: it is
    the [st.success] box exactly when the p-value is above 0.05, and the
    [st.warning] box otherwise, so also when the p-value is NaN. *)
Theorem X9_verdicts_follow_the_threshold `{Libs} a df w w' :
  (a <> Neighborhood /\ app_routine a df w = (w', ok tt)) \/
  (a = OverallQual /\ streamlit_routine a df w = (w', ok tt)) ->
  exists model groups s_sh p_sh s_lv p_lv v1 v2,
    ols_fit (formula_for (column a)) df = ok model /\
    shapiro (resid model) = ok (s_sh, p_sh) /\
    groups_of df "SalePrice_log" (column a) = ok groups /\
    levene groups = ok (s_lv, p_lv) /\
    verdicts (page w') = verdicts (page w) ++ [v1; v2] /\
    is_verdict v1 = true /\ is_verdict v2 = true /\
    is_success v1 = (0.05 <? p_sh)%float /\
    is_success v2 = (0.05 <? p_lv)%float /\
    (PrimFloat.is_nan p_sh = true -> is_success v1 = false) /\
    (PrimFloat.is_nan p_lv = true -> is_success v2 = false).
Proof.
  intros [[Ha Hr]|[-> Hr]]; [destruct a; [| congruence |]|]; simpl in Hr;
  [ apply app_overall_qual_verdicts in Hr
  | apply app_garage_type_verdicts in Hr
  | apply streamlit_overall_qual_verdicts in Hr ];
  destruct Hr as (model & groups & s_sh & p_sh & s_lv & p_lv
                  & Hm & Hs & Hg & Hl & Hv);
  exists model, groups, s_sh, p_sh, s_lv, p_lv;
  rewrite Hv; do 2 eexists;
  (split; [exact Hm|]); (split; [exact Hs|]); (split; [exact Hg|]);
  (split; [exact Hl|]); (split; [reflexivity|]);
  pose proof (fltb_nan_r 0.05 p_sh) as Hn1;
  pose proof (fltb_nan_r 0.05 p_lv) as Hn2;
  destruct (0.05 <? p_sh)%float, (0.05 <? p_lv)%float; simpl;
  repeat split; auto.
Qed.

Lemma X9_verdicts_follow_the_threshold_witness :
  ((OverallQual <> Neighborhood /\
    @app_routine (Sample.libs 0.5 0.01) OverallQual Sample.houses_loaded
      empty_world
    = (fst (@app_routine (Sample.libs 0.5 0.01) OverallQual
              Sample.houses_loaded empty_world), ok tt)) \/
   (OverallQual = OverallQual /\
    @streamlit_routine (Sample.libs 0.5 0.01) OverallQual
      Sample.houses_loaded empty_world
    = (fst (@app_routine (Sample.libs 0.5 0.01) OverallQual
              Sample.houses_loaded empty_world), ok tt))) /\
  exists v1 v2,
    verdicts
      (page (fst (@app_routine (Sample.libs 0.5 0.01) OverallQual
                    Sample.houses_loaded empty_world)))
    = verdicts (page empty_world) ++ [v1; v2] /\
    is_success v1 = true /\ is_success v2 = false.
Proof.
  assert (Hrun :
    (OverallQual <> Neighborhood /\
     @app_routine (Sample.libs 0.5 0.01) OverallQual Sample.houses_loaded
       empty_world
     = (fst (@app_routine (Sample.libs 0.5 0.01) OverallQual
               Sample.houses_loaded empty_world), ok tt)) \/
    (OverallQual = OverallQual /\
     @streamlit_routine (Sample.libs 0.5 0.01) OverallQual
       Sample.houses_loaded empty_world
     = (fst (@app_routine (Sample.libs 0.5 0.01) OverallQual
               Sample.houses_loaded empty_world), ok tt))).
  { left. split; [discriminate | vm_compute; reflexivity]. }
  split; [exact Hrun|].
  destruct (@X9_verdicts_follow_the_threshold (Sample.libs 0.5 0.01)
              OverallQual Sample.houses_loaded empty_world _ Hrun)
    as (model & groups & s_sh & p_sh & s_lv & p_lv & v1 & v2
        & _ & Hs & Hg & Hl & Hv & _ & _ & H1 & H2 & _).
  vm_compute in Hg. injection Hg as <-.
  cbv in Hs, Hl. injection Hs as _ <-. injection Hl as _ <-.
  exists v1, v2. split; [exact Hv|]. split; assumption.
Defined.

(* ===================================================================== *)
(** ** app.py without the file *)

(** X10. Without the file app.py returns normally from any state of the
    page: it has added its title, its caption and the one message of the
    loader, opened no figure and run no routine, whatever is selected. *)
Theorem X10_app_without_the_file `{Libs} sel sl w :
  App.script {| csv := None; selected := sel; slider_value := sl |} w
  = ({| page := page w ++
          [ {| place := blocks w;
               widget := Title "Tarefa 3 de AEDI: Análise Interativa do Mercado Imobiliário de Ames" |};
            {| place := blocks w;
               widget := Write [Lit "Análise de Variância (ANOVA) aplicada ao dataset Ames Housing."] |};
            {| place := blocks w;
               widget := Error "Arquivo 'AmesHousing.csv' não encontrado. Por favor, faça o upload do arquivo junto com o app." |} ];
        figures := figures w; blocks := blocks w |}, ok tt).
Proof.
  unfold App.script, App.load_data, try_except, st_title, st_write, st_error,
    bind, emit, ret, read_csv, raise.
  cbn. rewrite <- !app_assoc. reflexivity.
Qed.

(* ===================================================================== *)
(** ** A failing test *)

Lemma within_err {A} c (body : M A) w w2 e :
  body (enter c w) = (w2, inl e) -> within c body w = (leave w w2, inl e).
Proof. unfold within. intros ->. reflexivity. Qed.

(** Evaluation of a run up to the call that raises. *)
Ltac eval_err :=
  unfold ok;
  lazymatch goal with
  | |- bind _ _ _ = _ =>
      first
        [ erewrite bind_ok by eval_run;
          cbv beta iota; unfold enter, leave; cbn [page figures blocks];
          eval_err
        | apply bind_err; eval_err ]
  | |- within _ _ _ = _ =>
      apply within_err; unfold enter; cbn [page figures blocks]; eval_err
  | |- lift ?r _ = _ =>
      unfold lift;
      match goal with
      | H : r = _ |- _ => rewrite H; reflexivity
      end
  end.

(** X12. A test that raises in the first tab ends the run of
    streamlit_app.py: when the Levene test of the quality grade raises,
    the three tabs hold the heading of the first routine and nothing
    else, no figure is made, and the exception leaves the script; the
    routines of the two other tabs are not started. *)
Theorem X12_levene_failure_ends_the_run `{Libs}
    view w model sh groups e :
  ols_fit (formula_for "Overall Qual") view = ok model ->
  shapiro (resid model) = ok sh ->
  groups_of view "SalePrice_log" "Overall Qual" = ok groups ->
  levene groups = inl e ->
  exists w',
    StreamlitApp.ready view w = (w', inl e) /\
    page w' = page w ++
      [ {| place := blocks w;
           widget := Tabs ["Análise por Qualidade"; "Análise por Bairro";
                           "Análise por Garagem"] |};
        {| place := Tab 0 :: blocks w;
           widget := Subheader "Análise da Qualidade Geral (Overall Qual)" |} ] /\
    figures w' = figures w /\ blocks w' = blocks w.
Proof.
  intros Hm Hs Hg Hl. destruct sh as [s_sh p_sh].
  eexists. split.
  - unfold StreamlitApp.ready, StreamlitApp.run_analysis_overall_qual.
    eval_err.
  - unfold leave. cbn [page figures blocks]. rewrite <- !app_assoc.
    repeat split.
Qed.

Lemma X12_levene_failure_ends_the_run_witness :
  (@ols_fit Cases.levene_fails (formula_for "Overall Qual")
     Sample.houses_loaded
   = ok {| m_formula := formula_for "Overall Qual"; m_coding := Numeric;
           m_data := Sample.houses_loaded; resid := [] |} /\
   @shapiro Cases.levene_fails [] = ok (1, 0.5)%float /\
   groups_of Sample.houses_loaded "SalePrice_log" "Overall Qual"
   = ok [[CFloat 215000; CFloat 172000]; [CFloat 105000; CFloat 244000]] /\
   @levene Cases.levene_fails
     [[CFloat 215000; CFloat 172000]; [CFloat 105000; CFloat 244000]]
   = inl (ValueError "Must enter at least two input sample vectors.")) /\
  exists w',
    @StreamlitApp.ready Cases.levene_fails Sample.houses_loaded empty_world
    = (w', inl (ValueError "Must enter at least two input sample vectors.")) /\
    figures w' = figures empty_world.
Proof.
  split; [repeat split; vm_compute; reflexivity|].
  destruct (@X12_levene_failure_ends_the_run Cases.levene_fails
              Sample.houses_loaded empty_world
              {| m_formula := formula_for "Overall Qual";
                 m_coding := Numeric;
                 m_data := Sample.houses_loaded; resid := [] |}
              (1, 0.5)%float
              [[CFloat 215000; CFloat 172000]; [CFloat 105000; CFloat 244000]]
              (ValueError "Must enter at least two input sample vectors."))
    as (w' & Hrun & _ & Hfig & _); try (vm_compute; reflexivity).
  exists w'. split; assumption.
Defined.

(* ===================================================================== *)
(** ** The figure of a routine *)

Section OneFigure.
Context `{Libs}.

Ltac one_figure :=
  cbn [page figures blocks]; rewrite !figures_shown_app;
  repeat match goal with
  | |- context [(?a <? ?b)%float] => destruct (a <? b)%float
  end;
  (cbn; rewrite ?app_nil_r; eexists; (split; [reflexivity|]);
   (split; [reflexivity|]); eexists; cbn; repeat split; discriminate).

Lemma app_routine_one_figure a df w w' :
  app_routine a df w = (w', ok tt) ->
  exists fig,
    figures w' = figures w ++ [fig] /\
    figures_shown (page w') = figures_shown (page w) ++ [fig] /\
    plots_log_price_by (column a) fig.
Proof.
  destruct a; simpl; intros Hr;
    [ unfold App.run_analysis_overall_qual in Hr
    | unfold App.run_analysis_neighborhood in Hr
    | unfold App.run_analysis_garage_type in Hr ];
    inv_run Hr; one_figure.
Qed.

Lemma streamlit_routine_one_figure a df w w' :
  streamlit_routine a df w = (w', ok tt) ->
  exists fig,
    figures w' = figures w ++ [fig] /\
    figures_shown (page w') = figures_shown (page w) ++ [fig] /\
    plots_log_price_by (column a) fig.
Proof.
  destruct a; simpl; intros Hr;
    [ unfold StreamlitApp.run_analysis_overall_qual in Hr
    | unfold StreamlitApp.run_analysis_neighborhood in Hr
    | unfold StreamlitApp.run_analysis_garage_type in Hr ];
    inv_run Hr; one_figure.
Qed.

End OneFigure.

(** X13. A routine that completes has made exactly one figure and shown
    exactly that figure, in its final state: the figures made before it
    are untouched, and the new one is the box-plot of [SalePrice_log] by
    the column of the attribute, with a title and both axis labels set. *)
Theorem X13_one_figure_per_routine `{Libs} a df w w' :
  app_routine a df w = (w', ok tt) \/
  streamlit_routine a df w = (w', ok tt) ->
  exists fig,
    figures w' = figures w ++ [fig] /\
    figures_shown (page w') = figures_shown (page w) ++ [fig] /\
    plots_log_price_by (column a) fig.
Proof.
  intros [Hr|Hr];
    [eapply app_routine_one_figure | eapply streamlit_routine_one_figure];
    eassumption.
Qed.

Lemma X13_one_figure_per_routine_witness :
  (@app_routine (Sample.libs 0.5 0.5) GarageType Sample.houses_loaded
     empty_world
   = (fst (@app_routine (Sample.libs 0.5 0.5) GarageType
             Sample.houses_loaded empty_world), ok tt) \/
   @streamlit_routine (Sample.libs 0.5 0.5) GarageType Sample.houses_loaded
     empty_world
   = (fst (@app_routine (Sample.libs 0.5 0.5) GarageType
             Sample.houses_loaded empty_world), ok tt)) /\
  exists fig,
    figures (fst (@app_routine (Sample.libs 0.5 0.5) GarageType
                    Sample.houses_loaded empty_world))
    = figures empty_world ++ [fig] /\
    figures_shown
      (page (fst (@app_routine (Sample.libs 0.5 0.5) GarageType
                    Sample.houses_loaded empty_world)))
    = figures_shown (page empty_world) ++ [fig] /\
    plots_log_price_by (column GarageType) fig.
Proof.
  split; [left; vm_compute; reflexivity|].
  apply (@X13_one_figure_per_routine (Sample.libs 0.5 0.5) GarageType
           Sample.houses_loaded empty_world).
  left. vm_compute. reflexivity.
Defined.

(* ===================================================================== *)
(** ** The p-value of the ANOVA metric *)

Section AnovaMetric.
Context `{Libs}.

Ltac metric_shown :=
  dedup;
  match goal with
  | Hp : PR_F_0 ?t = inr _ |- _ =>
      destruct t as [|row rest]; [discriminate Hp|];
      simpl in Hp; injection Hp as Hp; subst
  end;
  do 3 eexists; (split; [eassumption|]); (split; [eassumption|]);
  split;
  (unfold added; cbn [page]; rewrite <- ?app_assoc;
   eexists; (split; [reflexivity|]); cbn;
   repeat first [left; reflexivity | right]).

Lemma streamlit_overall_qual_metric df w w' :
  StreamlitApp.run_analysis_overall_qual df w = (w', ok tt) ->
  exists model row rest,
    ols_fit (formula_for "Overall Qual") df = ok model /\
    anova_lm model 2 = ok (row :: rest) /\
    added w w'
      (Metric "P-valor do Teste ANOVA" [Sci4 (PR_F row)]
         (Some "Rejeitamos H0: Diferença Significativa")) /\
    added w w' (Dataframe (row :: rest)).
Proof.
  intros Hr. unfold StreamlitApp.run_analysis_overall_qual in Hr. inv_run Hr.
  metric_shown.
Qed.

Lemma streamlit_garage_type_metric df w w' :
  StreamlitApp.run_analysis_garage_type df w = (w', ok tt) ->
  exists model row rest,
    ols_fit (formula_for "Garage Type") df = ok model /\
    anova_lm model 2 = ok (row :: rest) /\
    added w w'
      (Metric "P-valor do Teste ANOVA" [Sci4 (PR_F row)]
         (Some "Rejeitamos H0: Diferença Significativa")) /\
    added w w' (Dataframe (row :: rest)).
Proof.
  intros Hr. unfold StreamlitApp.run_analysis_garage_type in Hr. inv_run Hr.
  metric_shown.
Qed.

End AnovaMetric.

(** X14. In streamlit_app.py the p-value of the ANOVA metric is the
    [PR(>F)] entry of the first row of the table shown under it; a
    parametric routine does not complete on a table without rows (the
    lookup raises). *)
Theorem X14_anova_metric_is_first_row `{Libs} a df w w' :
  a <> Neighborhood ->
  streamlit_routine a df w = (w', ok tt) ->
  exists model row rest,
    ols_fit (formula_for (column a)) df = ok model /\
    anova_lm model 2 = ok (row :: rest) /\
    added w w'
      (Metric "P-valor do Teste ANOVA" [Sci4 (PR_F row)]
         (Some "Rejeitamos H0: Diferença Significativa")) /\
    added w w' (Dataframe (row :: rest)).
Proof.
  intros Ha Hr. destruct a; [| congruence |]; simpl in *.
  - apply streamlit_overall_qual_metric in Hr. assumption.
  - apply streamlit_garage_type_metric in Hr. assumption.
Qed.

Lemma X14_anova_metric_is_first_row_witness :
  (GarageType <> Neighborhood /\
   @streamlit_routine (Sample.libs 0.5 0.5) GarageType Sample.houses_loaded
     empty_world
   = (fst (@streamlit_routine (Sample.libs 0.5 0.5) GarageType
             Sample.houses_loaded empty_world), ok tt)) /\
  exists model row rest,
    @ols_fit (Sample.libs 0.5 0.5) (formula_for "Garage Type")
      Sample.houses_loaded = ok model /\
    @anova_lm (Sample.libs 0.5 0.5) model 2 = ok (row :: rest) /\
    added empty_world
      (fst (@streamlit_routine (Sample.libs 0.5 0.5) GarageType
              Sample.houses_loaded empty_world))
      (Metric "P-valor do Teste ANOVA" [Sci4 (PR_F row)]
         (Some "Rejeitamos H0: Diferença Significativa")) /\
    added empty_world
      (fst (@streamlit_routine (Sample.libs 0.5 0.5) GarageType
              Sample.houses_loaded empty_world))
      (Dataframe (row :: rest)).
Proof.
  split; [split; [discriminate | vm_compute; reflexivity]|].
  apply (@X14_anova_metric_is_first_row (Sample.libs 0.5 0.5) GarageType
           Sample.houses_loaded empty_world).
  - discriminate.
  - vm_compute. reflexivity.
Defined.

(* ===================================================================== *)
(** ** The groups of a test *)

Section Groups.
Variable keys : Series.
Hypothesis Hdtype : one_dtype keys = true.

Lemma one_dtype_chain a b c :
  In a keys -> In b keys ->
  cell_eqb a b = true -> cell_eqb b c = true -> cell_eqb a c = true.
Proof.
  intros Ha Hb. apply cell_eqb_trans.
  unfold one_dtype in Hdtype. apply orb_true_iff in Hdtype as [Hd|Hd];
    rewrite forallb_forall in Hd; [left|right];
    apply negb_true_iff; auto.
Qed.

Lemma unique_acc_count c seen s :
  In c keys -> isna c = false ->
  incl seen keys -> incl s keys ->
  List.length (filter (cell_eqb c) (unique_acc seen s))
  = if existsb (cell_eqb c) seen then 0
    else if existsb (cell_eqb c) s then 1 else 0.
Proof.
  intros Hc Hna Hseen Hs. revert seen Hseen.
  induction s as [|x s IH]; intros seen Hseen; simpl.
  - destruct (existsb (cell_eqb c) seen); reflexivity.
  - assert (Hx : In x keys) by (apply Hs; left; reflexivity).
    assert (Hs' : incl s keys) by (intros z Hz; apply Hs; right; assumption).
    specialize (IH Hs').
    destruct (existsb (same_key x) seen) eqn:Esame.
    + rewrite (IH seen Hseen).
      destruct (existsb (cell_eqb c) seen) eqn:Eseen; [reflexivity|].
      destruct (cell_eqb c x) eqn:Ecx; [|reflexivity].
      exfalso.
      apply existsb_exists in Esame as (y & Hy & Hsame).
      unfold same_key in Hsame.
      assert (Hxna : isna x = false).
      { destruct (isna x) eqn:E; [|reflexivity].
        rewrite cell_eqb_sym, (cell_eqb_nan_l x c E) in Ecx. discriminate. }
      rewrite Hxna in Hsame. simpl in Hsame. rewrite orb_false_r in Hsame.
      assert (existsb (cell_eqb c) seen = true).
      { apply existsb_exists. exists y. split; [assumption|].
        apply (one_dtype_chain c x y); assumption. }
      congruence.
    + assert (Hseen' : incl (x :: seen) keys).
      { intros z [<-|Hz]; [assumption | apply Hseen; assumption]. }
      pose proof (IH (x :: seen) Hseen') as IHx.
      simpl in *.
      destruct (cell_eqb c x) eqn:Ecx; simpl in *; rewrite IHx;
        [|reflexivity].
      destruct (existsb (cell_eqb c) seen) eqn:Eseen; [|reflexivity].
      exfalso.
      apply existsb_exists in Eseen as (y & Hy & Hcy).
      assert (existsb (same_key x) seen = true).
      { apply existsb_exists. exists y. split; [assumption|].
        unfold same_key. rewrite (one_dtype_chain x c y); auto.
        rewrite cell_eqb_sym. assumption. }
      congruence.
Qed.

(** A row with a key is selected by the mask of exactly one group, a row
    without a key by none. *)
Lemma one_group_per_row c :
  In c keys ->
  List.length (filter (cell_eqb c) (unique keys))
  = if isna c then 0 else 1.
Proof.
  intros Hin. destruct (isna c) eqn:Hna.
  - assert (Hnone : forall l, filter (cell_eqb c) l = []).
    { induction l as [|k l IH]; simpl; [reflexivity|].
      rewrite (cell_eqb_nan_l c k Hna). assumption. }
    rewrite Hnone. reflexivity.
  - unfold unique. rewrite unique_acc_count; auto.
    + simpl.
      assert (Hex : existsb (cell_eqb c) keys = true).
      { apply existsb_exists. exists c. split; [assumption|].
        apply cell_eqb_refl. assumption. }
      rewrite Hex. reflexivity.
    + intros z [].
    + apply incl_refl.
Qed.

End Groups.

Lemma group_size keys vals k :
  List.length (dropna (select (series_eq keys k) vals))
  = List.length
      (filter (fun r => cell_eqb (fst r) k && notna (snd r))
         (rows keys vals)).
Proof.
  rewrite partition_rows. unfold group_of_rows. apply length_map.
Qed.

Lemma sum_of_counts {A B} (q : B -> A -> bool) (ks : list B) (l : list A) :
  list_sum (map (fun k => List.length (filter (q k) l)) ks)
  = list_sum (map (fun r => List.length (filter (fun k => q k r) ks)) l).
Proof.
  induction l as [|r l IH]; simpl.
  - induction ks as [|k ks IHk]; simpl; auto.
  - rewrite <- IH. clear IH.
    induction ks as [|k ks IHk]; simpl; [reflexivity|].
    rewrite IHk. destruct (q k r); simpl; lia.
Qed.

Lemma sum_of_flags {A} (p : A -> bool) (f : A -> nat) (l : list A) :
  (forall r, In r l -> f r = if p r then 1 else 0) ->
  list_sum (map f l) = List.length (filter p l).
Proof.
  induction l as [|r l IH]; simpl; intros Hf; [reflexivity|].
  rewrite (Hf r) by auto. rewrite IH by auto.
  destruct (p r); reflexivity.
Qed.

Lemma filter_andb_const {A} (p : A -> bool) (b : bool) (l : list A) :
  List.length (filter (fun k => p k && b) l)
  = if b then List.length (filter p l) else 0.
Proof.
  destruct b.
  - f_equal. apply filter_ext. intros k. apply andb_true_r.
  - induction l as [|k l IH]; simpl; [reflexivity|].
    rewrite andb_false_r. assumption.
Qed.

(** The groups hold every complete row once. *)
Lemma partitions_total_size keys vals :
  one_dtype keys = true ->
  total_size (partitions keys vals)
  = List.length (filter complete_row (rows keys vals)).
Proof.
  intros Hk. unfold total_size, partitions. rewrite map_map.
  rewrite (map_ext _ _ (group_size keys vals)).
  rewrite (sum_of_counts
             (fun k r => cell_eqb (fst r) k && notna (snd r))).
  apply sum_of_flags. intros [c v] Hin. simpl.
  rewrite filter_andb_const.
  unfold complete_row, notna. simpl.
  destruct (isna v); simpl; [rewrite andb_false_r; reflexivity|].
  rewrite andb_true_r.
  rewrite (one_group_per_row keys Hk c).
  - destruct (isna c); reflexivity.
  - unfold rows in Hin. eapply in_combine_l. eassumption.
Qed.

(** X15. The groups handed to the Levene and Kruskal-Wallis tests split
    the rows of the table, for a column of one dtype (integers, or floats
    with the NaN for a missing entry, or strings with the NaN): there is
    one group for each distinct value of the column (an empty one for the
    missing value), no group holds a missing log price, a row with a key
    is selected for exactly one group and a row without a key for none,
    and the sizes of the groups add up to the number of rows whose key and
    log price are both present. *)
Theorem X15_groups_split_the_rows df key keys vals :
  getitem df key = ok keys ->
  getitem df "SalePrice_log" = ok vals ->
  one_dtype keys = true ->
  exists groups,
    groups_of df "SalePrice_log" key = ok groups /\
    List.length groups = List.length (unique keys) /\
    Forall (Forall (fun v => isna v = false)) groups /\
    (forall c,
       In c keys ->
       List.length (filter (cell_eqb c) (unique keys))
       = if isna c then 0 else 1) /\
    total_size groups = List.length (filter complete_row (rows keys vals)).
Proof.
  intros Hk Hv Hkeys. exists (partitions keys vals).
  split; [apply groups_of_spec; assumption|].
  split; [unfold partitions; apply length_map|].
  split; [|split].
  - unfold partitions. apply Forall_forall. intros g Hg.
    apply in_map_iff in Hg as (k & <- & _).
    apply Forall_forall. intros v Hin. unfold dropna in Hin.
    apply filter_In in Hin as [_ Hn]. unfold notna in Hn.
    apply negb_true_iff. assumption.
  - intros c Hin. apply one_group_per_row; assumption.
  - apply partitions_total_size. assumption.
Qed.

Lemma X15_groups_split_the_rows_witness :
  (getitem Cases.grade_missing "Overall Qual"
   = ok [CFloat 5; CFloat nan; CFloat 5; CFloat 7] /\
   getitem Cases.grade_missing "SalePrice_log"
   = ok [CFloat 12; CFloat 11.5; CFloat nan; CFloat 12.25] /\
   one_dtype [CFloat 5; CFloat nan; CFloat 5; CFloat 7] = true) /\
  exists groups,
    groups_of Cases.grade_missing "SalePrice_log" "Overall Qual"
    = ok groups /\
    List.length groups = 3 /\
    total_size groups = 2.
Proof.
  split; [split; [reflexivity|]; split; reflexivity|].
  destruct (X15_groups_split_the_rows Cases.grade_missing "Overall Qual"
              [CFloat 5; CFloat nan; CFloat 5; CFloat 7]
              [CFloat 12; CFloat 11.5; CFloat nan; CFloat 12.25]
              eq_refl eq_refl eq_refl)
    as (groups & Hg & Hlen & _ & _ & Htot).
  exists groups. split; [exact Hg|]. split; [exact Hlen | exact Htot].
Defined.

(* ===================================================================== *)
(** ** The Kruskal-Wallis test *)

(** X16. A neighbourhood routine that completes has run the Levene and
    the Kruskal-Wallis test of the library on the same arrays: one array
    for each distinct value of the column [Neighborhood], holding the log
    prices of the rows with that value, the missing ones left out; app.py
    shows the H statistic and the p-value the library returned for these
    arrays, streamlit_app.py the p-value. *)
Theorem X16_kruskal_runs_on_the_neighbourhood_groups `{Libs} df w w' :
  app_routine Neighborhood df w = (w', ok tt) \/
  streamlit_routine Neighborhood df w = (w', ok tt) ->
  exists keys vals ks samples lev h p,
    getitem df "Neighborhood" = ok keys /\
    getitem df "SalePrice_log" = ok vals /\
    distinct_values keys ks /\
    Forall2 (fun k a => sample_of (group_of_rows keys vals k) a) ks samples /\
    stats_levene samples = ok lev /\
    stats_kruskal samples = ok (h, p) /\
    ((app_routine Neighborhood df w = (w', ok tt) /\
      added w w'
        (Write [Lit "**Teste de Kruskal-Wallis:** Estatística H = "; Fix2 h;
                Lit ", p-valor = "; Sci4 p])) \/
     (streamlit_routine Neighborhood df w = (w', ok tt) /\
      added w w'
        (Metric "P-valor de Kruskal-Wallis" [Sci4 p]
           (Some "Rejeitamos H0: Diferença Significativa")))).
Proof.
  intros [Hr|Hr]; pose proof Hr as Hrun; simpl in Hr;
    [ apply app_neighborhood_kruskal in Hr
    | apply streamlit_neighborhood_kruskal in Hr ];
    destruct Hr as (vals & groups & lev & h & p & Hv & Hg & Hl & Hk & Ha);
    destruct (neighborhood_samples df vals groups lev (h, p) Hv Hg Hl Hk)
      as (keys & ks & samples & Hkeys & Hd & Hs & Hl' & Hk');
    exists keys, vals, ks, samples, lev, h, p;
    (split; [assumption|]); (split; [assumption|]); (split; [assumption|]);
    (split; [assumption|]); (split; [assumption|]); (split; [assumption|]);
    [left | right]; split; assumption.
Qed.

Lemma X16_kruskal_runs_on_the_neighbourhood_groups_witness :
  (@streamlit_routine (Sample.libs 0.5 0.5) Neighborhood Sample.houses_loaded
     empty_world
   = (fst (@streamlit_routine (Sample.libs 0.5 0.5) Neighborhood
             Sample.houses_loaded empty_world), ok tt)) /\
  exists ks samples,
    distinct_values
      [CStr "NAmes"; CStr "Gilbert"; CStr "NAmes"; CStr "Gilbert"] ks /\
    Forall2
      (fun k a =>
         sample_of
           (group_of_rows
              [CStr "NAmes"; CStr "Gilbert"; CStr "NAmes"; CStr "Gilbert"]
              [CFloat 215000; CFloat 105000; CFloat 172000; CFloat 244000]
              k) a)
      ks samples /\
    exists lev h p,
      @stats_levene (Sample.libs 0.5 0.5) samples = ok lev /\
      @stats_kruskal (Sample.libs 0.5 0.5) samples = ok (h, p).
Proof.
  assert (Hrun : @streamlit_routine (Sample.libs 0.5 0.5) Neighborhood
                   Sample.houses_loaded empty_world
                 = (fst (@streamlit_routine (Sample.libs 0.5 0.5) Neighborhood
                           Sample.houses_loaded empty_world), ok tt))
    by (vm_compute; reflexivity).
  split; [exact Hrun|].
  destruct (@X16_kruskal_runs_on_the_neighbourhood_groups
              (Sample.libs 0.5 0.5) Sample.houses_loaded empty_world
              (fst (@streamlit_routine (Sample.libs 0.5 0.5) Neighborhood
                      Sample.houses_loaded empty_world))
              (or_intror Hrun))
    as (keys & vals & ks & samples & lev & h & p
        & Hkeys & Hvals & Hd & Hs & Hl & Hk & _).
  vm_compute in Hkeys. injection Hkeys as <-.
  vm_compute in Hvals. injection Hvals as <-.
  exists ks, samples. split; [exact Hd|]. split; [exact Hs|].
  exists lev, h, p. split; assumption.
Defined.

(* ===================================================================== *)
(** ** A range the slider rejects *)

Lemma fltb_irrefl a : (a <? a)%float = false.
Proof.
  destruct (a <? a)%float eqn:E; [|reflexivity].
  pose proof (fltb_leb _ _ E) as Hle.
  apply fleb_not_nan in Hle as [Hn _].
  rewrite FloatAxioms.ltb_spec in E. unfold SFltb in E.
  apply is_nan_SF in Hn. pose proof (SFeqb_refl _ Hn) as He.
  unfold SFeqb in He. destruct (SFcompare (Prim2SF a) (Prim2SF a)) as [[| |]|];
    discriminate.
Qed.

Lemma fold_left_const (op : float -> float -> float) x n :
  op x x = x -> fold_left op (repeat x n) x = x.
Proof.
  intros Hop. induction n as [|n IH]; simpl; [reflexivity|].
  rewrite Hop. assumption.
Qed.

Lemma Forall_eq_repeat {A} (x : A) l :
  Forall (fun f => f = x) l -> l = repeat x (List.length l).
Proof.
  induction 1 as [|y l -> _ IH]; simpl; [reflexivity|]. f_equal. assumption.
Qed.

(** The least and the greatest of equal numbers are the same number. *)
Lemma reduce_flat x xs :
  Forall (fun f => f = x) xs -> reduce fmin xs = reduce fmax xs.
Proof.
  intros Hx. rewrite (Forall_eq_repeat x xs Hx).
  unfold reduce, skipna. generalize (List.length xs) as n. intros n.
  destruct (PrimFloat.is_nan x) eqn:E.
  - assert (Hnil : filter (fun f => negb (PrimFloat.is_nan f)) (repeat x n)
                   = []).
    { induction n as [|n IH]; simpl; [reflexivity|]. rewrite E. assumption. }
    rewrite Hnil. reflexivity.
  - assert (Hall : filter (fun f => negb (PrimFloat.is_nan f)) (repeat x n)
                   = repeat x n).
    { induction n as [|n IH]; simpl; [reflexivity|]. rewrite E. simpl.
      f_equal. assumption. }
    rewrite Hall. destruct n as [|n]; simpl; [reflexivity|].
    rewrite !fold_left_const; auto; unfold fmin, fmax;
      rewrite fltb_irrefl; reflexivity.
Qed.

Lemma slider_range_flat x xs :
  Forall (fun f => f = x) xs ->
  slider_range (reduce fmin xs) (reduce fmax xs) = false.
Proof.
  intros Hx. unfold slider_range. rewrite (reduce_flat x xs Hx).
  rewrite fltb_irrefl. apply andb_false_r.
Qed.

(** X17. A table whose log prices are all equal, that of a file with a
    single row for instance, is not analysed by streamlit_app.py: the
    slider rejects the range from the least to the greatest log price, and
    the run ends there with the exception of Streamlit, under the title
    block and the texts of the sidebar, before the filter, the tabs and
    the three routines. *)
Theorem X17_flat_prices_stop_at_the_slider `{Libs} env df0 df logp xs x w :
  csv env = Some df0 -> loaded df0 df ->
  getitem df "SalePrice_log" = ok logp -> to_floats logp = ok xs ->
  Forall (fun f => f = x) xs ->
  StreamlitApp.script env w
  = ({| page := page w ++ streamlit_head w;
        figures := figures w; blocks := blocks w |},
     raise_ StreamlitAPIException).
Proof.
  intros Hcsv Hl Hlog Hxs Hflat.
  eapply streamlit_script_stops; try eassumption.
  eapply slider_range_flat. eassumption.
Qed.

Lemma one_house_is_loaded :
  @loaded (Sample.libs 0.5 0.5) Cases.one_house Cases.one_house_loaded.
Proof.
  exists [CInt 215000], [CFloat 215000], [CStr "Attchd"].
  split; [reflexivity|]. split; [vm_compute; reflexivity|].
  split; [reflexivity|]. vm_compute. reflexivity.
Qed.

Lemma X17_flat_prices_stop_at_the_slider_witness :
  (@loaded (Sample.libs 0.5 0.5) Cases.one_house Cases.one_house_loaded /\
   getitem Cases.one_house_loaded "SalePrice_log" = ok [CFloat 215000] /\
   to_floats [CFloat 215000] = ok [215000%float] /\
   Forall (fun f => f = 215000%float) [215000%float]) /\
  rerun (@StreamlitApp.script (Sample.libs 0.5 0.5)
           {| csv := Some Cases.one_house; selected := 0;
              slider_value := None |})
  = streamlit_head empty_world
    ++ [{| place := []; widget := ExceptionBox StreamlitAPIException |}].
Proof.
  assert (Hflat : Forall (fun f => f = 215000%float) [215000%float])
    by (repeat constructor).
  split.
  - split; [apply one_house_is_loaded|]. split; [reflexivity|].
    split; [reflexivity | exact Hflat].
  - unfold rerun.
    rewrite (@X17_flat_prices_stop_at_the_slider (Sample.libs 0.5 0.5)
               {| csv := Some Cases.one_house; selected := 0;
                  slider_value := None |}
               Cases.one_house Cases.one_house_loaded
               [CFloat 215000] [215000%float] 215000%float empty_world
               eq_refl one_house_is_loaded eq_refl eq_refl Hflat).
    reflexivity.
Defined.
